(** * Canvas TUI: the task aggregator and the task-creation fallback

    A shallow embedding of [canvas_tui.py]: the [CanvasAPI] client
    (the four fetch operations, [create_planner_note],
    [create_calendar_event], [create_task]) and [CanvasTUI.refresh_tasks]
    up to the sort of [self.tasks].  The configuration file, the modal
    form and the table widgets are not part of the model.

    - [Py]: the values that [response.json()] returns, the exceptions
      that the code can meet, and the dictionary, truth-value and
      iteration operations the code applies to such values.
    - [DT]: [datetime] as a count of microseconds on the proleptic
      Gregorian time line with an optional UTC offset; [timedelta]
      arithmetic with its overflow, zones, and the calendar.
    - [Iso]: [isoformat], [fromisoformat] and [str.replace('Z', ...)].
    - [Http]: requests, responses, and a state monad that threads the
      log of the requests sent; the remote side is a parameter.
    - [CanvasAPI], [CanvasTUI]: the two classes, method by method.
    - [Statements], [Sample]: vocabulary and a concrete environment.

    The libraries behind [dateutil.parser.isoparse], [ZoneInfo] and the
    formatting of f-strings are parameters of the model. *)

From Stdlib Require Import ZArith List String Ascii Bool Lia.
From Stdlib Require Import Permutation Sorted DecimalString.
Import ListNotations.

Set Warnings "-register-all".

Local Open Scope string_scope.
Local Open Scope Z_scope.

(* ================================================================== *)
(** * Python values and exceptions *)
(* ================================================================== *)

Module Py.

(** What [response.json()] can return.  JSON numbers are kept as
    integers: the program reads a number only through its truth value
    and through string formatting. *)
Inductive value : Type :=
| VNone
| VBool (b : bool)
| VInt (n : Z)
| VStr (s : string)
| VList (l : list value)
| VDict (d : list (string * value)).

(** The exception classes that the modelled code can meet.  All of them
    derive from [Exception], so [except Exception] catches each one. *)
Inductive exn : Type :=
| KeyError (key : string)
| TypeError
| AttributeError
| ValueError
| OverflowError
| RequestException (msg : string)
| JSONDecodeError (msg : string).

(** [str(e)] *)
Definition exn_str (e : exn) : string :=
  match e with
  | KeyError k => "'" ++ k ++ "'"
  | TypeError => "TypeError"
  | AttributeError => "AttributeError"
  | ValueError => "ValueError"
  | OverflowError => "date value out of range"
  | RequestException m => m
  | JSONDecodeError m => m
  end.

Inductive result (A : Type) : Type :=
| Ok (a : A)
| Raise (e : exn).

Arguments Ok {A} a.
Arguments Raise {A} e.

Definition bind {A B} (c : result A) (k : A -> result B) : result B :=
  match c with
  | Ok a => k a
  | Raise e => Raise e
  end.

(** [try: c  except Exception as e: h e] *)
Definition try_except {A} (c : result A) (h : exn -> result A) : result A :=
  match c with
  | Ok a => Ok a
  | Raise e => h e
  end.

Definition raises {A} (c : result A) : bool :=
  match c with Ok _ => false | Raise _ => true end.

Declare Scope py_scope.
Delimit Scope py_scope with py.
Notation "x <- c ;; k" := (bind c (fun x => k))
  (at level 100, c at next level, right associativity) : py_scope.
Local Open Scope py_scope.

(** Monadic map: a [for] loop that collects one result per element and
    stops at the first exception. *)
Fixpoint mapM {A B} (f : A -> result B) (l : list A) : result (list B) :=
  match l with
  | [] => Ok []
  | x :: xs =>
      y <- f x ;;
      ys <- mapM f xs ;;
      Ok (y :: ys)
  end.

(** ** Dictionaries: association lists in insertion order *)

Fixpoint lookup (k : string) (d : list (string * value)) : option value :=
  match d with
  | [] => None
  | (k', v) :: d' => if String.eqb k k' then Some v else lookup k d'
  end.

(** [d[k] = v]: an existing key keeps its position. *)
Fixpoint update (k : string) (v : value) (d : list (string * value))
  : list (string * value) :=
  match d with
  | [] => [(k, v)]
  | (k', v') :: d' =>
      if String.eqb k k' then (k, v) :: d' else (k', v') :: update k v d'
  end.

(** [x.get(k, default)]: only dictionaries have a [get] method. *)
Definition get_default (x : value) (k : string) (dflt : value) : result value :=
  match x with
  | VDict d =>
      match lookup k d with
      | Some v => Ok v
      | None => Ok dflt
      end
  | _ => Raise AttributeError
  end.

(** [x.get(k)] *)
Definition get (x : value) (k : string) : result value :=
  get_default x k VNone.

(** [x[k]] for a string key [k]. *)
Definition getitem (x : value) (k : string) : result value :=
  match x with
  | VDict d =>
      match lookup k d with
      | Some v => Ok v
      | None => Raise (KeyError k)
      end
  | _ => Raise TypeError
  end.

(** [x[k] = v] for a string key [k]; the updated object is returned. *)
Definition setitem (x : value) (k : string) (v : value) : result value :=
  match x with
  | VDict d => Ok (VDict (update k v d))
  | _ => Raise TypeError
  end.

Fixpoint chars (s : string) : list value :=
  match s with
  | EmptyString => []
  | String c s' => VStr (String c EmptyString) :: chars s'
  end.

(** [for x in v]: lists give their elements, dictionaries their keys,
    strings their characters; nothing else is iterable. *)
Definition iter (v : value) : result (list value) :=
  match v with
  | VList l => Ok l
  | VDict d => Ok (map (fun kv => VStr (fst kv)) d)
  | VStr s => Ok (chars s)
  | _ => Raise TypeError
  end.

(** [bool(v)] *)
Definition truthy (v : value) : bool :=
  match v with
  | VNone => false
  | VBool b => b
  | VInt n => negb (n =? 0)%Z
  | VStr s => negb (String.eqb s EmptyString)
  | VList l => match l with [] => false | _ => true end
  | VDict d => match d with [] => false | _ => true end
  end.

Definition is_none (v : value) : bool :=
  match v with VNone => true | _ => false end.

(** [v == s] for a string literal [s] *)
Definition eq_str (v : value) (s : string) : bool :=
  match v with VStr s' => String.eqb s' s | _ => false end.

(** [v in {s1, ..., sn}] for a set of string literals: the lookup
    hashes [v], which lists and dictionaries refuse. *)
Definition in_str_set (v : value) (set : list string) : result bool :=
  match v with
  | VList _ | VDict _ => Raise TypeError
  | _ => Ok (existsb (eq_str v) set)
  end.

(** [a or b], with [b] already evaluated *)
Definition or_else (a b : value) : value :=
  if truthy a then a else b.

End Py.

(* ================================================================== *)
(** * [datetime]: the time line, time zones and the calendar *)
(* ================================================================== *)

Module DT.

Import Py.
Local Open Scope py_scope.

Definition US_PER_SECOND : Z := 1000000.
Definition US_PER_MINUTE : Z := 60 * US_PER_SECOND.
Definition US_PER_HOUR : Z := 60 * US_PER_MINUTE.
Definition US_PER_DAY : Z := 24 * US_PER_HOUR.

(** [date.max.toordinal()], the ordinal of 9999-12-31 *)
Definition MAXORDINAL : Z := 3652059.

(** Microseconds from [datetime.min] to [datetime.max] *)
Definition MAX_US : Z := MAXORDINAL * US_PER_DAY - 1.

(** A [datetime]: [wall] counts the microseconds of its calendar fields
    since 0001-01-01T00:00:00; [tzinfo] is [None] for a naive value and
    the UTC offset in microseconds for an aware one. *)
Record datetime : Type := mk_datetime {
  wall : Z;
  tzinfo : option Z
}.

Definition in_range (w : Z) : bool := (0 <=? w) && (w <=? MAX_US).

(** A value that Python can hold: fields within [datetime.min] and
    [datetime.max], offset strictly between -24 and +24 hours. *)
Definition valid (d : datetime) : Prop :=
  0 <= wall d <= MAX_US /\
  match tzinfo d with
  | None => True
  | Some off => - US_PER_DAY < off < US_PER_DAY
  end.

(** [timedelta(days=, hours=, seconds=)] in microseconds *)
Definition timedelta (days hours seconds : Z) : Z :=
  days * US_PER_DAY + hours * US_PER_HOUR + seconds * US_PER_SECOND.

(** [d + delta]: arithmetic on the fields, the zone is kept *)
Definition add (d : datetime) (delta : Z) : result datetime :=
  if in_range (wall d + delta)
  then Ok (mk_datetime (wall d + delta) (tzinfo d))
  else Raise OverflowError.

(** [d - delta] *)
Definition sub (d : datetime) (delta : Z) : result datetime :=
  add d (- delta).

(** [d.replace(tzinfo=tz)] *)
Definition replace_tzinfo (d : datetime) (tz : option Z) : datetime :=
  mk_datetime (wall d) tz.

(** [timezone.utc] *)
Definition utc : option Z := Some 0.

(** A zone of the tz database, given by its UTC offset at each instant
    (microseconds since 0001-01-01T00:00:00 UTC). *)
Definition zone : Type := Z -> Z.

(** [tz.fromutc]: the wall clock of zone [tz] at instant [t] *)
Definition fromutc (tz : zone) (t : Z) : result datetime :=
  if in_range (t + tz t)
  then Ok (mk_datetime (t + tz t) (Some (tz t)))
  else Raise OverflowError.

(** [d.astimezone(tz)] for an aware [d] whose fields are [w] and whose
    offset is [off]: [(d - off).replace(tzinfo=tz)], then [tz.fromutc]. *)
Definition astimezone (tz : zone) (w off : Z) : result datetime :=
  if in_range (w - off) then fromutc tz (w - off) else Raise OverflowError.

(** The instant an aware datetime denotes; a naive one read as UTC *)
Definition instant (d : datetime) : Z :=
  match tzinfo d with
  | Some off => wall d - off
  | None => wall d
  end.

(** [a <= b] and [a < b] on naive values: field-wise comparison *)
Definition le (a b : datetime) : bool := wall a <=? wall b.
Definition lt (a b : datetime) : bool := wall a <? wall b.

(** ** The proleptic Gregorian calendar *)

Definition is_leap (y : Z) : bool :=
  (y mod 4 =? 0) && (negb (y mod 100 =? 0) || (y mod 400 =? 0)).

Definition days_before_year (y : Z) : Z :=
  let y := y - 1 in y * 365 + y / 4 - y / 100 + y / 400.

Definition DAYS_IN_MONTH (m : Z) : Z :=
  match m with
  | 1 => 31 | 2 => 28 | 3 => 31 | 4 => 30 | 5 => 31 | 6 => 30
  | 7 => 31 | 8 => 31 | 9 => 30 | 10 => 31 | 11 => 30 | 12 => 31
  | _ => 0
  end.

Definition DAYS_BEFORE_MONTH (m : Z) : Z :=
  match m with
  | 1 => 0 | 2 => 31 | 3 => 59 | 4 => 90 | 5 => 120 | 6 => 151
  | 7 => 181 | 8 => 212 | 9 => 243 | 10 => 273 | 11 => 304 | 12 => 334
  | _ => 0
  end.

Definition days_in_month (y m : Z) : Z :=
  if (m =? 2) && is_leap y then 29 else DAYS_IN_MONTH m.

Definition days_before_month (y m : Z) : Z :=
  DAYS_BEFORE_MONTH m + (if (m >? 2) && is_leap y then 1 else 0).

(** Ordinal of a date, 0001-01-01 being day 1 *)
Definition ymd2ord (y m d : Z) : Z :=
  days_before_year y + days_before_month y m + d.

Definition DI400Y : Z := 146097.
Definition DI100Y : Z := 36524.
Definition DI4Y : Z := 1461.

(** Month and day of the [n]-th day (from 0) of a year *)
Definition month_day (leapyear : bool) (n : Z) : Z * Z :=
  let month := Z.shiftr (n + 50) 5 in
  let preceding :=
    DAYS_BEFORE_MONTH month + (if (month >? 2) && leapyear then 1 else 0) in
  if preceding >? n then
    let month := month - 1 in
    let preceding :=
      preceding
      - (DAYS_IN_MONTH month + (if (month =? 2) && leapyear then 1 else 0)) in
    (month, n - preceding + 1)
  else (month, n - preceding + 1).

(** Date of an ordinal, by 400-, 100-, 4- and 1-year cycles *)
Definition ord2ymd (n : Z) : Z * Z * Z :=
  let n := n - 1 in
  let n400 := n / DI400Y in
  let n := n mod DI400Y in
  let year := n400 * 400 + 1 in
  let n100 := n / DI100Y in
  let n := n mod DI100Y in
  let n4 := n / DI4Y in
  let n := n mod DI4Y in
  let n1 := n / 365 in
  let n := n mod 365 in
  let year := year + n100 * 100 + n4 * 4 + n1 in
  if (n1 =? 4) || (n100 =? 4) then (year - 1, 12, 31)
  else
    let leapyear := (n1 =? 3) && (negb (n4 =? 24) || (n100 =? 3)) in
    let '(month, day) := month_day leapyear n in
    (year, month, day).

(** Calendar fields of a naive time-line value *)
Record fields : Type := mk_fields {
  year : Z; month : Z; day : Z;
  hour : Z; minute : Z; second : Z; microsecond : Z
}.

Definition fields_of (w : Z) : fields :=
  let '(y, m, d) := ord2ymd (w / US_PER_DAY + 1) in
  let r := w mod US_PER_DAY in
  mk_fields y m d
    (r / US_PER_HOUR) ((r / US_PER_MINUTE) mod 60)
    ((r / US_PER_SECOND) mod 60) (r mod US_PER_SECOND).

(** The constructor [datetime(y, m, d, hh, mm, ss, us)] checks each
    field and raises [ValueError] outside its range. *)
Definition fields_ok (f : fields) : bool :=
  (1 <=? year f) && (year f <=? 9999) &&
  (1 <=? month f) && (month f <=? 12) &&
  (1 <=? day f) && (day f <=? days_in_month (year f) (month f)) &&
  (0 <=? hour f) && (hour f <? 24) &&
  (0 <=? minute f) && (minute f <? 60) &&
  (0 <=? second f) && (second f <? 60) &&
  (0 <=? microsecond f) && (microsecond f <? US_PER_SECOND).

Definition wall_of (f : fields) : Z :=
  (ymd2ord (year f) (month f) (day f) - 1) * US_PER_DAY
  + hour f * US_PER_HOUR + minute f * US_PER_MINUTE
  + second f * US_PER_SECOND + microsecond f.

End DT.

(* ================================================================== *)
(** * ISO 8601 text: [isoformat], [fromisoformat], [str.replace] *)
(* ================================================================== *)

Module Iso.

Import Py DT.

Definition digit (n : Z) : ascii := ascii_of_nat (Z.to_nat (48 + n mod 10)).

(** ["%02d" % n], ["%04d" % n] and ["%06d" % n] for a field [n] that
    fits the width *)
Definition fmt02 (n : Z) : string :=
  String (digit (n / 10)) (String (digit n) EmptyString).
Definition fmt04 (n : Z) : string :=
  String (digit (n / 1000)) (String (digit (n / 100)) (fmt02 n)).
Definition fmt06 (n : Z) : string :=
  String (digit (n / 100000)) (String (digit (n / 10000)) (fmt04 n)).

Definition format_date (f : fields) : string :=
  fmt04 (year f) ++ "-" ++ fmt02 (month f) ++ "-" ++ fmt02 (day f).

(** [timespec='auto']: the fraction is printed when it is not zero *)
Definition format_time (f : fields) : string :=
  fmt02 (hour f) ++ ":" ++ fmt02 (minute f) ++ ":" ++ fmt02 (second f)
  ++ (if microsecond f =? 0 then EmptyString
      else "." ++ fmt06 (microsecond f)).

Definition format_offset (tz : option Z) : string :=
  match tz with
  | None => EmptyString
  | Some off =>
      let sign := if off <? 0 then "-" else "+" in
      let a := Z.abs off in
      let hh := a / US_PER_HOUR in
      let mm := (a mod US_PER_HOUR) / US_PER_MINUTE in
      let ss := a mod US_PER_MINUTE in
      sign ++ fmt02 hh ++ ":" ++ fmt02 mm
      ++ (if ss =? 0 then EmptyString
          else ":" ++ fmt02 (ss / US_PER_SECOND)
               ++ (if ss mod US_PER_SECOND =? 0 then EmptyString
                   else "." ++ fmt06 (ss mod US_PER_SECOND)))
  end.

(** [d.date().isoformat()] *)
Definition date_isoformat (d : datetime) : string :=
  format_date (fields_of (wall d)).

(** [d.isoformat()] *)
Definition isoformat (d : datetime) : string :=
  let f := fields_of (wall d) in
  format_date f ++ "T" ++ format_time f ++ format_offset (tzinfo d).

(** [s.replace('Z', '+00:00')] *)
Fixpoint replace_Z (s : string) : string :=
  match s with
  | EmptyString => EmptyString
  | String c s' =>
      if Ascii.eqb c "Z" then "+00:00" ++ replace_Z s'
      else String c (replace_Z s')
  end.

(** ** Reading the text back *)

Definition digit_val (c : ascii) : option Z :=
  let n := Z.of_nat (nat_of_ascii c) in
  if (48 <=? n) && (n <=? 57) then Some (n - 48) else None.

Fixpoint parse_digits (k : nat) (acc : Z) (s : string) : option (Z * string) :=
  match k with
  | O => Some (acc, s)
  | S k' =>
      match s with
      | String c s' =>
          match digit_val c with
          | Some v => parse_digits k' (acc * 10 + v) s'
          | None => None
          end
      | EmptyString => None
      end
  end.

Definition expect (c : ascii) (s : string) : option string :=
  match s with
  | String c' s' => if Ascii.eqb c c' then Some s' else None
  | EmptyString => None
  end.

Definition obind {A B} (o : option A) (k : A -> option B) : option B :=
  match o with Some a => k a | None => None end.

Notation "' p <~ c ;; k" := (obind c (fun p => k))
  (at level 100, p pattern, c at next level, right associativity).
Notation "x <~ c ;; k" := (obind c (fun x => k))
  (at level 100, c at next level, right associativity).

(** [YYYY-MM-DD] *)
Definition parse_date (s : string) : option (Z * Z * Z * string) :=
  '(y, s) <~ parse_digits 4 0 s ;;
  s <~ expect "-" s ;;
  '(m, s) <~ parse_digits 2 0 s ;;
  s <~ expect "-" s ;;
  '(d, s) <~ parse_digits 2 0 s ;;
  Some (y, m, d, s).

(** An optional [.ffffff] *)
Definition parse_fraction (s : string) : option (Z * string) :=
  match s with
  | String "." s' => parse_digits 6 0 s'
  | _ => Some (0, s)
  end.

(** [HH:MM:SS[.ffffff]] *)
Definition parse_hh_mm_ss_ff (s : string) : option (Z * Z * Z * Z * string) :=
  '(hh, s) <~ parse_digits 2 0 s ;;
  s <~ expect ":" s ;;
  '(mm, s) <~ parse_digits 2 0 s ;;
  s <~ expect ":" s ;;
  '(ss, s) <~ parse_digits 2 0 s ;;
  '(us, s) <~ parse_fraction s ;;
  Some (hh, mm, ss, us, s).

(** The offset after the time: nothing, or a sign followed by
    [HH:MM[:SS[.ffffff]]] up to the end of the text *)
Definition parse_offset (s : string) : option (option Z) :=
  match s with
  | EmptyString => Some None
  | String c s' =>
      sign <~ (if Ascii.eqb c "+" then Some 1
               else if Ascii.eqb c "-" then Some (-1) else None) ;;
      '(hh, s) <~ parse_digits 2 0 s' ;;
      s <~ expect ":" s ;;
      '(mm, s) <~ parse_digits 2 0 s ;;
      match s with
      | EmptyString =>
          Some (Some (sign * (hh * US_PER_HOUR + mm * US_PER_MINUTE)))
      | _ =>
          s <~ expect ":" s ;;
          '(ss, s) <~ parse_digits 2 0 s ;;
          '(us, s) <~ parse_fraction s ;;
          match s with
          | EmptyString =>
              Some (Some (sign * (hh * US_PER_HOUR + mm * US_PER_MINUTE
                                  + ss * US_PER_SECOND + us)))
          | _ => None
          end
      end
  end.

Definition offset_ok (tz : option Z) : bool :=
  match tz with
  | None => true
  | Some off => (- US_PER_DAY <? off) && (off <? US_PER_DAY)
  end.

(** [datetime.fromisoformat(s)] on the texts that [isoformat] writes:
    a date, one separator character, a time with seconds and an optional
    offset.  Every CPython release since 3.7 reads this language in the
    same way; the program calls [fromisoformat] on nothing else (see
    [create_task]).  A text outside it is answered with [ValueError]. *)
Definition fromisoformat (s : string) : result datetime :=
  match
    ('(y, m, d, s) <~ parse_date s ;;
     s <~ (match s with String _ s' => Some s' | EmptyString => None end) ;;
     '(hh, mm, ss, us, s) <~ parse_hh_mm_ss_ff s ;;
     tz <~ parse_offset s ;;
     Some (mk_fields y m d hh mm ss us, tz))
  with
  | Some (f, tz) =>
      if fields_ok f && offset_ok tz
      then Ok (mk_datetime (wall_of f) tz)
      else Raise ValueError
  | None => Raise ValueError
  end.

(** A reading of [dateutil.parser.isoparse] on three usual Canvas
    shapes, used to evaluate the program on sample payloads: a bare date
    [YYYY-MM-DD] (midnight, naive), and [YYYY-MM-DDTHH:MM:SS] either
    naive, with [Z], or with [+HH:MM].  The theorems below hold for any
    parser, this one included. *)
Definition isoparse_sample (v : value) : result datetime :=
  match v with
  | VStr s =>
      match parse_date s with
      | Some (y, m, d, EmptyString) =>
          let f := mk_fields y m d 0 0 0 0 in
          if fields_ok f then Ok (mk_datetime (wall_of f) None)
          else Raise ValueError
      | _ => fromisoformat (replace_Z s)
      end
  | _ => Raise TypeError
  end.

End Iso.

(* ================================================================== *)
(** * HTTP: requests, responses and the request log *)
(* ================================================================== *)

Module Http.

Import Py.

Inductive method : Type := GET | POST.

(** One call of [requests.get] or [requests.post]: [data] is the
    [params] dictionary of a GET and the [json] payload of a POST. *)
Record request : Type := mk_request {
  meth : method;
  url : string;
  authorization : string;
  data : value;
  timeout : Z
}.

(** [json] is what [response.json()] does: the decoded body, or the
    exception raised on a body that is not JSON. *)
Record response : Type := mk_response {
  status_code : Z;
  text : string;
  json : result value
}.

(** The remote side: given the requests already sent and a new one, the
    call returns a response or raises (connection error, timeout). *)
Definition server : Type := list request -> request -> result response.

(** Computations that send requests and may raise: the log of requests
    sent so far is threaded through and survives an exception. *)
Definition M (A : Type) : Type := list request -> result A * list request.

Definition ret {A} (a : A) : M A := fun log => (Ok a, log).

Definition lift {A} (c : result A) : M A := fun log => (c, log).

Definition bindM {A B} (c : M A) (k : A -> M B) : M B :=
  fun log =>
    match c log with
    | (Ok a, log') => k a log'
    | (Raise e, log') => (Raise e, log')
    end.

(** [try: c  except Exception as e: h e] *)
Definition try_exceptM {A} (c : M A) (h : exn -> M A) : M A :=
  fun log =>
    match c log with
    | (Ok a, log') => (Ok a, log')
    | (Raise e, log') => h e log'
    end.

Definition send (srv : server) (r : request) : M response :=
  fun log => (srv log r, (log ++ [r])%list).

Declare Scope http_scope.
Delimit Scope http_scope with http.
Notation "x <- c ;; k" := (bindM c (fun x => k))
  (at level 100, c at next level, right associativity) : http_scope.

Fixpoint mapMM {A B} (f : A -> M B) (l : list A) : M (list B) :=
  match l with
  | [] => ret []
  | x :: xs =>
      bindM (f x) (fun y => bindM (mapMM f xs) (fun ys => ret (y :: ys)))
  end.

End Http.

(* ================================================================== *)
(** * [class CanvasAPI] *)
(* ================================================================== *)

Module CanvasAPI.

Import Py DT Iso Http.

Record t : Type := mk_api {
  base_url : string;
  token : string
}.

Section Client.

(** The remote Canvas instance *)
Variable srv : server.

(** [str(v)], as an f-string formats a value *)
Variable py_format : value -> string.

Variable self : t.

Local Open Scope http_scope.

(** [self.headers['Authorization']] *)
Definition headers : string := "Bearer " ++ token self.

Definition requests_get (u : string) (params : value) : M response :=
  send srv (mk_request GET u headers params 10).

Definition requests_post (u : string) (payload : value) : M response :=
  send srv (mk_request POST u headers payload 10).

Definition get_active_courses : M value :=
  try_exceptM
    (response <- requests_get (base_url self ++ "/api/v1/courses")
                   (VDict [("enrollment_state", VStr "active");
                           ("per_page", VInt 50)]) ;;
     if status_code response =? 200 then lift (json response)
     else ret (VList []))
    (fun _ => ret (VList [])).

Definition get_assignments (course_id : value) : M value :=
  try_exceptM
    (response <- requests_get
                   (base_url self ++ "/api/v1/courses/"
                    ++ py_format course_id ++ "/assignments")
                   (VDict [("per_page", VInt 50);
                           ("order_by", VStr "due_at")]) ;;
     if status_code response =? 200 then lift (json response)
     else ret (VList []))
    (fun _ => ret (VList [])).

Definition get_planner_notes : M value :=
  try_exceptM
    (response <- requests_get (base_url self ++ "/api/v1/planner_notes")
                   (VDict [("per_page", VInt 50)]) ;;
     if status_code response =? 200 then lift (json response)
     else ret (VList []))
    (fun _ => ret (VList [])).

Definition get_calendar_events (start_date end_date : datetime) : M value :=
  let params :=
    VDict [("type", VStr "event");
           ("start_date", VStr (date_isoformat start_date));
           ("end_date", VStr (date_isoformat end_date));
           ("per_page", VInt 50)] in
  try_exceptM
    (response <- requests_get (base_url self ++ "/api/v1/calendar_events")
                   params ;;
     if status_code response =? 200 then lift (json response)
     else ret (VList []))
    (fun _ => ret (VList [])).

(** The result dictionaries of the create methods *)
Definition success (d : value) (m : string) : value :=
  VDict [("success", VBool true); ("data", d); ("method", VStr m)].

Definition failure (err : string) : value :=
  VDict [("success", VBool false); ("error", VStr err)].

Definition all_failed : value :=
  VDict [("success", VBool false); ("error", VStr "All methods failed");
         ("method", VStr "none")].

Definition planner_note_payload
  (title details todo_date : string) (course_id : value) : value :=
  let payload :=
    [("title", VStr title); ("details", VStr details);
     ("todo_date", VStr todo_date)] in
  if truthy course_id then VDict (update "course_id" course_id payload)
  else VDict payload.

Definition create_planner_note
  (title details todo_date : string) (course_id : value) : M value :=
  let payload := planner_note_payload title details todo_date course_id in
  try_exceptM
    (response <- requests_post (base_url self ++ "/api/v1/planner_notes")
                   payload ;;
     if (status_code response =? 200) || (status_code response =? 201)
     then (d <- lift (json response) ;; ret (success d "planner_note"))
     else ret (failure (text response)))
    (fun e => ret (failure (exn_str e))).

Definition nl : string := String "010" EmptyString.

Definition calendar_event_payload
  (title description start_at end_at : string) (course_id : value) : value :=
  let event :=
    [("title", VStr ("📋 " ++ title));
     ("description", VStr ("Task: " ++ title ++ nl ++ nl ++ description));
     ("start_at", VStr start_at);
     ("end_at", VStr end_at);
     ("all_day", VBool false)] in
  if truthy course_id
  then VDict [("calendar_event",
               VDict (update "context_code"
                        (VStr ("course_" ++ py_format course_id)) event))]
  else VDict [("calendar_event", VDict event)].

(** [(datetime.fromisoformat(start_at.replace('Z', '+00:00'))
      + timedelta(hours=1)).isoformat()], evaluated before the [try] *)
Definition end_at_of (start_at : string) : result string :=
  Py.bind (fromisoformat (replace_Z start_at)) (fun d =>
  Py.bind (add d (timedelta 0 1 0)) (fun e =>
  Ok (isoformat e))).

Definition create_calendar_event
  (title description start_at : string) (course_id : value) : M value :=
  end_at <- lift (end_at_of start_at) ;;
  let payload :=
    calendar_event_payload title description start_at end_at course_id in
  try_exceptM
    (response <- requests_post (base_url self ++ "/api/v1/calendar_events")
                   payload ;;
     if (status_code response =? 200) || (status_code response =? 201)
     then (d <- lift (json response) ;; ret (success d "calendar_event"))
     else ret (failure (text response)))
    (fun e => ret (failure (exn_str e))).

Definition create_task
  (title description : string) (due_date : datetime) (course_id : value)
  : M value :=
  let iso_date := isoformat due_date in
  result <- create_planner_note title description iso_date course_id ;;
  ok <- lift (getitem result "success") ;;
  if truthy ok then ret result
  else
    result <- create_calendar_event title description iso_date course_id ;;
    ok <- lift (getitem result "success") ;;
    if truthy ok then ret result
    else ret all_failed.

End Client.

End CanvasAPI.

(* ================================================================== *)
(** * [CanvasTUI.refresh_tasks]: normalise, filter, sort *)
(* ================================================================== *)

Module CanvasTUI.

Import Py DT Iso Http.

(** The dictionaries appended to [self.tasks] *)
Record task : Type := mk_task {
  title : value;
  due_date : datetime;
  course : value;
  type : string;
  task_url : value;
  raw : value
}.

(** The two readings of the system clock taken by [refresh_tasks]:
    [datetime.now()] gives the wall clock of the machine's own zone at
    instant [first_read]; [datetime.now(ZoneInfo('Asia/Manila'))] is
    evaluated at instant [second_read]. *)
Record clock : Type := mk_clock {
  first_read : Z;
  system_zone : zone;
  second_read : Z
}.

Section Refresh.

Variable srv : server.
Variable py_format : value -> string.

(** [dateutil.parser.isoparse] *)
Variable isoparse : value -> result datetime.

(** [ZoneInfo('Asia/Manila')] *)
Variable manila : zone.

Variable canvas : CanvasAPI.t.

Local Open Scope py_scope.

(** [try: body  except Exception: pass] around the body of one loop
    iteration; the body appends at most one task, as its last step. *)
Definition try_pass (body : result (option task)) : result (option task) :=
  try_except body (fun _ => Ok None).

(** The conversion repeated in each loop:
    [due.astimezone(Manila)] for an aware value,
    [due.replace(tzinfo=timezone.utc).astimezone(Manila)] for a naive
    one, then [.replace(tzinfo=None)]. *)
Definition to_manila_naive (due : datetime) : result datetime :=
  due' <- match tzinfo due with
          | Some off => astimezone manila (wall due) off
          | None =>
              let due_utc := replace_tzinfo due utc in
              astimezone manila (wall due_utc) 0
          end ;;
  Ok (replace_tzinfo due' None).

(** [x.replace(tzinfo=timezone.utc).astimezone(Manila).replace(tzinfo=None)]
    for the naive bounds [cutoff] and [future] *)
Definition bound_manila (x : datetime) : result datetime :=
  x' <- astimezone manila (wall (replace_tzinfo x utc)) 0 ;;
  Ok (replace_tzinfo x' None).

Section Loops.

Variables now_manila cutoff future : datetime.

(** One iteration of [for note in planner_notes] *)
Definition note_task (note : value) : result (option task) :=
  ws <- get note "workflow_state" ;;
  if negb (is_none ws || eq_str ws "active") then Ok None
  else
    todo <- get note "todo_date" ;;
    if truthy todo then
      try_pass
        (cid <- get note "course_id" ;;
         note_url <-
           (if truthy cid then
              c <- getitem note "course_id" ;;
              i <- getitem note "id" ;;
              Ok (VStr (CanvasAPI.base_url canvas ++ "/courses/"
                        ++ py_format c
                        ++ "/planner_items?filter=planner_note_"
                        ++ py_format i))
            else Ok VNone) ;;
         todo_date <- getitem note "todo_date" ;;
         due <- isoparse todo_date ;;
         due_naive <- to_manila_naive due ;;
         cutoff_manila <- bound_manila cutoff ;;
         future_manila <- bound_manila future ;;
         if le now_manila due_naive && le due_naive future_manila then
           t <- getitem note "title" ;;
           c <- get_default note "course_id" (VStr "Personal") ;;
           Ok (Some (mk_task t due_naive c "Planner Note" note_url note))
         else Ok None)
    else Ok None.

(** One iteration of [for event in calendar_events] *)
Definition event_task (event : value) : result (option task) :=
  try_pass
    (event_url <- get event "html_url" ;;
     start_at <- get event "start_at" ;;
     due <-
       (if truthy start_at then
          s <- getitem event "start_at" ;;
          d <- isoparse s ;;
          Ok (Some d)
        else
          all_day <- get event "all_day_date" ;;
          if truthy all_day then
            s <- getitem event "all_day_date" ;;
            d <- isoparse s ;;
            Ok (Some d)
          else Ok None) ;;
     match due with
     | None => Ok None
     | Some due =>
         due_naive <- to_manila_naive due ;;
         cutoff_manila <- bound_manila cutoff ;;
         future_manila <- bound_manila future ;;
         if le now_manila due_naive && le due_naive future_manila then
           name <- get event "context_name" ;;
           context <-
             (if truthy name then Ok name
              else get_default event "context_code" (VStr "Calendar")) ;;
           t <- get_default event "title" (VStr "Untitled Event") ;;
           Ok (Some (mk_task t due_naive context "Calendar Event"
                       event_url event))
         else Ok None
     end).

(** The completion test of the assignment loop:
    [assignment.get("has_submitted_submissions") or
     submission.get("workflow_state") in {"submitted", "graded", "complete"}] *)
Definition completed (assignment : value) : result bool :=
  sub <- get assignment "submission" ;;
  let submission := or_else sub (VDict []) in
  submitted <- get assignment "has_submitted_submissions" ;;
  if truthy submitted then Ok true
  else
    state <- get submission "workflow_state" ;;
    in_str_set state ["submitted"; "graded"; "complete"]%string.

(** One iteration of [for assignment in all_assignments] *)
Definition assignment_task (assignment : value) : result (option task) :=
  done <- completed assignment ;;
  if done then Ok None
  else
    due_at <- get assignment "due_at" ;;
    if truthy due_at then
      try_pass
        (cid <- get assignment "course_id" ;;
         has_ids <-
           (if truthy cid then
              aid <- get assignment "id" ;;
              Ok (truthy aid)
            else Ok false) ;;
         assignment_url <-
           (if has_ids : bool then
              c <- getitem assignment "course_id" ;;
              i <- getitem assignment "id" ;;
              Ok (VStr (CanvasAPI.base_url canvas ++ "/courses/"
                        ++ py_format c ++ "/assignments/" ++ py_format i))
            else Ok VNone) ;;
         s <- getitem assignment "due_at" ;;
         due <- isoparse s ;;
         due_naive <- to_manila_naive due ;;
         cutoff_manila <- bound_manila cutoff ;;
         future_manila <- bound_manila future ;;
         if le now_manila due_naive && le due_naive future_manila then
           t <- getitem assignment "name" ;;
           c <- get_default assignment "course_name" (VStr "Unknown") ;;
           Ok (Some (mk_task t due_naive c "Assignment" assignment_url
                       assignment))
         else Ok None)
    else Ok None.

(** A loop over [items] that appends to [self.tasks]: the tasks of the
    iterations in order, up to the first exception that escapes. *)
Fixpoint collect (step : value -> result (option task)) (items : list value)
  : result (list task) :=
  match items with
  | [] => Ok []
  | x :: xs =>
      r <- step x ;;
      rest <- collect step xs ;;
      Ok (match r with Some t => t :: rest | None => rest end)
  end.

(** [self.tasks.sort(key=lambda x: x['due_date'])]: a stable sort that
    compares keys with [<] only. *)
Fixpoint insert (t : task) (l : list task) : list task :=
  match l with
  | [] => [t]
  | x :: xs =>
      if lt (due_date x) (due_date t) then x :: insert t xs
      else t :: x :: xs
  end.

Definition sort (l : list task) : list task := fold_right insert [] l.

(** [self.tasks] before the sort: the three loops in sequence *)
Definition gather (planner_notes calendar_events : value)
  (all_assignments : list value) : result (list task) :=
  notes <- iter planner_notes ;;
  from_notes <- collect note_task notes ;;
  events <- iter calendar_events ;;
  from_events <- collect event_task events ;;
  from_assignments <- collect assignment_task all_assignments ;;
  Ok (from_notes ++ from_events ++ from_assignments)%list.

(** [self.tasks] after the sort *)
Definition aggregate (planner_notes calendar_events : value)
  (all_assignments : list value) : result (list task) :=
  tasks <- gather planner_notes calendar_events all_assignments ;;
  Ok (sort tasks).

End Loops.

Local Open Scope http_scope.

(** The body of [for course in self.courses]: fetch the assignments of
    the course and label each with the name of the course. *)
Definition course_assignments (course : value) : M (list value) :=
  course_id <- lift (getitem course "id") ;;
  assignments <- CanvasAPI.get_assignments srv py_format canvas course_id ;;
  items <- lift (iter assignments) ;;
  labelled <- lift (mapM (fun assignment =>
                            Py.bind (getitem course "name") (fun name =>
                            setitem assignment "course_name" name))
                         items) ;;
  ret labelled.

(** [refresh_tasks] up to and including the sort: the value of
    [self.tasks] that the table is then filled from. *)
Definition refresh_tasks (clk : clock) : M (list task) :=
  courses <- CanvasAPI.get_active_courses srv canvas ;;
  let now :=
    mk_datetime (first_read clk + system_zone clk (first_read clk)) None in
  cutoff <- lift (sub now (timedelta 30 0 0)) ;;
  future <- lift (add now (timedelta 30 0 0)) ;;
  now_aware <- lift (fromutc manila (second_read clk)) ;;
  let now_manila := replace_tzinfo now_aware None in
  planner_notes <- CanvasAPI.get_planner_notes srv canvas ;;
  calendar_events <- CanvasAPI.get_calendar_events srv canvas cutoff future ;;
  course_list <- lift (iter courses) ;;
  per_course <- mapMM course_assignments course_list ;;
  let all_assignments := List.concat per_course in
  lift (aggregate now_manila cutoff future planner_notes calendar_events
          all_assignments).

End Refresh.

End CanvasTUI.

(* ================================================================== *)
(** * Start-up: [CanvasAPI.__init__], [validate_token], [Config],
      [on_mount], and the status column *)
(* ================================================================== *)

Module Startup.

Import Py DT Iso Http.

(** [s.rstrip(c)] for a one-character [c] *)
Fixpoint rstrip (c : ascii) (s : string) : string :=
  match s with
  | EmptyString => EmptyString
  | String a s' =>
      match rstrip c s' with
      | EmptyString =>
          if Ascii.eqb a c then EmptyString else String a EmptyString
      | r => String a r
      end
  end.

(** [s.endswith(c)] for a one-character [c] *)
Fixpoint endswith (c : ascii) (s : string) : bool :=
  match s with
  | EmptyString => false
  | String a EmptyString => Ascii.eqb a c
  | String _ s' => endswith c s'
  end.

(** [c * n] *)
Fixpoint repeat_char (c : ascii) (n : nat) : string :=
  match n with
  | O => EmptyString
  | S k => String c (repeat_char c k)
  end.

Section Init.

Variable srv : server.
Variable py_format : value -> string.

(** [CanvasAPI.__init__(base_url, token)], called with two values of
    the configuration: [base_url.rstrip('/')] needs a string, the token
    is formatted into the Authorization header. *)
Definition init (base_url token : value) : result CanvasAPI.t :=
  match base_url with
  | VStr s => Ok (CanvasAPI.mk_api (rstrip "/" s) (py_format token))
  | _ => Raise AttributeError
  end.

Local Open Scope http_scope.

(** [validate_token]: the returned flag, and [self.user_id] afterwards
    ([user_id] is its value before the call). *)
Definition validate_token (self : CanvasAPI.t) (user_id : value)
  : M (bool * value) :=
  try_exceptM
    (response <- CanvasAPI.requests_get srv self
                   (CanvasAPI.base_url self ++ "/api/v1/users/self") VNone ;;
     if status_code response =? 200 then
       user_data <- lift (json response) ;;
       id <- lift (get user_data "id") ;;
       ret (true, id)
     else ret (false, user_id))
    (fun _ => ret (false, user_id)).

End Init.

(** ** [class Config] *)

(** [load_config]: [file] is [None] when the configuration file does
    not exist, and otherwise what [json.load] does on it. *)
Definition load_config (file : option (result value)) : result value :=
  match file with
  | Some loaded => loaded
  | None => Ok (VDict [])
  end.

(** [Config.get(key, default)] *)
Definition config_get (config : value) (key : string) (default : value)
  : result value :=
  get_default config key default.

(** [bool(self.config.get('canvas_base_url') and
          self.config.get('canvas_token'))] *)
Definition is_configured (config : value) : result bool :=
  Py.bind (get config "canvas_base_url") (fun url =>
  if truthy url then
    Py.bind (get config "canvas_token") (fun token => Ok (truthy token))
  else Ok false).

(** ** [CanvasTUI.on_mount] *)

(** [self.notify(message, severity=...)] *)
Record notification : Type := mk_notification {
  message : string;
  severity : string
}.

(** How [on_mount] ends: with one of its two error notifications, or
    with the client, the user id and the task list in place. *)
Inductive mounted : Type :=
| NotConfigured (n : notification)
| InvalidToken (n : notification)
| Mounted (canvas : CanvasAPI.t) (user_id : value)
          (tasks : list CanvasTUI.task).

Section Mount.

Variable srv : server.
Variable py_format : value -> string.
Variable isoparse : value -> result datetime.
Variable manila : zone.

Local Open Scope http_scope.

(** [on_mount], with [refresh_tasks] as modelled above (up to the sort);
    the set-up of the table columns has no part in the model. *)
Definition on_mount (config : value) (clk : CanvasTUI.clock) : M mounted :=
  configured <- lift (is_configured config) ;;
  if negb configured then
    ret (NotConfigured
           (mk_notification
              "Canvas not configured. Edit ~/.config/canvas-tui/config.json"
              "error"))
  else
    base_url <- lift (config_get config "canvas_base_url" VNone) ;;
    token <- lift (config_get config "canvas_token" VNone) ;;
    canvas <- lift (init py_format base_url token) ;;
    validated <- validate_token srv canvas VNone ;;
    if negb (fst validated) then
      ret (InvalidToken (mk_notification "Invalid Canvas token" "error"))
    else
      tasks <- CanvasTUI.refresh_tasks srv py_format isoparse manila canvas
                 clk ;;
      ret (Mounted canvas (snd validated) tasks).

End Mount.

(** ** The status column of the table *)

(** [d.date()], as the number of whole days since 0001-01-01 *)
Definition date (d : datetime) : Z := wall d / US_PER_DAY.

(** The status that [refresh_tasks] shows for a task:
    ["Today"] when [task["due_date"].date() == now_manila.date()],
    ["Upcoming"] otherwise. *)
Definition status (now_manila : datetime) (task : CanvasTUI.task) : string :=
  if date (CanvasTUI.due_date task) =? date now_manila
  then "Today" else "Upcoming".

End Startup.

(* ================================================================== *)
(** * Creating a task from the form: [CanvasTUI.create_canvas_task] *)
(* ================================================================== *)

Module Creation.

Import Py DT Iso Http.

(** ** [str.replace] and [str.title] on ASCII text *)

Definition is_lower (c : ascii) : bool :=
  (97 <=? nat_of_ascii c)%nat && (nat_of_ascii c <=? 122)%nat.

Definition is_upper (c : ascii) : bool :=
  (65 <=? nat_of_ascii c)%nat && (nat_of_ascii c <=? 90)%nat.

Definition upper (c : ascii) : ascii :=
  if is_lower c then ascii_of_nat (nat_of_ascii c - 32) else c.

Definition lower (c : ascii) : ascii :=
  if is_upper c then ascii_of_nat (nat_of_ascii c + 32) else c.

(** [s.replace(old, new)] for one-character [old] and [new] *)
Fixpoint replace (old new : ascii) (s : string) : string :=
  match s with
  | EmptyString => EmptyString
  | String c s' =>
      String (if Ascii.eqb c old then new else c) (replace old new s')
  end.

(** [s.title()]: a letter that follows a letter is lowered, any other
    letter is raised. *)
Fixpoint title_from (previous_is_cased : bool) (s : string) : string :=
  match s with
  | EmptyString => EmptyString
  | String c s' =>
      String (if previous_is_cased then lower c else upper c)
        (title_from (is_lower c || is_upper c) s')
  end.

Definition title_case (s : string) : string := title_from false s.

(** ** [create_canvas_task] *)

(** The dictionary that the form hands over: its four keys *)
Record task_data : Type := mk_task_data {
  title : string;
  description : string;
  due_date : datetime;
  course_id : value
}.

(** What a run of [create_canvas_task] leaves behind: the notifications
    it has shown, in order, and how it ended: with an exception, with
    the task list of the refresh it ran, or with no refresh. *)
Record run : Type := mk_run {
  notified : list Startup.notification;
  ended : result (option (list CanvasTUI.task))
}.

Definition creating : Startup.notification :=
  Startup.mk_notification "Creating task in Canvas..." "information".

Section Create.

Variable srv : server.
Variable py_format : value -> string.
Variable isoparse : value -> result datetime.
Variable manila : zone.
Variable canvas : CanvasAPI.t.

(** [create_canvas_task], with [refresh_tasks] as modelled above (up to
    the sort, without the notification of its own). *)
Definition create_canvas_task (data : task_data) (clk : CanvasTUI.clock)
  (log : list request) : run * list request :=
  match CanvasAPI.create_task srv py_format canvas (title data)
          (description data) (due_date data) (course_id data) log with
  | (Raise e, log1) => (mk_run [creating] (Raise e), log1)
  | (Ok result, log1) =>
      match getitem result "success" with
      | Raise e => (mk_run [creating] (Raise e), log1)
      | Ok ok =>
          if truthy ok then
            match getitem result "method" with
            | Ok (VStr m) =>
                let method := title_case (replace "_" " " m) in
                let created :=
                  Startup.mk_notification
                    ("Task created as " ++ method ++ "!") "information" in
                match CanvasTUI.refresh_tasks srv py_format isoparse manila
                        canvas clk log1 with
                | (Ok tasks, log2) =>
                    (mk_run [creating; created] (Ok (Some tasks)), log2)
                | (Raise e, log2) =>
                    (mk_run [creating; created] (Raise e), log2)
                end
            | Ok _ => (mk_run [creating] (Raise AttributeError), log1)
            | Raise e => (mk_run [creating] (Raise e), log1)
            end
          else
            match get_default result "error" (VStr "Unknown error") with
            | Ok err =>
                (mk_run
                   [creating;
                    Startup.mk_notification
                      ("Failed to create task: " ++ py_format err) "error"]
                   (Ok None), log1)
            | Raise e => (mk_run [creating] (Raise e), log1)
            end
      end
  end.

End Create.

End Creation.

(* ================================================================== *)
(** * The table of [refresh_tasks] *)
(* ================================================================== *)

Module Table.

Import Py DT Iso Http.

(** [d.strftime("%m/%d %H:%M")] *)
Definition strftime (d : datetime) : string :=
  let f := fields_of (wall d) in
  fmt02 (month f) ++ "/" ++ fmt02 (day f) ++ " "
  ++ fmt02 (hour f) ++ ":" ++ fmt02 (minute f).

(** A byte that continues a character of a UTF-8 text *)
Definition is_continuation (c : ascii) : bool :=
  (128 <=? nat_of_ascii c)%nat && (nat_of_ascii c <? 192)%nat.

(** [s[:n]] on a text: its first [n] characters *)
Fixpoint take_chars (n : nat) (s : string) : string :=
  match s with
  | EmptyString => EmptyString
  | String c s' =>
      if is_continuation c then String c (take_chars n s')
      else match n with
           | O => EmptyString
           | S n' => String c (take_chars n' s')
           end
  end.

(** One row of the table: the key it was added under and its cells *)
Record row : Type := mk_row {
  key : Z;
  cells : list value
}.

Section Rows.

Variable py_format : value -> string.

(** The exception of [d[:n]] on a dictionary: [TypeError] where a slice
    cannot be hashed, [KeyError] from Python 3.12 on *)
Variable dict_slice : exn.

(** [x[:n]] *)
Definition slice_to (n : nat) (x : value) : result value :=
  match x with
  | VStr s => Ok (VStr (take_chars n s))
  | VList l => Ok (VList (firstn n l))
  | VDict _ => Raise dict_slice
  | VNone | VBool _ | VInt _ => Raise TypeError
  end.

(** The body of [for idx, task in enumerate(self.tasks)] *)
Definition add_row (now_manila : datetime) (idx : Z) (task : CanvasTUI.task)
  : result row :=
  let due_str := strftime (CanvasTUI.due_date task) in
  let status := Startup.status now_manila task in
  let course_str := take_chars 20 (py_format (CanvasTUI.course task)) in
  Py.bind (slice_to 50 (CanvasTUI.title task)) (fun title_str =>
  Ok (mk_row idx [VStr due_str; VStr status; VStr course_str; title_str;
                  VStr (CanvasTUI.type task)])).

Fixpoint add_rows (now_manila : datetime) (idx : Z)
  (tasks : list CanvasTUI.task) : result (list row) :=
  match tasks with
  | [] => Ok []
  | task :: rest =>
      Py.bind (add_row now_manila idx task) (fun r =>
      Py.bind (add_rows now_manila (idx + 1) rest) (fun rs =>
      Ok (r :: rs)))
  end.

(** The rows of the table after [table.clear()] and the loop *)
Definition fill_table (now_manila : datetime) (tasks : list CanvasTUI.task)
  : result (list row) :=
  add_rows now_manila 0 tasks.

End Rows.

End Table.

(* ================================================================== *)
(** * Vocabulary of the statements *)
(* ================================================================== *)

(** Observations on the program that the theorems below are stated
    with: the requests a method sends, the value a method returns for an
    outcome of its request, orderings and selections of tasks. *)
Module Statements.

Import Py DT Iso Http.

(** ** Calendar *)

(** [month_day] lands in the right month, on a day that exists. *)
Definition month_day_ok (leap : bool) (n : Z) : bool :=
  let '(m, d) := month_day leap n in
  (1 <=? m) && (m <=? 12) && (1 <=? d) &&
  (d <=? DAYS_IN_MONTH m + (if (m =? 2) && leap then 1 else 0)) &&
  (DAYS_BEFORE_MONTH m + (if (m >? 2) && leap then 1 else 0) + d =? n + 1).

(** A text that does not open with a fraction *)
Definition no_fraction (s : string) : Prop := parse_fraction s = Some (0, s).

(** ** Requests and results of the API client *)

(** The GET that a fetch operation sends *)
Definition get_request (self : CanvasAPI.t) (path : string) (params : value)
  : request :=
  mk_request GET (CanvasAPI.base_url self ++ path) (CanvasAPI.headers self)
    params 10.

(** What a fetch operation returns for the outcome of its GET *)
Definition fetched (o : result response) : value :=
  match o with
  | Ok resp =>
      if status_code resp =? 200
      then match json resp with Ok body => body | Raise _ => VList [] end
      else VList []
  | Raise _ => VList []
  end.

Definition courses_request (self : CanvasAPI.t) : request :=
  get_request self "/api/v1/courses"
    (VDict [("enrollment_state", VStr "active"); ("per_page", VInt 50)]).

Definition assignments_request
  (py_format : value -> string) (self : CanvasAPI.t) (course_id : value)
  : request :=
  get_request self
    ("/api/v1/courses/" ++ py_format course_id ++ "/assignments")
    (VDict [("per_page", VInt 50); ("order_by", VStr "due_at")]).

Definition planner_notes_request (self : CanvasAPI.t) : request :=
  get_request self "/api/v1/planner_notes" (VDict [("per_page", VInt 50)]).

Definition calendar_events_request
  (self : CanvasAPI.t) (start_date end_date : datetime) : request :=
  get_request self "/api/v1/calendar_events"
    (VDict [("type", VStr "event");
            ("start_date", VStr (date_isoformat start_date));
            ("end_date", VStr (date_isoformat end_date));
            ("per_page", VInt 50)]).

(** The POST that a create method sends *)
Definition post_request (self : CanvasAPI.t) (path : string) (payload : value)
  : request :=
  mk_request POST (CanvasAPI.base_url self ++ path) (CanvasAPI.headers self)
    payload 10.

(** The result dictionary that a create method builds from the outcome
    of its POST; [m] is the name of the method *)
Definition post_result (m : string) (o : result response) : value :=
  match o with
  | Ok resp =>
      if (status_code resp =? 200) || (status_code resp =? 201)
      then match json resp with
           | Ok d => CanvasAPI.success d m
           | Raise e => CanvasAPI.failure (exn_str e)
           end
      else CanvasAPI.failure (text resp)
  | Raise e => CanvasAPI.failure (exn_str e)
  end.

(** [result['success']] of a result dictionary *)
Definition succeeded (v : value) : bool :=
  match getitem v "success" with
  | Ok s => truthy s
  | Raise _ => false
  end.

Definition planner_note_request
  (self : CanvasAPI.t) (title description : string) (due_date : datetime)
  (course_id : value) : request :=
  post_request self "/api/v1/planner_notes"
    (CanvasAPI.planner_note_payload title description (isoformat due_date)
       course_id).

Definition calendar_event_request
  (py_format : value -> string) (self : CanvasAPI.t)
  (title description : string) (due_date end_date : datetime)
  (course_id : value) : request :=
  post_request self "/api/v1/calendar_events"
    (CanvasAPI.calendar_event_payload py_format title description
       (isoformat due_date) (isoformat end_date) course_id).

(** ** Tasks *)

Import CanvasTUI.

(** Ascending order of the due dates *)
Definition due_le (a b : task) : Prop := wall (due_date a) <= wall (due_date b).

(** The tasks due at wall-clock value [w], in list order *)
Definition due_at_wall (w : Z) (l : list task) : list task :=
  filter (fun t => wall (due_date t) =? w) l.

(** The date field that the calendar-event loop reads: [start_at], or
    [all_day_date] when [start_at] is missing or empty *)
Definition event_date_field (event : value) : result value :=
  Py.bind (get event "start_at") (fun s =>
  if truthy s then Ok s else get event "all_day_date").

(** The date field of the source item a task was made from *)
Definition source_date (t : task) : result value :=
  if String.eqb (type t) "Planner Note" then getitem (raw t) "todo_date"
  else if String.eqb (type t) "Calendar Event" then event_date_field (raw t)
  else getitem (raw t) "due_at".

(** A JSON object *)
Definition dict_like (v : value) : Prop := exists d, v = VDict d.

End Statements.

(* ================================================================== *)
(** * Sample environment *)
(* ================================================================== *)

(** A concrete environment on which the program is evaluated in the
    examples below. *)
Module Sample.

Import Py DT Iso Http.

(** Asia/Manila as the tz database has had it since 1990: UTC+8
    throughout the year *)
Definition manila : zone := fun _ => 8 * US_PER_HOUR.

(** A machine whose own zone is UTC *)
Definition utc_zone : zone := fun _ => 0.

(** [str(v)] on scalars; containers are elided *)
Definition py_format (v : value) : string :=
  match v with
  | VNone => "None"
  | VBool true => "True"
  | VBool false => "False"
  | VInt n => DecimalString.NilZero.string_of_int (Z.to_int n)
  | VStr s => s
  | VList _ => "[...]"
  | VDict _ => "{...}"
  end.

Definition canvas : CanvasAPI.t :=
  CanvasAPI.mk_api "https://canvas.example.edu" "token".

(** The instant written as an ISO 8601 text *)
Definition at_iso (s : string) : Z :=
  match fromisoformat s with
  | Ok d => instant d
  | Raise _ => 0
  end.

(** 10 January 2025, noon in Manila *)
Definition noon : Z := at_iso "2025-01-10T04:00:00+00:00".

(** The clock of a machine set to Manila time, and of one set to UTC,
    both readings taken at [noon] *)
Definition manila_clock : CanvasTUI.clock :=
  CanvasTUI.mk_clock noon manila noon.
Definition utc_clock : CanvasTUI.clock :=
  CanvasTUI.mk_clock noon utc_zone noon.

(** What [refresh_tasks] computes from [manila_clock] *)
Definition now_manila : datetime := mk_datetime (noon + 8 * US_PER_HOUR) None.
Definition cutoff : datetime :=
  mk_datetime (noon + 8 * US_PER_HOUR - timedelta 30 0 0) None.
Definition future : datetime :=
  mk_datetime (noon + 8 * US_PER_HOUR + timedelta 30 0 0) None.

(** A server that answers every request with status 200 and a JSON
    body chosen by the path *)
Definition serve (courses notes events assignments : value) : server :=
  fun _ r =>
    let base := CanvasAPI.base_url canvas in
    Ok (mk_response 200 EmptyString
          (Ok (if String.eqb (url r) (base ++ "/api/v1/courses")
               then courses
               else if String.eqb (url r) (base ++ "/api/v1/planner_notes")
               then notes
               else if String.eqb (url r) (base ++ "/api/v1/calendar_events")
               then events
               else assignments))).

(** A server that cannot be reached *)
Definition unreachable : server :=
  fun _ _ => Raise (RequestException "Connection refused").

(** A server that refuses planner notes and creates everything else *)
Definition planner_notes_forbidden : server :=
  fun _ r =>
    if String.eqb (url r) (CanvasAPI.base_url canvas ++ "/api/v1/planner_notes")
    then Ok (mk_response 403 "Forbidden"
               (Raise (JSONDecodeError "Expecting value")))
    else Ok (mk_response 201 "{...}" (Ok (VDict [("id", VInt 77)]))).

(** 9999-12-31T23:30:00, half an hour before [datetime.max] *)
Definition last_half_hour : datetime :=
  mk_datetime (MAX_US + 1 - 30 * US_PER_MINUTE) None.

(** A server that rejects every request *)
Definition rejecting : server :=
  fun _ _ => Ok (mk_response 500 "Internal Server Error"
                   (Raise (JSONDecodeError "Expecting value"))).

Definition note (id : Z) (title todo_date : string) : value :=
  VDict [("id", VInt id); ("title", VStr title);
         ("todo_date", VStr todo_date)].

Definition note_in_state (id : Z) (title todo_date state : string) : value :=
  VDict [("id", VInt id); ("title", VStr title);
         ("todo_date", VStr todo_date); ("workflow_state", VStr state)].

Definition event (id : Z) (title start_at : string) : value :=
  VDict [("id", VInt id); ("title", VStr title); ("start_at", VStr start_at)].

Definition all_day_event (id : Z) (title all_day_date : string) : value :=
  VDict [("id", VInt id); ("title", VStr title);
         ("all_day_date", VStr all_day_date)].

Definition assignment (id course_id : Z) (name due_at : string) : value :=
  VDict [("id", VInt id); ("course_id", VInt course_id);
         ("name", VStr name); ("due_at", VStr due_at)].

Definition submitted_assignment
  (id course_id : Z) (name due_at state : string) : value :=
  VDict [("id", VInt id); ("course_id", VInt course_id);
         ("name", VStr name); ("due_at", VStr due_at);
         ("submission", VDict [("workflow_state", VStr state)])].

Abbreviation aggregate :=
  (CanvasTUI.aggregate py_format isoparse_sample manila canvas
     now_manila cutoff future).

(** ** Payloads *)

Definition graded_essay : value :=
  submitted_assignment 9 5 "Essay" "2025-01-11T02:00:00Z" "graded".

Definition deleted_note : value :=
  note_in_state 2 "Old reminder" "2025-01-11T02:00:00Z" "deleted".

(** A planner note without a workflow state, due at [now_manila] *)
Definition stateless_note : value :=
  note 1 "Pay fees" "2025-01-10T04:00:00Z".

(** An aware timestamp, a naive one, a bare date, a Zulu timestamp *)
Definition three_shapes_notes : value :=
  VList [note 1 "Aware" "2025-01-10T12:30:00+08:00"].
Definition three_shapes_events : value :=
  VList [event 2 "Naive" "2025-01-11T00:00:00";
         all_day_event 3 "Bare date" "2025-01-12"].
Definition three_shapes_assignments : list value :=
  [assignment 4 5 "Zulu" "2025-01-13T00:00:00Z"].

Definition three_shapes_tasks : list CanvasTUI.task :=
  Eval vm_compute in
    match aggregate three_shapes_notes three_shapes_events
            three_shapes_assignments with
    | Ok ts => ts
    | Raise _ => []
    end.

(** Items whose date is not a date *)
Definition broken_note : value := note 7 "Broken" "next tuesday".
Definition broken_event : value := event 8 "Broken" "next tuesday".
Definition broken_assignment : value :=
  assignment 9 5 "Broken" "next tuesday".

Definition out_of_order_notes : value :=
  VList [note 2 "Second" "2025-01-12T00:00:00Z";
         note 1 "First" "2025-01-11T00:00:00Z";
         note 3 "Third" "2025-01-13T00:00:00Z"].

Definition out_of_order_tasks : list CanvasTUI.task :=
  Eval vm_compute in
    match aggregate out_of_order_notes (VList []) [] with
    | Ok ts => ts
    | Raise _ => []
    end.

(** One item of each kind, due 30 days and 1 second after [now_manila] *)
Definition beyond_notes : value :=
  VList [note 1 "Pay fees" "2025-02-09T04:00:01Z"].
Definition beyond_events : value :=
  VList [event 2 "Seminar" "2025-02-09T12:00:01+08:00"].
Definition beyond_courses : value :=
  VList [VDict [("id", VInt 5); ("name", VStr "Biology")]].
Definition beyond_assignments : value :=
  VList [assignment 4 5 "Essay" "2025-02-09T04:00:01Z"].

Definition beyond_server : server :=
  serve beyond_courses beyond_notes beyond_events beyond_assignments.

End Sample.

(* ================================================================== *)
(** * The calendar and the ISO 8601 text *)
(* ================================================================== *)

(* ================================================================== *)
(** * Further vocabulary and samples *)
(* ================================================================== *)

Module Observations.

Import Py DT Iso Http Statements.

(** The GET of [validate_token] *)
Definition users_self_request (self : CanvasAPI.t) : request :=
  get_request self "/api/v1/users/self" VNone.

(** What [validate_token] returns, and leaves in [self.user_id], for
    the outcome of its GET *)
Definition validated (user_id : value) (o : result response) : bool * value :=
  match o with
  | Ok resp =>
      if status_code resp =? 200 then
        match json resp with
        | Ok (VDict d) =>
            (true, match lookup "id" d with Some v => v | None => VNone end)
        | _ => (false, user_id)
        end
      else (false, user_id)
  | Raise _ => (false, user_id)
  end.

(** The outcome of a GET that gives a fetch operation nothing: an
    exception, a status other than 200, a body that is not JSON *)
Definition fetch_failed (o : result response) : Prop :=
  match o with
  | Ok resp => status_code resp <> 200 \/ raises (json resp) = true
  | Raise _ => True
  end.

(** [course['id']] for each course of the list *)
Definition course_ids (courses : list value) : result (list value) :=
  mapM (fun c => getitem c "id") courses.

(** The URL that the note loop builds for a note of a course *)
Definition note_url (py_format : value -> string) (canvas : CanvasAPI.t)
  (course_id id : value) : value :=
  VStr (CanvasAPI.base_url canvas ++ "/courses/" ++ py_format course_id
        ++ "/planner_items?filter=planner_note_" ++ py_format id).

(** The URL that the assignment loop builds *)
Definition assignment_url (py_format : value -> string)
  (canvas : CanvasAPI.t) (course_id id : value) : value :=
  VStr (CanvasAPI.base_url canvas ++ "/courses/" ++ py_format course_id
        ++ "/assignments/" ++ py_format id).

(** The field of the source item that the title of a task is read
    from *)
Definition title_field (t : CanvasTUI.task) : string :=
  if String.eqb (CanvasTUI.type t) "Assignment" then "name" else "title".

(** A title that the table can cut to its width *)
Definition is_text (v : value) : Prop := exists s, v = VStr s.


End Observations.

Module Scenario.

Import Py DT Iso Http.

(** A configuration with both keys, the URL written with slashes *)
Definition config : value :=
  VDict [("canvas_base_url", VStr "https://canvas.example.edu//");
         ("canvas_token", VStr "token")].

(** A configuration without a token *)
Definition config_without_token : value :=
  VDict [("canvas_base_url", VStr "https://canvas.example.edu")].

(** A server that knows the user and has nothing to list *)
Definition quiet : server :=
  fun _ r =>
    if String.eqb (url r)
         (CanvasAPI.base_url Sample.canvas ++ "/api/v1/users/self")
    then Ok (mk_response 200 "{...}"
               (Ok (VDict [("id", VInt 42); ("name", VStr "Ana")])))
    else Ok (mk_response 200 "[]" (Ok (VList []))).


(** A server whose planner notes are down; courses, events and
    assignments are served *)
Definition notes_down : server :=
  fun _ r =>
    let base := CanvasAPI.base_url Sample.canvas in
    if String.eqb (url r) (base ++ "/api/v1/planner_notes")
    then Ok (mk_response 503 "Service Unavailable"
               (Raise (JSONDecodeError "Expecting value")))
    else if String.eqb (url r) (base ++ "/api/v1/courses")
    then Ok (mk_response 200 "[...]" (Ok Sample.beyond_courses))
    else if String.eqb (url r) (base ++ "/api/v1/calendar_events")
    then Ok (mk_response 200 "[...]" (Ok Sample.three_shapes_events))
    else Ok (mk_response 200 "[...]"
               (Ok (VList Sample.three_shapes_assignments))).

(** A planner note of course 5 and a personal one whose [course_id] is
    null, as Canvas sends it *)
Definition course_note : value :=
  VDict [("id", VInt 11); ("title", VStr "Lab report");
         ("todo_date", VStr "2025-01-11T00:00:00Z"); ("course_id", VInt 5)].
Definition personal_note : value :=
  VDict [("id", VInt 12); ("title", VStr "Dentist");
         ("todo_date", VStr "2025-01-11T00:00:00Z"); ("course_id", VNone)].

(** An assignment that arrives with a course name of its own *)
Definition named_assignment : value :=
  VDict [("id", VInt 4); ("course_id", VInt 5); ("name", VStr "Essay");
         ("due_at", VStr "2025-01-13T00:00:00Z");
         ("course_name", VStr "Stale name")].

(** The same assignment with the label of the course loop *)
Definition labelled_assignment : value :=
  VDict [("id", VInt 4); ("course_id", VInt 5); ("name", VStr "Essay");
         ("due_at", VStr "2025-01-13T00:00:00Z");
         ("course_name", VStr "Biology")].

(** The tasks that the loops make of [course_note] and of
    [labelled_assignment] at [Sample.now_manila] *)
Definition course_note_task : CanvasTUI.task :=
  CanvasTUI.mk_task (VStr "Lab report")
    (mk_datetime (Sample.at_iso "2025-01-11T00:00:00+00:00"
                  + 8 * US_PER_HOUR) None)
    (VInt 5) "Planner Note"
    (VStr ("https://canvas.example.edu/courses/5/"
           ++ "planner_items?filter=planner_note_11"))
    course_note.

Definition labelled_assignment_task : CanvasTUI.task :=
  CanvasTUI.mk_task (VStr "Essay")
    (mk_datetime (Sample.at_iso "2025-01-13T00:00:00+00:00"
                  + 8 * US_PER_HOUR) None)
    (VStr "Biology") "Assignment"
    (VStr "https://canvas.example.edu/courses/5/assignments/4")
    labelled_assignment.

(** What a refresh on [notes_down] lists, on a machine set to Manila
    time at [Sample.noon] *)
Definition notes_down_tasks : list CanvasTUI.task :=
  Eval vm_compute in
    match fst (CanvasTUI.refresh_tasks notes_down Sample.py_format
                 isoparse_sample Sample.manila Sample.canvas
                 Sample.manila_clock []) with
    | Ok ts => ts
    | Raise _ => []
    end.

(** A calendar event of course 5 that carries the code of its context
    and no name *)
Definition course_event : value :=
  VDict [("id", VInt 7); ("title", VStr "Seminar");
         ("start_at", VStr "2025-01-11T00:00:00Z");
         ("context_code", VStr "course_5");
         ("html_url", VStr "https://canvas.example.edu/calendar?event_id=7")].

Definition course_event_task : CanvasTUI.task :=
  CanvasTUI.mk_task (VStr "Seminar")
    (mk_datetime (Sample.at_iso "2025-01-11T00:00:00+00:00"
                  + 8 * US_PER_HOUR) None)
    (VStr "course_5") "Calendar Event"
    (VStr "https://canvas.example.edu/calendar?event_id=7") course_event.

(** A calendar event inside the window whose title is null *)
Definition untitled_event : value :=
  VDict [("id", VInt 6); ("title", VNone);
         ("start_at", VStr "2025-01-11T00:00:00Z")].

Definition untitled_event_task : CanvasTUI.task :=
  CanvasTUI.mk_task VNone
    (mk_datetime (Sample.at_iso "2025-01-11T00:00:00+00:00"
                  + 8 * US_PER_HOUR) None)
    (VStr "Calendar") "Calendar Event" VNone untitled_event.

(** What the form hands over *)
Definition form : Creation.task_data :=
  Creation.mk_task_data "Pay fees" "Cashier, window 3" Sample.now_manila
    VNone.

End Scenario.

Import Statements.

Section IsoText.

Import Py DT Iso.

Lemma month_day_table :
  forallb (fun k => month_day_ok false (Z.of_nat k)) (seq 0 365)%nat &&
  forallb (fun k => month_day_ok true (Z.of_nat k)) (seq 0 366)%nat = true.
Proof. vm_compute. reflexivity. Qed.

Lemma month_day_spec (leap : bool) n :
  0 <= n < 365 + (if leap then 1 else 0) ->
  month_day_ok leap n = true.
Proof.
  intros Hn. pose proof month_day_table as T.
  apply andb_true_iff in T as [T0 T1].
  rewrite forallb_forall in T0, T1.
  rewrite <- (Z2Nat.id n) by lia.
  destruct leap; [apply T1 | apply T0]; apply in_seq; lia.
Qed.

Lemma ord2ymd_spec n :
  1 <= n <= MAXORDINAL ->
  let '(y, m, d) := ord2ymd n in
  1 <= y <= 9999 /\ 1 <= m <= 12 /\ 1 <= d <= days_in_month y m /\
  ymd2ord y m d = n.
Proof.
  intros Hn. unfold ord2ymd, MAXORDINAL, DI400Y, DI100Y, DI4Y in *.
  set (n0 := n - 1).
  set (n400 := n0 / 146097). set (r := n0 mod 146097).
  set (n100 := r / 36524). set (r1 := r mod 36524).
  set (n4 := r1 / 1461). set (r2 := r1 mod 1461).
  set (n1 := r2 / 365). set (r3 := r2 mod 365).
  assert (A0 : n0 = 146097 * n400 + r /\ 0 <= r < 146097).
  { subst n400 r. split; [apply Z.div_mod | apply Z.mod_pos_bound]; lia. }
  assert (A1 : r = 36524 * n100 + r1 /\ 0 <= r1 < 36524).
  { subst n100 r1. split; [apply Z.div_mod | apply Z.mod_pos_bound]; lia. }
  assert (A2 : r1 = 1461 * n4 + r2 /\ 0 <= r2 < 1461).
  { subst n4 r2. split; [apply Z.div_mod | apply Z.mod_pos_bound]; lia. }
  assert (A3 : r2 = 365 * n1 + r3 /\ 0 <= r3 < 365).
  { subst n1 r3. split; [apply Z.div_mod | apply Z.mod_pos_bound]; lia. }
  clearbody n400 r n100 r1 n4 r2 n1 r3. subst n0.
  assert (B : 0 <= n400 <= 24 /\ 0 <= n100 <= 4 /\
              0 <= n4 <= 24 /\ 0 <= n1 <= 4) by lia.
  assert (L : forall y,
             is_leap y = true <->
             y mod 4 = 0 /\ (y mod 100 <> 0 \/ y mod 400 = 0)).
  { intros y. unfold is_leap.
    rewrite andb_true_iff, orb_true_iff, negb_true_iff.
    rewrite !Z.eqb_eq, Z.eqb_neq. tauto. }
  destruct ((n1 =? 4) || (n100 =? 4)) eqn:Elast.
  - (* the last day of a leap year *)
    apply orb_true_iff in Elast. rewrite !Z.eqb_eq in Elast.
    set (y := n400 * 400 + 1 + n100 * 100 + n4 * 4 + n1 - 1).
    assert (Hy : 1 <= y <= 9999) by (subst y; lia).
    assert (Hl : is_leap y = true).
    { apply L. subst y. Z.to_euclidean_division_equations. lia. }
    unfold ymd2ord, days_in_month, days_before_month, days_before_year.
    rewrite Hl. change (12 =? 2) with false. change (12 >? 2) with true.
    cbn [DAYS_IN_MONTH DAYS_BEFORE_MONTH andb].
    repeat split; try lia.
    subst y. Z.to_euclidean_division_equations. lia.
  - (* any other day: the year, then the month and the day in it *)
    apply orb_false_iff in Elast. rewrite !Z.eqb_neq in Elast.
    set (y := n400 * 400 + 1 + n100 * 100 + n4 * 4 + n1).
    set (flag := (n1 =? 3) && (negb (n4 =? 24) || (n100 =? 3))).
    assert (Hy : 1 <= y <= 9999) by (subst y; lia).
    assert (Hl : is_leap y = flag).
    { subst flag. apply eq_true_iff_eq. rewrite L.
      rewrite andb_true_iff, orb_true_iff, negb_true_iff.
      rewrite !Z.eqb_eq, Z.eqb_neq.
      subst y. Z.to_euclidean_division_equations. lia. }
    pose proof (month_day_spec flag r3) as M.
    destruct (month_day flag r3) as [m d] eqn:Emd.
    unfold month_day_ok in M. rewrite Emd in M.
    assert (Hr3 : 0 <= r3 < 365 + (if flag then 1 else 0))
      by (destruct flag; lia).
    specialize (M Hr3).
    rewrite !andb_true_iff, !Z.leb_le, Z.eqb_eq in M.
    destruct M as ((((M1 & M2) & M3) & M4) & M5).
    unfold ymd2ord, days_in_month, days_before_month, days_before_year.
    rewrite Hl.
    assert (D : (if (m =? 2) && flag then 29 else DAYS_IN_MONTH m) =
                DAYS_IN_MONTH m + (if (m =? 2) && flag then 1 else 0)).
    { destruct (Z.eqb_spec m 2) as [->|]; destruct flag; cbn; lia. }
    rewrite D.
    repeat split; try lia.
    subst y. Z.to_euclidean_division_equations. lia.
Qed.

Lemma append_assoc (a b c : string) : (a ++ b) ++ c = a ++ (b ++ c).
Proof.
  induction a as [|x a IH]; cbn; [reflexivity | rewrite IH; reflexivity].
Qed.

Lemma append_nil_r (a : string) : a ++ EmptyString = a.
Proof.
  induction a as [|x a IH]; cbn; [reflexivity | rewrite IH; reflexivity].
Qed.

Lemma digit_cases n :
  exists k, In k [0; 1; 2; 3; 4; 5; 6; 7; 8; 9] /\ n mod 10 = k.
Proof.
  exists (n mod 10). split; [|reflexivity].
  pose proof (Z.mod_pos_bound n 10 ltac:(lia)) as B. cbn.
  lia.
Qed.

Lemma digit_val_digit n : digit_val (digit n) = Some (n mod 10).
Proof.
  unfold digit. destruct (digit_cases n) as (k & Hk & ->).
  cbn in Hk. repeat destruct Hk as [<-|Hk]; try reflexivity. contradiction.
Qed.

Lemma digit_not_Z n : Ascii.eqb (digit n) "Z" = false.
Proof.
  unfold digit. destruct (digit_cases n) as (k & Hk & ->).
  cbn in Hk. repeat destruct Hk as [<-|Hk]; try reflexivity. contradiction.
Qed.

Lemma digit_not_dot n s :
  parse_fraction (String (digit n) s) = Some (0, String (digit n) s).
Proof.
  unfold digit. destruct (digit_cases n) as (k & Hk & ->).
  cbn in Hk. repeat destruct Hk as [<-|Hk]; try reflexivity. contradiction.
Qed.

Lemma parse_digits_cons k acc n s :
  parse_digits (S k) acc (String (digit n) s) =
  parse_digits k (acc * 10 + n mod 10) s.
Proof. cbn [parse_digits]. rewrite digit_val_digit. reflexivity. Qed.

Lemma parse_fmt02 acc n rest :
  0 <= n < 100 ->
  parse_digits 2 acc (fmt02 n ++ rest) = Some (acc * 100 + n, rest).
Proof.
  intros Hn. unfold fmt02. cbn [append].
  rewrite !parse_digits_cons. cbn [parse_digits].
  do 2 f_equal. Z.to_euclidean_division_equations. lia.
Qed.

Lemma parse_fmt04 acc n rest :
  0 <= n < 10000 ->
  parse_digits 4 acc (fmt04 n ++ rest) = Some (acc * 10000 + n, rest).
Proof.
  intros Hn. unfold fmt04, fmt02. cbn [append].
  rewrite !parse_digits_cons. cbn [parse_digits].
  do 2 f_equal. Z.to_euclidean_division_equations. lia.
Qed.

Lemma parse_fmt06 acc n rest :
  0 <= n < 1000000 ->
  parse_digits 6 acc (fmt06 n ++ rest) = Some (acc * 1000000 + n, rest).
Proof.
  intros Hn. unfold fmt06, fmt04, fmt02. cbn [append].
  rewrite !parse_digits_cons. cbn [parse_digits].
  do 2 f_equal. Z.to_euclidean_division_equations. lia.
Qed.

Lemma fields_of_spec w :
  0 <= w <= MAX_US ->
  fields_ok (fields_of w) = true /\ wall_of (fields_of w) = w.
Proof.
  intros Hw. unfold fields_of.
  assert (Hd : 1 <= w / US_PER_DAY + 1 <= MAXORDINAL).
  { unfold MAX_US, MAXORDINAL, US_PER_DAY, US_PER_HOUR, US_PER_MINUTE,
      US_PER_SECOND in *. Z.to_euclidean_division_equations. lia. }
  pose proof (ord2ymd_spec _ Hd) as C.
  destruct (ord2ymd (w / US_PER_DAY + 1)) as [[y m] d].
  destruct C as (Cy & Cm & Cd & Co).
  unfold fields_ok, wall_of.
  cbn [year month day hour minute second microsecond].
  rewrite Co.
  unfold MAX_US, MAXORDINAL, US_PER_DAY, US_PER_HOUR, US_PER_MINUTE,
    US_PER_SECOND in *.
  split.
  - rewrite !andb_true_iff, !Z.leb_le, !Z.ltb_lt.
    repeat split; try lia; Z.to_euclidean_division_equations; lia.
  - Z.to_euclidean_division_equations. lia.
Qed.

Lemma fields_ok_bounds f :
  fields_ok f = true ->
  0 <= year f < 10000 /\ 0 <= month f < 100 /\ 0 <= day f < 100 /\
  0 <= hour f < 100 /\ 0 <= minute f < 100 /\ 0 <= second f < 100 /\
  0 <= microsecond f < 1000000.
Proof.
  unfold fields_ok, days_in_month, US_PER_SECOND.
  rewrite !andb_true_iff, !Z.leb_le, !Z.ltb_lt.
  intros H. decompose [and] H.
  assert (day f <= 31).
  { destruct ((month f =? 2) && is_leap (year f)); [lia|].
    assert (DAYS_IN_MONTH (month f) <= 31); [|lia].
    unfold DAYS_IN_MONTH. destruct (month f) as [|p|p]; try lia.
    do 5 (try (destruct p as [p|p|]; try lia)). }
  lia.
Qed.

Lemma expect_here c rest : expect c (String c rest) = Some rest.
Proof. cbn. rewrite Ascii.eqb_refl. reflexivity. Qed.

Lemma parse_date_format f rest :
  fields_ok f = true ->
  parse_date (format_date f ++ rest) = Some (year f, month f, day f, rest).
Proof.
  intros Hf. apply fields_ok_bounds in Hf.
  unfold parse_date, format_date. rewrite !append_assoc.
  rewrite parse_fmt04 by lia. cbn [obind append].
  rewrite expect_here. cbn [obind].
  rewrite parse_fmt02 by lia. cbn [obind append].
  rewrite expect_here. cbn [obind].
  rewrite parse_fmt02 by lia. cbn [obind]. reflexivity.
Qed.

Lemma parse_time_format f rest :
  fields_ok f = true -> no_fraction rest ->
  parse_hh_mm_ss_ff (format_time f ++ rest) =
  Some (hour f, minute f, second f, microsecond f, rest).
Proof.
  intros Hf Hrest. apply fields_ok_bounds in Hf.
  unfold parse_hh_mm_ss_ff, format_time. rewrite !append_assoc.
  rewrite parse_fmt02 by lia. cbn [obind append].
  rewrite expect_here. cbn [obind].
  rewrite parse_fmt02 by lia. cbn [obind append].
  rewrite expect_here. cbn [obind].
  rewrite parse_fmt02 by lia. cbn [obind].
  destruct (Z.eqb_spec (microsecond f) 0) as [E|E].
  - cbn [append]. rewrite Hrest. cbn [obind]. rewrite E. reflexivity.
  - rewrite ?append_assoc. cbn [append parse_fraction].
    rewrite parse_fmt06 by lia. cbn [obind]. reflexivity.
Qed.

Lemma parse_offset_format tz :
  offset_ok tz = true -> parse_offset (format_offset tz) = Some tz.
Proof.
  destruct tz as [off|]; [|reflexivity].
  unfold offset_ok. rewrite andb_true_iff, !Z.ltb_lt. intros Hoff.
  unfold format_offset.
  set (a := Z.abs off).
  assert (Ha : 0 <= a < US_PER_DAY) by (subst a; lia).
  set (hh := a / US_PER_HOUR).
  set (mm := (a mod US_PER_HOUR) / US_PER_MINUTE).
  set (ss := a mod US_PER_MINUTE).
  assert (B : 0 <= hh < 100 /\ 0 <= mm < 100 /\
              0 <= ss / US_PER_SECOND < 100 /\
              0 <= ss mod US_PER_SECOND < 1000000 /\
              a = hh * US_PER_HOUR + mm * US_PER_MINUTE + ss /\
              ss = (ss / US_PER_SECOND) * US_PER_SECOND
                   + ss mod US_PER_SECOND).
  { subst hh mm ss.
    unfold US_PER_DAY, US_PER_HOUR, US_PER_MINUTE, US_PER_SECOND in *.
    Z.to_euclidean_division_equations. lia. }
  destruct B as (Bh & Bm & Bs & Bu & Ea & Es).
  clearbody hh mm ss.
  assert (Hsign : exists c sg,
            (if off <? 0 then "-" else "+") = String c EmptyString /\
            (if Ascii.eqb c "+" then Some 1
             else if Ascii.eqb c "-" then Some (-1) else None) = Some sg /\
            sg * a = off).
  { destruct (Z.ltb_spec off 0).
    - exists "-"%char, (-1). repeat split. subst a. lia.
    - exists "+"%char, 1. repeat split. subst a. lia. }
  destruct Hsign as (c & sg & -> & Hc & Hsg).
  cbn [append parse_offset]. rewrite Hc. cbn [obind].
  rewrite parse_fmt02 by lia. cbn [obind append].
  rewrite expect_here. cbn [obind].
  rewrite parse_fmt02 by lia. cbn [obind].
  destruct (Z.eqb_spec ss 0) as [E|E].
  - cbn [obind]. rewrite <- Hsg. do 3 f_equal. lia.
  - cbn [append]. rewrite expect_here. cbn [obind].
    rewrite parse_fmt02 by lia. cbn [obind].
    destruct (Z.eqb_spec (ss mod US_PER_SECOND) 0) as [E'|E'].
    + cbn [obind parse_fraction]. rewrite <- Hsg. do 3 f_equal. lia.
    + cbn [append parse_fraction].
      rewrite <- (append_nil_r (fmt06 _)).
      rewrite parse_fmt06 by lia. cbn [obind].
      rewrite <- Hsg. do 3 f_equal. lia.
Qed.

Lemma format_offset_no_fraction tz : no_fraction (format_offset tz).
Proof.
  destruct tz as [off|]; [|reflexivity].
  unfold format_offset. destruct (off <? 0); reflexivity.
Qed.

(** [fromisoformat] reads back what [isoformat] writes. *)
Theorem fromisoformat_isoformat d :
  valid d -> fromisoformat (isoformat d) = Ok d.
Proof.
  intros (Hw & Hoff).
  destruct (fields_of_spec _ Hw) as (Hok & Hwall).
  assert (Htz : offset_ok (tzinfo d) = true).
  { unfold offset_ok. destruct (tzinfo d); [|reflexivity].
    apply andb_true_iff; rewrite !Z.ltb_lt; lia. }
  unfold fromisoformat, isoformat.
  rewrite parse_date_format by exact Hok. cbn [obind append].
  rewrite parse_time_format
    by (try exact Hok; apply format_offset_no_fraction).
  cbn [obind]. rewrite parse_offset_format by exact Htz. cbn [obind].
  replace (mk_fields _ _ _ _ _ _ _) with (fields_of (wall d))
    by (destruct (fields_of (wall d)); reflexivity).
  rewrite Hok, Htz, Hwall. destruct d; reflexivity.
Qed.

Lemma replace_Z_append a b : replace_Z (a ++ b) = replace_Z a ++ replace_Z b.
Proof.
  induction a as [|x a IH]; [reflexivity|]. cbn [append replace_Z].
  destruct (Ascii.eqb x "Z"); cbn [append]; rewrite IH; reflexivity.
Qed.

Lemma replace_Z_fmt02 n : replace_Z (fmt02 n) = fmt02 n.
Proof. unfold fmt02. cbn [replace_Z]. rewrite !digit_not_Z. reflexivity. Qed.

Lemma replace_Z_fmt04 n : replace_Z (fmt04 n) = fmt04 n.
Proof.
  unfold fmt04. cbn [replace_Z]. rewrite !digit_not_Z, replace_Z_fmt02.
  reflexivity.
Qed.

Lemma replace_Z_fmt06 n : replace_Z (fmt06 n) = fmt06 n.
Proof.
  unfold fmt06. cbn [replace_Z]. rewrite !digit_not_Z, replace_Z_fmt04.
  reflexivity.
Qed.

(** [isoformat] never writes the letter Z: the replacement that
    [create_calendar_event] applies to its [start_at] changes nothing. *)
Theorem replace_Z_isoformat d : replace_Z (isoformat d) = isoformat d.
Proof.
  unfold isoformat, format_date, format_time, format_offset.
  repeat (rewrite ?replace_Z_append, ?replace_Z_fmt02, ?replace_Z_fmt04,
            ?replace_Z_fmt06;
          try match goal with
              | |- context [if ?b then _ else _] => destruct b
              | |- context [match ?o with Some _ => _ | None => _ end] =>
                  destruct o
              end);
    reflexivity.
Qed.

End IsoText.

Import Py DT Iso Http.

(* ================================================================== *)
(** * Properties of the API client *)
(* ================================================================== *)

Section ClientFacts.

Variable srv : server.
Variable py_format : value -> string.
Variable self : CanvasAPI.t.

Local Abbreviation base := (CanvasAPI.base_url self).
Local Abbreviation get_active_courses :=
  (CanvasAPI.get_active_courses srv self).
Local Abbreviation get_assignments :=
  (CanvasAPI.get_assignments srv py_format self).
Local Abbreviation get_planner_notes := (CanvasAPI.get_planner_notes srv self).
Local Abbreviation get_calendar_events :=
  (CanvasAPI.get_calendar_events srv self).
Local Abbreviation create_planner_note :=
  (CanvasAPI.create_planner_note srv self).
Local Abbreviation create_calendar_event :=
  (CanvasAPI.create_calendar_event srv py_format self).
Local Abbreviation create_task := (CanvasAPI.create_task srv py_format self).
Local Abbreviation get_request := (Statements.get_request self).
Local Abbreviation courses_request := (Statements.courses_request self).
Local Abbreviation assignments_request :=
  (Statements.assignments_request py_format self).
Local Abbreviation planner_notes_request :=
  (Statements.planner_notes_request self).
Local Abbreviation calendar_events_request :=
  (Statements.calendar_events_request self).
Local Abbreviation post_request := (Statements.post_request self).
Local Abbreviation planner_note_request :=
  (Statements.planner_note_request self).
Local Abbreviation calendar_event_request :=
  (Statements.calendar_event_request py_format self).

(** ** Fetch operations *)

Lemma fetch_spec path params log :
  try_exceptM
    (bindM (CanvasAPI.requests_get srv self (base ++ path) params)
       (fun response =>
          if status_code response =? 200 then lift (json response)
          else ret (VList [])))
    (fun _ => ret (VList [])) log
  = (Ok (fetched (srv log (get_request path params))),
     (log ++ [get_request path params])%list).
Proof.
  unfold try_exceptM, bindM, CanvasAPI.requests_get, send, fetched, lift, ret.
  fold (get_request path params).
  destruct (srv log (get_request path params)) as [resp|e]; [|reflexivity].
  destruct (status_code resp =? 200); [|reflexivity].
  destruct (json resp); reflexivity.
Qed.

(** C3: each of the four fetch operations sends one GET and returns to
    its caller, never raising; what it returns is the empty list when
    the GET raised, when the status is not 200, and when the body of a
    200 response is not JSON. *)
Theorem fetch_degrades_to_empty log course_id start_date end_date :
  get_active_courses log =
    (Ok (fetched (srv log courses_request)), (log ++ [courses_request])%list)
  /\ get_assignments course_id log =
       (Ok (fetched (srv log (assignments_request course_id))),
        (log ++ [assignments_request course_id])%list)
  /\ get_planner_notes log =
       (Ok (fetched (srv log planner_notes_request)),
        (log ++ [planner_notes_request])%list)
  /\ get_calendar_events start_date end_date log =
       (Ok (fetched (srv log (calendar_events_request start_date end_date))),
        (log ++ [calendar_events_request start_date end_date])%list)
  /\ (forall e, fetched (Raise e) = VList [])
  /\ (forall resp, status_code resp <> 200 -> fetched (Ok resp) = VList [])
  /\ (forall resp e, json resp = Raise e -> fetched (Ok resp) = VList []).
Proof.
  repeat split.
  - apply (fetch_spec "/api/v1/courses").
  - apply (fetch_spec ("/api/v1/courses/" ++ py_format course_id
                       ++ "/assignments")).
  - apply (fetch_spec "/api/v1/planner_notes").
  - apply (fetch_spec "/api/v1/calendar_events").
  - intros resp H. unfold fetched.
    destruct (Z.eqb_spec (status_code resp) 200); [contradiction|reflexivity].
  - intros resp e H. unfold fetched. rewrite H.
    destruct (status_code resp =? 200); reflexivity.
Qed.

(** ** Create operations *)

Lemma post_spec path payload m log :
  try_exceptM
    (bindM (CanvasAPI.requests_post srv self (base ++ path) payload)
       (fun response =>
          if (status_code response =? 200) || (status_code response =? 201)
          then bindM (lift (json response))
                 (fun d => ret (CanvasAPI.success d m))
          else ret (CanvasAPI.failure (text response))))
    (fun e => ret (CanvasAPI.failure (exn_str e))) log
  = (Ok (post_result m (srv log (post_request path payload))),
     (log ++ [post_request path payload])%list).
Proof.
  unfold try_exceptM, bindM, CanvasAPI.requests_post, send, post_result,
    lift, ret.
  fold (post_request path payload).
  destruct (srv log (post_request path payload)) as [resp|e]; [|reflexivity].
  destruct ((status_code resp =? 200) || (status_code resp =? 201));
    [|reflexivity].
  destruct (json resp); reflexivity.
Qed.

Lemma post_result_success m o :
  getitem (post_result m o) "success"
  = Ok (VBool (succeeded (post_result m o))).
Proof.
  unfold post_result, succeeded.
  destruct o as [resp|e]; [|reflexivity].
  destruct ((status_code resp =? 200) || (status_code resp =? 201));
    [|reflexivity].
  destruct (json resp); reflexivity.
Qed.

Lemma create_planner_note_spec title details todo_date course_id log :
  create_planner_note title details todo_date course_id log =
  (Ok (post_result "planner_note"
         (srv log (post_request "/api/v1/planner_notes"
                     (CanvasAPI.planner_note_payload title details todo_date
                        course_id)))),
   (log ++ [post_request "/api/v1/planner_notes"
              (CanvasAPI.planner_note_payload title details todo_date
                 course_id)])%list).
Proof. apply (post_spec "/api/v1/planner_notes"). Qed.

(** The parse in [create_calendar_event] succeeds on the text that
    [create_task] passes, and the end is one hour after the start when
    that hour exists. *)
Lemma end_at_of_isoformat d :
  valid d ->
  CanvasAPI.end_at_of (isoformat d) =
  Py.bind (add d (timedelta 0 1 0)) (fun e => Ok (isoformat e)).
Proof.
  intros Hd. unfold CanvasAPI.end_at_of.
  rewrite replace_Z_isoformat, (fromisoformat_isoformat d Hd). reflexivity.
Qed.

Lemma create_calendar_event_spec title description d e course_id log :
  valid d ->
  add d (timedelta 0 1 0) = Ok e ->
  create_calendar_event title description (isoformat d) course_id log =
  (Ok (post_result "calendar_event"
         (srv log (calendar_event_request title description d e course_id))),
   (log ++ [calendar_event_request title description d e course_id])%list).
Proof.
  intros Hd He. unfold CanvasAPI.create_calendar_event.
  unfold bindM at 1. unfold lift at 1.
  rewrite (end_at_of_isoformat d Hd), He. cbn [Py.bind].
  apply (post_spec "/api/v1/calendar_events").
Qed.

Lemma create_calendar_event_overflow title description d x course_id log :
  valid d ->
  add d (timedelta 0 1 0) = Raise x ->
  create_calendar_event title description (isoformat d) course_id log =
  (Raise x, log).
Proof.
  intros Hd He. unfold CanvasAPI.create_calendar_event.
  unfold bindM at 1. unfold lift at 1.
  rewrite (end_at_of_isoformat d Hd), He. reflexivity.
Qed.

(** C1: [create_task] first posts the planner note.  When that method
    reports success, its result is returned and nothing else is sent.
    Only otherwise the calendar event is posted: start [isoformat] of the
    due date, end one hour later, title prefixed, description built from
    title and description.  When this method reports success its result
    is returned; when it does not, the result is the failure dictionary
    whose method is 'none'.  No further request is sent. *)
Theorem create_task_two_tier
  title description due_date end_date course_id log :
  valid due_date ->
  add due_date (timedelta 0 1 0) = Ok end_date ->
  let note_req := planner_note_request title description due_date course_id in
  let event_req :=
    calendar_event_request title description due_date end_date course_id in
  let first := post_result "planner_note" (srv log note_req) in
  let second :=
    post_result "calendar_event" (srv (log ++ [note_req])%list event_req) in
  create_task title description due_date course_id log =
    (if succeeded first then (Ok first, (log ++ [note_req])%list)
     else if succeeded second
          then (Ok second, (log ++ [note_req; event_req])%list)
          else (Ok CanvasAPI.all_failed, (log ++ [note_req; event_req])%list))
  /\ getitem CanvasAPI.all_failed "success" = Ok (VBool false)
  /\ getitem CanvasAPI.all_failed "method" = Ok (VStr "none")
  /\ url note_req = base ++ "/api/v1/planner_notes"
  /\ url event_req = base ++ "/api/v1/calendar_events"
  /\ meth note_req = POST /\ meth event_req = POST
  /\ wall end_date = wall due_date + 3600 * US_PER_SECOND
  /\ tzinfo end_date = tzinfo due_date
  /\ Py.bind (getitem (data event_req) "calendar_event") (fun ev =>
     Py.bind (getitem ev "start_at") (fun s =>
     Py.bind (getitem ev "end_at") (fun e =>
     Py.bind (getitem ev "title") (fun t =>
     Py.bind (getitem ev "description") (fun dsc =>
     Ok [s; e; t; dsc])))))
     = Ok [VStr (isoformat due_date); VStr (isoformat end_date);
           VStr ("📋 " ++ title);
           VStr ("Task: " ++ title ++ CanvasAPI.nl ++ CanvasAPI.nl
                 ++ description)].
Proof.
  intros Hd He note_req event_req first second.
  repeat split.
  - unfold CanvasAPI.create_task.
    unfold bindM at 1. rewrite create_planner_note_spec.
    fold (planner_note_request title description due_date course_id).
    fold note_req first.
    unfold bindM at 1. unfold lift at 1.
    unfold first at 1. rewrite post_result_success. fold first.
    cbn [truthy]. destruct (succeeded first); [reflexivity|].
    unfold bindM at 1.
    rewrite (create_calendar_event_spec _ _ _ _ _ _ Hd He).
    fold event_req second.
    unfold bindM at 1. unfold lift at 1.
    unfold second at 1. rewrite post_result_success. fold second.
    cbn [truthy]. rewrite <- app_assoc. cbn [app].
    destruct (succeeded second); reflexivity.
  - unfold add in He. destruct (in_range _); [|discriminate He].
    injection He as <-. cbn. unfold US_PER_HOUR, US_PER_MINUTE. lia.
  - unfold add in He. destruct (in_range _); [|discriminate He].
    injection He as <-. reflexivity.
  - unfold event_req, calendar_event_request, post_request,
      CanvasAPI.calendar_event_payload.
    cbn [data]. destruct (truthy course_id); reflexivity.
Qed.

(** When the planner note is not created and the due date lies in the
    last hour of year 9999, the addition of one hour in
    [create_calendar_event] raises [OverflowError]; nothing catches it,
    and it leaves [create_task]. *)
Lemma create_task_overflow title description due_date x course_id log :
  valid due_date ->
  add due_date (timedelta 0 1 0) = Raise x ->
  let note_req := planner_note_request title description due_date course_id in
  succeeded (post_result "planner_note" (srv log note_req)) = false ->
  create_task title description due_date course_id log =
  (Raise x, (log ++ [note_req])%list).
Proof.
  intros Hd He note_req Hfail.
  unfold CanvasAPI.create_task.
  unfold bindM at 1. rewrite create_planner_note_spec.
  fold (planner_note_request title description due_date course_id).
  fold note_req.
  unfold bindM at 1. unfold lift at 1.
  rewrite post_result_success, Hfail. cbn [truthy].
  unfold bindM at 1.
  rewrite (create_calendar_event_overflow _ _ _ _ _ _ Hd He). reflexivity.
Qed.

End ClientFacts.

(* ================================================================== *)
(** * Properties of the aggregator *)
(* ================================================================== *)

Import Py DT Iso Http.

(** Case analysis along the control flow of a computation [H : c = r]:
    each bind, [try], conditional and option match at the head of [c] is
    split, and the equations of the steps taken are kept. *)
Ltac crack H :=
  lazymatch type of H with
  | Py.bind ?c _ = _ =>
      let E := fresh "E" in
      destruct c eqn:E; cbn [Py.bind] in H;
      [ crack E; crack H | try discriminate H ]
  | Py.try_except ?c _ = _ =>
      let E := fresh "E" in
      destruct c eqn:E; cbn [Py.try_except] in H;
      [ crack E; crack H | crack H ]
  | (if ?b then _ else _) = _ =>
      let E := fresh "E" in destruct b eqn:E; crack H
  | match ?o with Some _ => _ | None => _ end = _ =>
      let E := fresh "E" in destruct o eqn:E; crack H
  | _ => try discriminate H
  end.

Ltac bool_hyps :=
  repeat match goal with
  | H : negb _ = false |- _ => apply negb_false_iff in H
  | H : negb _ = true |- _ => apply negb_true_iff in H
  | H : _ && _ = true |- _ => apply andb_true_iff in H; destruct H
  end.

(** After the case analysis the hypothesis is [Ok (Some t0) = Ok (Some t)] *)
Ltac ok_hyps :=
  repeat (match goal with
          | E : Ok _ = Ok _ |- _ => injection E as E
          | E : Some _ = Some _ |- _ => injection E as E
          end; subst).

Ltac appended H :=
  crack H; bool_hyps; ok_hyps; try discriminate;
  repeat eexists; try eassumption; try reflexivity.

Section Aggregator.

Variable py_format : value -> string.
Variable isoparse : value -> result datetime.
Variable manila : zone.
Variable canvas : CanvasAPI.t.

Import CanvasTUI.

Local Abbreviation to_manila_naive := (CanvasTUI.to_manila_naive manila).
Local Abbreviation bound_manila := (CanvasTUI.bound_manila manila).
Local Abbreviation note_task :=
  (CanvasTUI.note_task py_format isoparse manila canvas).
Local Abbreviation event_task := (CanvasTUI.event_task isoparse manila).
Local Abbreviation assignment_task :=
  (CanvasTUI.assignment_task py_format isoparse manila canvas).
Local Abbreviation gather :=
  (CanvasTUI.gather py_format isoparse manila canvas).
Local Abbreviation aggregate :=
  (CanvasTUI.aggregate py_format isoparse manila canvas).

(** ** The loops *)

Lemma collect_In step items : forall ts t,
  collect step items = Ok ts -> In t ts ->
  exists x, In x items /\ step x = Ok (Some t).
Proof.
  induction items as [|x xs IH]; intros ts t H Hin; cbn in H.
  - inversion H; subst. contradiction.
  - destruct (step x) as [r|] eqn:Ex; cbn in H; [|discriminate].
    destruct (collect step xs) as [rest|] eqn:Er; cbn in H; [|discriminate].
    inversion H; subst; clear H.
    destruct r as [t0|].
    + destruct Hin as [->|Hin].
      * exists x; split; [left; reflexivity | exact Ex].
      * destruct (IH rest t eq_refl Hin) as (y & Hy & Hs).
        exists y; split; [right; exact Hy | exact Hs].
    + destruct (IH rest t eq_refl Hin) as (y & Hy & Hs).
      exists y; split; [right; exact Hy | exact Hs].
Qed.

Lemma collect_app step l1 l2 :
  collect step (l1 ++ l2) =
  Py.bind (collect step l1) (fun a =>
  Py.bind (collect step l2) (fun b => Ok (a ++ b)%list)).
Proof.
  induction l1 as [|x xs IH]; cbn.
  - destruct (collect step l2); reflexivity.
  - destruct (step x) as [r|]; cbn; [|reflexivity].
    rewrite IH.
    destruct (collect step xs); cbn; [|reflexivity].
    destruct (collect step l2); cbn; [|reflexivity].
    destruct r; reflexivity.
Qed.

(** An iteration that appends nothing and lets nothing escape leaves
    the loop as if its item were not there. *)
Lemma collect_skip step l1 x l2 :
  step x = Ok None ->
  collect step (l1 ++ x :: l2) = collect step (l1 ++ l2).
Proof.
  intros Hx. rewrite !collect_app. cbn. rewrite Hx. cbn.
  destruct (collect step l2); reflexivity.
Qed.

Lemma collect_total step items :
  Forall (fun x => raises (step x) = false) items ->
  exists ts, collect step items = Ok ts.
Proof.
  induction 1 as [|x xs Hx _ IH]; cbn.
  - eexists; reflexivity.
  - destruct (step x) as [r|]; [|discriminate]. cbn.
    destruct IH as (ts & ->). cbn. eexists; reflexivity.
Qed.

(** ** The sort *)

Lemma insert_perm t l : Permutation (insert t l) (t :: l).
Proof.
  induction l as [|x xs IH]; cbn.
  - apply Permutation_refl.
  - destruct (lt (due_date x) (due_date t)).
    + eapply perm_trans; [apply perm_skip, IH | apply perm_swap].
    + apply Permutation_refl.
Qed.

Lemma sort_perm l : Permutation (sort l) l.
Proof.
  induction l as [|x xs IH]; cbn.
  - apply perm_nil.
  - eapply perm_trans; [apply insert_perm | apply perm_skip, IH].
Qed.

Lemma sort_In l t : In t (sort l) <-> In t l.
Proof.
  split; apply Permutation_in; [|apply Permutation_sym]; apply sort_perm.
Qed.

Lemma insert_sorted t l :
  StronglySorted due_le l -> StronglySorted due_le (insert t l).
Proof.
  induction 1 as [|x xs Hs IH Hx]; cbn.
  - constructor; constructor.
  - unfold lt. destruct (Z.ltb_spec (wall (due_date x)) (wall (due_date t))).
    + constructor; [exact IH|].
      eapply Permutation_Forall; [apply Permutation_sym, insert_perm|].
      constructor; [unfold due_le; lia | exact Hx].
    + constructor; [constructor; assumption|].
      constructor; [unfold due_le; lia|].
      eapply Forall_impl; [|exact Hx].
      unfold due_le; intros; lia.
Qed.

Lemma sort_sorted l : StronglySorted due_le (sort l).
Proof.
  induction l as [|x xs IH]; cbn; [constructor | apply insert_sorted, IH].
Qed.

Lemma insert_stable w t l :
  StronglySorted due_le l ->
  due_at_wall w (insert t l) = due_at_wall w (t :: l).
Proof.
  induction 1 as [|x xs Hs IH Hx]; [reflexivity|].
  cbn [insert]. unfold lt.
  destruct (Z.ltb_spec (wall (due_date x)) (wall (due_date t))); [|reflexivity].
  unfold due_at_wall in *. cbn [filter] in *. rewrite IH.
  destruct (Z.eqb_spec (wall (due_date t)) w),
           (Z.eqb_spec (wall (due_date x)) w); try reflexivity; lia.
Qed.

Lemma sort_stable w l : due_at_wall w (sort l) = due_at_wall w l.
Proof.
  induction l as [|x xs IH]; [reflexivity|].
  cbn [sort fold_right]. fold (sort xs).
  rewrite insert_stable by apply sort_sorted.
  unfold due_at_wall in *. cbn [filter]. rewrite IH. reflexivity.
Qed.

(** Two sorted lists that hold, for every due date, the same tasks in
    the same order are equal: the order of the aggregated list does not
    depend on the sorting algorithm, only on its being stable. *)
Lemma sorted_stable_unique l1 : forall l2,
  StronglySorted due_le l1 -> StronglySorted due_le l2 ->
  (forall w, due_at_wall w l1 = due_at_wall w l2) ->
  l1 = l2.
Proof.
  unfold due_at_wall, due_le.
  induction l1 as [|x l1 IH]; intros l2 S1 S2 H.
  - destruct l2 as [|y l2]; [reflexivity|].
    specialize (H (wall (due_date y))). cbn in H.
    rewrite Z.eqb_refl in H. discriminate H.
  - destruct l2 as [|y l2].
    { specialize (H (wall (due_date x))). cbn in H.
      rewrite Z.eqb_refl in H. discriminate H. }
    inversion S1 as [|? ? S1' F1]; subst.
    inversion S2 as [|? ? S2' F2]; subst.
    rewrite Forall_forall in F1, F2.
    assert (Hxy : wall (due_date x) = wall (due_date y)).
    { destruct (Z.lt_trichotomy (wall (due_date x)) (wall (due_date y)))
        as [Hlt|[Heq|Hgt]]; [exfalso|exact Heq|exfalso].
      - pose proof (H (wall (due_date x))) as Hx. cbn in Hx.
        rewrite Z.eqb_refl in Hx.
        destruct (Z.eqb_spec (wall (due_date y)) (wall (due_date x))); [lia|].
        assert (Hin : In x (filter
                  (fun t => wall (due_date t) =? wall (due_date x)) l2))
          by (rewrite <- Hx; left; reflexivity).
        apply filter_In in Hin as [Hin _]. specialize (F2 _ Hin). lia.
      - pose proof (H (wall (due_date y))) as Hy. cbn in Hy.
        rewrite Z.eqb_refl in Hy.
        destruct (Z.eqb_spec (wall (due_date x)) (wall (due_date y))); [lia|].
        assert (Hin : In y (filter
                  (fun t => wall (due_date t) =? wall (due_date y)) l1))
          by (rewrite Hy; left; reflexivity).
        apply filter_In in Hin as [Hin _]. specialize (F1 _ Hin). lia. }
    pose proof (H (wall (due_date x))) as Hx. cbn in Hx.
    rewrite Z.eqb_refl, <- Hxy, Z.eqb_refl in Hx.
    injection Hx as <- Htl.
    f_equal. apply IH; try assumption.
    intros w. specialize (H w). cbn in H.
    destruct (Z.eqb_spec (wall (due_date x)) w); [|exact H].
    injection H as H. exact H.
Qed.

Lemma sort_unique l l' :
  StronglySorted due_le l' ->
  (forall w, due_at_wall w l' = due_at_wall w l) ->
  l' = sort l.
Proof.
  intros S H. apply sorted_stable_unique; [exact S | apply sort_sorted|].
  intros w. rewrite sort_stable. apply H.
Qed.

(** ** What an appended task tells about its source item *)

Lemma note_task_some now_manila cutoff future note t :
  note_task now_manila cutoff future note = Ok (Some t) ->
  exists ws v d fm,
    get note "workflow_state" = Ok ws /\
    is_none ws || eq_str ws "active" = true /\
    getitem note "todo_date" = Ok v /\
    isoparse v = Ok d /\
    to_manila_naive d = Ok (due_date t) /\
    bound_manila future = Ok fm /\
    le now_manila (due_date t) = true /\
    le (due_date t) fm = true /\
    type t = "Planner Note" /\
    raw t = note.
Proof.
  unfold CanvasTUI.note_task, try_pass. intros H.
  appended H.
Qed.

Lemma event_task_some now_manila cutoff future event t :
  event_task now_manila cutoff future event = Ok (Some t) ->
  exists v d fm,
    event_date_field event = Ok v /\
    isoparse v = Ok d /\
    to_manila_naive d = Ok (due_date t) /\
    bound_manila future = Ok fm /\
    le now_manila (due_date t) = true /\
    le (due_date t) fm = true /\
    type t = "Calendar Event" /\
    raw t = event.
Proof.
  unfold CanvasTUI.event_task, try_pass, event_date_field. intros H.
  destruct event; try discriminate H.
  crack H; bool_hyps; ok_hyps; cbn in *;
    unfold get, get_default, getitem in *;
    repeat match goal with
    | E : match lookup ?k ?d with Some _ => _ | None => _ end = _ |- _ =>
        destruct (lookup k d) eqn:?; try discriminate E
    end; ok_hyps; cbn in *; try discriminate;
    repeat match goal with
    | E : truthy ?x = _ |- context [truthy ?x] => rewrite E
    end;
    repeat eexists; try eassumption; try reflexivity.
Qed.

Lemma assignment_task_some now_manila cutoff future assignment t :
  assignment_task now_manila cutoff future assignment = Ok (Some t) ->
  exists v d fm,
    completed assignment = Ok false /\
    getitem assignment "due_at" = Ok v /\
    isoparse v = Ok d /\
    to_manila_naive d = Ok (due_date t) /\
    bound_manila future = Ok fm /\
    le now_manila (due_date t) = true /\
    le (due_date t) fm = true /\
    type t = "Assignment" /\
    raw t = assignment.
Proof.
  unfold CanvasTUI.assignment_task, try_pass. intros H.
  appended H.
Qed.

(** ** Items that are skipped *)

Lemma get_is_dict x k v : get x k = Ok v -> exists d, x = VDict d.
Proof. destruct x; try discriminate. eexists; reflexivity. Qed.

Lemma get_dict_ok d k : exists v, get (VDict d) k = Ok v.
Proof.
  unfold get, get_default. destruct (lookup k d); eexists; reflexivity.
Qed.

Lemma get_truthy_getitem x k v :
  get x k = Ok v -> truthy v = true -> getitem x k = Ok v.
Proof.
  destruct x; try discriminate. unfold get, get_default, getitem.
  destruct (lookup k d); intros H T; injection H as <-;
    [reflexivity | discriminate T].
Qed.

Lemma raises_try_pass body : raises (try_pass body) = false.
Proof. destruct body; reflexivity. Qed.

Lemma note_task_total now_manila cutoff future d :
  raises (note_task now_manila cutoff future (VDict d)) = false.
Proof.
  unfold CanvasTUI.note_task.
  destruct (get_dict_ok d "workflow_state") as (ws & ->).
  destruct (get_dict_ok d "todo_date") as (todo & ->). cbn [Py.bind].
  destruct (negb _); [reflexivity|].
  destruct (truthy todo); [apply raises_try_pass | reflexivity].
Qed.

Lemma event_task_total now_manila cutoff future event :
  raises (event_task now_manila cutoff future event) = false.
Proof. apply raises_try_pass. Qed.

Lemma assignment_task_total now_manila cutoff future d :
  raises (completed (VDict d)) = false ->
  raises (assignment_task now_manila cutoff future (VDict d)) = false.
Proof.
  unfold CanvasTUI.assignment_task. intros H.
  destruct (completed (VDict d)) as [done|]; [|discriminate H].
  cbn [Py.bind]. destruct done; [reflexivity|].
  destruct (get_dict_ok d "due_at") as (due_at & ->). cbn [Py.bind].
  destruct (truthy due_at); [apply raises_try_pass | reflexivity].
Qed.

(** A planner note whose workflow state is present and is not
    ['active'] is skipped before its date is looked at. *)
Lemma note_task_inactive now_manila cutoff future note ws :
  get note "workflow_state" = Ok ws ->
  is_none ws = false -> eq_str ws "active" = false ->
  note_task now_manila cutoff future note = Ok None.
Proof.
  intros Hws Hn Ha. unfold CanvasTUI.note_task.
  rewrite Hws. cbn [Py.bind]. rewrite Hn, Ha. reflexivity.
Qed.

Lemma completed_state assignment sub st :
  get assignment "submission" = Ok sub ->
  get sub "workflow_state" = Ok (VStr st) ->
  st = "submitted" \/ st = "graded" ->
  completed assignment = Ok true.
Proof.
  intros Hsub Hst Hin. unfold completed.
  destruct (get_is_dict _ _ _ Hsub) as (d & ->).
  rewrite Hsub. cbn [Py.bind].
  destruct (get_dict_ok d "has_submitted_submissions") as (hs & ->).
  cbn [Py.bind]. destruct (truthy hs); [reflexivity|].
  assert (Ht : truthy sub = true).
  { destruct (get_is_dict _ _ _ Hst) as (ds & ->).
    destruct ds as [|kv ds]; [discriminate Hst | reflexivity]. }
  unfold or_else. rewrite Ht, Hst. cbn [Py.bind].
  destruct Hin as [-> | ->]; reflexivity.
Qed.

Lemma assignment_task_completed now_manila cutoff future assignment :
  completed assignment = Ok true ->
  assignment_task now_manila cutoff future assignment = Ok None.
Proof.
  intros H. unfold CanvasTUI.assignment_task. rewrite H. reflexivity.
Qed.

(** ** Items whose date does not parse *)

Lemma note_task_bad_date now_manila cutoff future note v :
  get note "todo_date" = Ok v -> truthy v = true ->
  raises (isoparse v) = true ->
  note_task now_manila cutoff future note = Ok None.
Proof.
  intros Hget Ht Hbad.
  destruct (get_is_dict _ _ _ Hget) as (d & ->).
  pose proof (note_task_total now_manila cutoff future d) as Htot.
  destruct (note_task now_manila cutoff future (VDict d)) as [[t|]|] eqn:H;
    [|reflexivity|discriminate Htot].
  apply note_task_some in H.
  destruct H as (ws & v' & dt & fm & _ & _ & Hv' & Hp & _).
  rewrite (get_truthy_getitem _ _ _ Hget Ht) in Hv'. injection Hv' as <-.
  rewrite Hp in Hbad. discriminate Hbad.
Qed.

Lemma event_task_bad_date now_manila cutoff future event v :
  event_date_field event = Ok v -> truthy v = true ->
  raises (isoparse v) = true ->
  event_task now_manila cutoff future event = Ok None.
Proof.
  intros Hget Ht Hbad.
  pose proof (event_task_total now_manila cutoff future event) as Htot.
  destruct (event_task now_manila cutoff future event) as [[t|]|] eqn:H;
    [|reflexivity|discriminate Htot].
  apply event_task_some in H.
  destruct H as (v' & dt & fm & Hv' & Hp & _).
  rewrite Hget in Hv'. injection Hv' as <-.
  rewrite Hp in Hbad. discriminate Hbad.
Qed.

Lemma assignment_task_bad_date now_manila cutoff future assignment v :
  raises (completed assignment) = false ->
  get assignment "due_at" = Ok v -> truthy v = true ->
  raises (isoparse v) = true ->
  assignment_task now_manila cutoff future assignment = Ok None.
Proof.
  intros Hc Hget Ht Hbad.
  destruct (get_is_dict _ _ _ Hget) as (d & ->).
  pose proof (assignment_task_total now_manila cutoff future d Hc) as Htot.
  destruct (assignment_task now_manila cutoff future (VDict d))
    as [[t|]|] eqn:H; [|reflexivity|discriminate Htot].
  apply assignment_task_some in H.
  destruct H as (v' & dt & fm & _ & Hv' & Hp & _).
  rewrite (get_truthy_getitem _ _ _ Hget Ht) in Hv'. injection Hv' as <-.
  rewrite Hp in Hbad. discriminate Hbad.
Qed.

(** ** The aggregated list *)

Lemma aggregate_gather now_manila cutoff future notes events assignments ts :
  aggregate now_manila cutoff future notes events assignments = Ok ts ->
  exists l,
    gather now_manila cutoff future notes events assignments = Ok l /\
    ts = sort l.
Proof.
  unfold CanvasTUI.aggregate. intros H.
  destruct (gather _ _ _ _ _ _) as [l|]; [|discriminate H].
  injection H as <-. exists l; split; reflexivity.
Qed.

Lemma gather_inv now_manila cutoff future notes events assignments l :
  gather now_manila cutoff future notes events assignments = Ok l ->
  exists ns es xs from_notes from_events from_assignments,
    iter notes = Ok ns /\
    collect (note_task now_manila cutoff future) ns = Ok from_notes /\
    iter events = Ok es /\
    collect (event_task now_manila cutoff future) es = Ok from_events /\
    xs = assignments /\
    collect (assignment_task now_manila cutoff future) xs
      = Ok from_assignments /\
    l = (from_notes ++ from_events ++ from_assignments)%list.
Proof.
  unfold CanvasTUI.gather. intros H. crack H. ok_hyps.
  repeat eexists; eassumption.
Qed.

(** Every task of the list was appended by one iteration of one of the
    three loops. *)
Lemma aggregate_source now_manila cutoff future notes events assignments ts t :
  aggregate now_manila cutoff future notes events assignments = Ok ts ->
  In t ts ->
  (exists x, note_task now_manila cutoff future x = Ok (Some t)) \/
  (exists x, event_task now_manila cutoff future x = Ok (Some t)) \/
  (exists x, In x assignments /\
             assignment_task now_manila cutoff future x = Ok (Some t)).
Proof.
  intros H Hin.
  apply aggregate_gather in H as (l & Hg & ->).
  apply (proj1 (sort_In _ _)) in Hin.
  apply gather_inv in Hg
    as (ns & es & xs & fn & fe & fa & _ & Hn & _ & He & -> & Ha & ->).
  apply in_app_or in Hin as [Hin|Hin]; [|apply in_app_or in Hin as [Hin|Hin]].
  - destruct (collect_In _ _ _ _ Hn Hin) as (x & _ & Hx). left; eauto.
  - destruct (collect_In _ _ _ _ He Hin) as (x & _ & Hx). right; left; eauto.
  - destruct (collect_In _ _ _ _ Ha Hin) as (x & Hx). right; right; eauto.
Qed.

(** The loop that appended a task is told by its [type]. *)
Lemma aggregate_source_by_type
  now_manila cutoff future notes events assignments ts t :
  aggregate now_manila cutoff future notes events assignments = Ok ts ->
  In t ts ->
  (type t = "Planner Note" ->
   note_task now_manila cutoff future (raw t) = Ok (Some t)) /\
  (type t = "Calendar Event" ->
   event_task now_manila cutoff future (raw t) = Ok (Some t)) /\
  (type t = "Assignment" ->
   assignment_task now_manila cutoff future (raw t) = Ok (Some t)).
Proof.
  intros H Hin.
  destruct (aggregate_source _ _ _ _ _ _ _ _ H Hin)
    as [(x & Hx) | [(x & Hx) | (x & _ & Hx)]].
  - destruct (note_task_some _ _ _ _ _ Hx)
      as (? & ? & ? & ? & _ & _ & _ & _ & _ & _ & _ & _ & Ht & Hr).
    rewrite Ht, Hr. repeat split; intros; try discriminate. exact Hx.
  - destruct (event_task_some _ _ _ _ _ Hx)
      as (? & ? & ? & _ & _ & _ & _ & _ & _ & Ht & Hr).
    rewrite Ht, Hr. repeat split; intros; try discriminate. exact Hx.
  - destruct (assignment_task_some _ _ _ _ _ Hx)
      as (? & ? & ? & _ & _ & _ & _ & _ & _ & _ & Ht & Hr).
    rewrite Ht, Hr. repeat split; intros; try discriminate. exact Hx.
Qed.

(** ** Completion and workflow-state filters *)

Lemma lookup_update_other k k' v d :
  k <> k' -> lookup k (update k' v d) = lookup k d.
Proof.
  intros Hk. induction d as [|[k0 v0] d IH]; cbn.
  - destruct (String.eqb_spec k k'); [contradiction|reflexivity].
  - destruct (String.eqb_spec k' k0) as [->|Hk0]; cbn.
    + destruct (String.eqb_spec k k0); [contradiction|reflexivity].
    + destruct (String.eqb_spec k k0); [reflexivity|exact IH].
Qed.

(** The label that [refresh_tasks] writes on a fetched assignment does
    not touch the fields that the completion test reads. *)
Lemma completed_labelled a name a' :
  setitem a "course_name" name = Ok a' -> completed a' = completed a.
Proof.
  destruct a; try discriminate. cbn [setitem]. intros H.
  injection H as <-.
  unfold completed, get, get_default.
  rewrite !lookup_update_other by discriminate. reflexivity.
Qed.

(** C4: an assignment whose submission state is "graded" or "submitted"
    is skipped by the assignment loop for every clock reading, cutoff
    and horizon, whatever its due date is, also after [refresh_tasks]
    has labelled it with the name of its course; and no task of type
    Assignment in the aggregated list was made from it. *)
Theorem completed_assignment_excluded
  now_manila cutoff future notes events assignments a sub st :
  get a "submission" = Ok sub ->
  get sub "workflow_state" = Ok (VStr st) ->
  st = "graded" \/ st = "submitted" ->
  assignment_task now_manila cutoff future a = Ok None /\
  (forall name a',
     setitem a "course_name" name = Ok a' ->
     assignment_task now_manila cutoff future a' = Ok None) /\
  forall ts t,
    aggregate now_manila cutoff future notes events assignments = Ok ts ->
    In t ts -> type t = "Assignment" -> raw t <> a.
Proof.
  intros Hsub Hst Hin.
  assert (Hc : completed a = Ok true).
  { apply (completed_state a sub st Hsub Hst). tauto. }
  split; [apply assignment_task_completed, Hc|]. split.
  { intros name a' Hl. apply assignment_task_completed.
    rewrite (completed_labelled _ _ _ Hl). exact Hc. }
  intros ts t H Ht Hty Hraw.
  destruct (aggregate_source_by_type _ _ _ _ _ _ _ _ H Ht) as (_ & _ & Ha).
  specialize (Ha Hty). rewrite Hraw in Ha.
  rewrite (assignment_task_completed _ _ _ _ Hc) in Ha. discriminate Ha.
Qed.

(** C5, as the code has it: a planner note whose workflow state is
    present, not null and other than "active" is skipped, and no task of
    type Planner Note in the aggregated list was made from it.  (A note
    without a workflow state is not skipped on that ground.) *)
Theorem inactive_note_excluded
  now_manila cutoff future notes events assignments note ws :
  get note "workflow_state" = Ok ws ->
  is_none ws = false ->
  eq_str ws "active" = false ->
  note_task now_manila cutoff future note = Ok None /\
  forall ts t,
    aggregate now_manila cutoff future notes events assignments = Ok ts ->
    In t ts -> type t = "Planner Note" -> raw t <> note.
Proof.
  intros Hws Hn Ha.
  pose proof (note_task_inactive now_manila cutoff future note ws Hws Hn Ha)
    as Hskip.
  split; [exact Hskip|].
  intros ts t H Ht Hty Hraw.
  destruct (aggregate_source_by_type _ _ _ _ _ _ _ _ H Ht) as (Hnote & _).
  specialize (Hnote Hty). rewrite Hraw, Hskip in Hnote. discriminate Hnote.
Qed.

(** ** Normalisation of the due date *)

Lemma to_manila_naive_spec d r :
  to_manila_naive d = Ok r ->
  tzinfo r = None /\ wall r = instant d + manila (instant d).
Proof.
  unfold CanvasTUI.to_manila_naive, astimezone, fromutc, instant.
  intros H. destruct (tzinfo d) as [off|]; cbn [replace_tzinfo wall] in H;
    crack H; ok_hyps; cbn; rewrite ?Z.sub_0_r; split; reflexivity.
Qed.

(** C7: every task of the aggregated list carries a naive due date that
    is the Asia/Manila wall clock of the instant its source timestamp
    denotes (an aware timestamp by its own offset, a naive timestamp or
    a bare date read as UTC), and it is this converted value that the
    window filter compared. *)
Theorem due_dates_in_reference_zone
  now_manila cutoff future notes events assignments ts :
  aggregate now_manila cutoff future notes events assignments = Ok ts ->
  forall t, In t ts ->
    tzinfo (due_date t) = None /\
    (exists v d,
       source_date t = Ok v /\ isoparse v = Ok d /\
       wall (due_date t) = instant d + manila (instant d)) /\
    le now_manila (due_date t) = true /\
    (exists fm, bound_manila future = Ok fm /\ le (due_date t) fm = true).
Proof.
  intros H t Ht. unfold source_date.
  destruct (aggregate_source _ _ _ _ _ _ _ _ H Ht)
    as [(x & Hx) | [(x & Hx) | (x & _ & Hx)]].
  - destruct (note_task_some _ _ _ _ _ Hx)
      as (ws & v & d & fm & _ & _ & Hv & Hp & Hm & Hf & Hlo & Hhi & Hty & Hr).
    destruct (to_manila_naive_spec _ _ Hm) as (Hz & Hw).
    rewrite Hty, Hr. cbn [String.eqb Ascii.eqb Bool.eqb].
    repeat split; eauto.
  - destruct (event_task_some _ _ _ _ _ Hx)
      as (v & d & fm & Hv & Hp & Hm & Hf & Hlo & Hhi & Hty & Hr).
    destruct (to_manila_naive_spec _ _ Hm) as (Hz & Hw).
    rewrite Hty, Hr. cbn [String.eqb Ascii.eqb Bool.eqb].
    repeat split; eauto.
  - destruct (assignment_task_some _ _ _ _ _ Hx)
      as (v & d & fm & _ & Hv & Hp & Hm & Hf & Hlo & Hhi & Hty & Hr).
    destruct (to_manila_naive_spec _ _ Hm) as (Hz & Hw).
    rewrite Hty, Hr. cbn [String.eqb Ascii.eqb Bool.eqb].
    repeat split; eauto.
Qed.

(** ** The visibility window *)

Lemma collect_ext step step' l :
  (forall x, step x = step' x) -> collect step l = collect step' l.
Proof.
  intros Hx. induction l as [|x xs IH]; [reflexivity|].
  cbn. rewrite Hx, IH. reflexivity.
Qed.

(** The converted cutoff is computed in each loop body and then left
    unused: which cutoff it was makes no difference. *)
Lemma aggregate_cutoff now_manila c c' future x x' notes events assignments :
  bound_manila c = Ok x -> bound_manila c' = Ok x' ->
  aggregate now_manila c future notes events assignments =
  aggregate now_manila c' future notes events assignments.
Proof.
  intros Hc Hc'. unfold CanvasTUI.aggregate, CanvasTUI.gather.
  destruct (iter notes) as [ns|]; [cbn [Py.bind]|reflexivity].
  rewrite (collect_ext (note_task now_manila c future)
             (note_task now_manila c' future) ns).
  2:{ intros n. unfold CanvasTUI.note_task. rewrite Hc, Hc'. reflexivity. }
  destruct (collect _ ns); [cbn [Py.bind]|reflexivity].
  destruct (iter events) as [es|]; [cbn [Py.bind]|reflexivity].
  rewrite (collect_ext (event_task now_manila c future)
             (event_task now_manila c' future) es).
  2:{ intros n. unfold CanvasTUI.event_task. rewrite Hc, Hc'. reflexivity. }
  destruct (collect _ es); [cbn [Py.bind]|reflexivity].
  rewrite (collect_ext (assignment_task now_manila c future)
             (assignment_task now_manila c' future) assignments).
  2:{ intros n. unfold CanvasTUI.assignment_task. rewrite Hc, Hc'.
      reflexivity. }
  reflexivity.
Qed.

(** C8, as the code has it: in all three loops the lower bound of the
    window is the current Manila time.  The 30-day lookback cutoff is
    converted to the reference zone in each loop body but compared with
    nothing: replacing it by any other convertible value leaves the
    aggregated list unchanged. *)
Theorem lower_bound_is_now
  now_manila cutoff future notes events assignments ts :
  aggregate now_manila cutoff future notes events assignments = Ok ts ->
  (forall t, In t ts ->
     (type t = "Planner Note" \/ type t = "Calendar Event" \/
      type t = "Assignment") /\
     le now_manila (due_date t) = true) /\
  (forall cutoff' x x',
     bound_manila cutoff = Ok x -> bound_manila cutoff' = Ok x' ->
     aggregate now_manila cutoff' future notes events assignments = Ok ts).
Proof.
  intros H. split.
  - intros t Ht.
    destruct (aggregate_source _ _ _ _ _ _ _ _ H Ht)
      as [(x & Hx) | [(x & Hx) | (x & _ & Hx)]].
    + destruct (note_task_some _ _ _ _ _ Hx)
        as (? & ? & ? & ? & _ & _ & _ & _ & _ & _ & Hlo & _ & Hty & _).
      split; [left; exact Hty | exact Hlo].
    + destruct (event_task_some _ _ _ _ _ Hx)
        as (? & ? & ? & _ & _ & _ & _ & Hlo & _ & Hty & _).
      split; [right; left; exact Hty | exact Hlo].
    + destruct (assignment_task_some _ _ _ _ _ Hx)
        as (? & ? & ? & _ & _ & _ & _ & _ & Hlo & _ & Hty & _).
      split; [right; right; exact Hty | exact Hlo].
  - intros c' x x' Hc Hc'.
    rewrite <- H. symmetry. eapply aggregate_cutoff; eassumption.
Qed.

(** For an item that passes the other filters, membership in the list
    is decided by the window test on its converted due time: from the
    current Manila time up to the converted [future]. *)
Lemma note_task_window now_manila cutoff future note ws v d due cm fm t i :
  get note "workflow_state" = Ok ws ->
  is_none ws || eq_str ws "active" = true ->
  get note "todo_date" = Ok v -> truthy v = true ->
  isoparse v = Ok d -> to_manila_naive d = Ok due ->
  bound_manila cutoff = Ok cm -> bound_manila future = Ok fm ->
  getitem note "title" = Ok t -> getitem note "id" = Ok i ->
  exists c u,
    note_task now_manila cutoff future note =
    Ok (if le now_manila due && le due fm
        then Some (mk_task t due c "Planner Note" u note)
        else None).
Proof.
  intros Hws Hst Hv Ht Hp Hm Hc Hf Htitle Hid.
  unfold CanvasTUI.note_task, try_pass.
  rewrite Hws. cbn [Py.bind]. rewrite Hst. cbn [negb].
  rewrite Hv. cbn [Py.bind]. rewrite Ht.
  rewrite (get_truthy_getitem _ _ _ Hv Ht), Hid, Htitle.
  destruct (get_is_dict _ _ _ Hv) as (dct & ->).
  destruct (get_dict_ok dct "course_id") as (cid & Hcid).
  rewrite Hcid. cbn [Py.bind].
  assert (Hget : exists c,
             get_default (VDict dct) "course_id" (VStr "Personal") = Ok c).
  { unfold get_default. destruct (lookup "course_id" dct); eauto. }
  destruct Hget as (c & Hget). rewrite Hget.
  destruct (truthy cid) eqn:Hcidt.
  - rewrite (get_truthy_getitem _ _ _ Hcid Hcidt). cbn [Py.bind].
    rewrite Hp. cbn [Py.bind]. rewrite Hm. cbn [Py.bind].
    rewrite Hc, Hf. cbn [Py.bind Py.try_except].
    do 2 eexists. destruct (le now_manila due && le due fm); reflexivity.
  - cbn [Py.bind]. rewrite Hp. cbn [Py.bind]. rewrite Hm. cbn [Py.bind].
    rewrite Hc, Hf. cbn [Py.bind Py.try_except].
    do 2 eexists. destruct (le now_manila due && le due fm); reflexivity.
Qed.

Lemma event_task_window now_manila cutoff future event v d due cm fm :
  event_date_field event = Ok v -> truthy v = true ->
  isoparse v = Ok d -> to_manila_naive d = Ok due ->
  bound_manila cutoff = Ok cm -> bound_manila future = Ok fm ->
  exists t c u,
    event_task now_manila cutoff future event =
    Ok (if le now_manila due && le due fm
        then Some (mk_task t due c "Calendar Event" u event)
        else None).
Proof.
  intros Hv Ht Hp Hm Hc Hf.
  unfold event_date_field in Hv.
  destruct event as [| | | | |dct]; try discriminate Hv.
  unfold CanvasTUI.event_task, try_pass.
  destruct (get_dict_ok dct "html_url") as (u & ->).
  destruct (get_dict_ok dct "start_at") as (s0 & Hs0).
  destruct (get_dict_ok dct "context_name") as (name & Hname).
  assert (Hctx : exists c,
             get_default (VDict dct) "context_code" (VStr "Calendar") = Ok c).
  { unfold get_default. destruct (lookup "context_code" dct); eauto. }
  destruct Hctx as (c & Hctx).
  assert (Htitle : exists t,
             get_default (VDict dct) "title" (VStr "Untitled Event") = Ok t).
  { unfold get_default. destruct (lookup "title" dct); eauto. }
  destruct Htitle as (t & Htitle).
  rewrite Hs0 in *. cbn [Py.bind] in *. rewrite Hname, Hctx, Htitle.
  destruct (truthy s0) eqn:Es0.
  - injection Hv as ->.
    rewrite (get_truthy_getitem _ _ _ Hs0 Es0). cbn [Py.bind].
    rewrite Hp. cbn [Py.bind]. rewrite Hm. cbn [Py.bind].
    rewrite Hc, Hf. cbn [Py.bind Py.try_except].
    destruct (truthy name); cbn [Py.bind]; do 3 eexists;
      destruct (le now_manila due && le due fm); reflexivity.
  - rewrite Hv. cbn [Py.bind]. rewrite Ht.
    rewrite (get_truthy_getitem _ _ _ Hv Ht). cbn [Py.bind].
    rewrite Hp. cbn [Py.bind]. rewrite Hm. cbn [Py.bind].
    rewrite Hc, Hf. cbn [Py.bind Py.try_except].
    destruct (truthy name); cbn [Py.bind]; do 3 eexists;
      destruct (le now_manila due && le due fm); reflexivity.
Qed.

Lemma assignment_task_window
  now_manila cutoff future assignment v d due cm fm t i :
  completed assignment = Ok false ->
  get assignment "due_at" = Ok v -> truthy v = true ->
  isoparse v = Ok d -> to_manila_naive d = Ok due ->
  bound_manila cutoff = Ok cm -> bound_manila future = Ok fm ->
  getitem assignment "name" = Ok t -> getitem assignment "id" = Ok i ->
  exists c u,
    assignment_task now_manila cutoff future assignment =
    Ok (if le now_manila due && le due fm
        then Some (mk_task t due c "Assignment" u assignment)
        else None).
Proof.
  intros Hdone Hv Ht Hp Hm Hc Hf Hname Hid.
  unfold CanvasTUI.assignment_task, try_pass.
  rewrite Hdone. cbn [Py.bind].
  rewrite Hv. cbn [Py.bind]. rewrite Ht.
  rewrite (get_truthy_getitem _ _ _ Hv Ht), Hid, Hname.
  destruct (get_is_dict _ _ _ Hv) as (dct & ->).
  destruct (get_dict_ok dct "course_id") as (cid & Hcid).
  destruct (get_dict_ok dct "id") as (aid & Haid).
  rewrite Hcid, Haid. cbn [Py.bind].
  assert (Hget : exists c,
             get_default (VDict dct) "course_name" (VStr "Unknown") = Ok c).
  { unfold get_default. destruct (lookup "course_name" dct); eauto. }
  destruct Hget as (c & Hget). rewrite Hget.
  destruct (truthy cid) eqn:Hcidt; cbn [Py.bind];
    [destruct (truthy aid); cbn [Py.bind]|];
    rewrite ?(get_truthy_getitem _ _ _ Hcid Hcidt); cbn [Py.bind];
    rewrite Hp; cbn [Py.bind]; rewrite Hm; cbn [Py.bind];
    rewrite Hc, Hf; cbn [Py.bind Py.try_except];
    do 2 eexists; destruct (le now_manila due && le due fm); reflexivity.
Qed.

(** With a tz database entry of constant offset for Manila and both
    clock readings taken at instant [now], the upper bound of the window
    is the current Manila time plus 30 days plus the UTC offset of the
    machine's own zone: [future] is a local wall clock, but it is
    relabelled as UTC before the conversion. *)
Lemma horizon_on_local_clock (off : Z) (clk : clock) now_aware future fm :
  manila = (fun _ => off) ->
  second_read clk = first_read clk ->
  fromutc manila (second_read clk) = Ok now_aware ->
  add (mk_datetime (first_read clk + system_zone clk (first_read clk)) None)
      (timedelta 30 0 0) = Ok future ->
  bound_manila future = Ok fm ->
  wall fm = wall now_aware + timedelta 30 0 0
            + system_zone clk (first_read clk).
Proof.
  intros Hm Hsame Hnow Hfut Hfm.
  unfold CanvasTUI.bound_manila, astimezone, fromutc, add in *.
  rewrite Hm in *. rewrite Hsame in *.
  crack Hnow; crack Hfut; crack Hfm; ok_hyps.
  cbn [wall replace_tzinfo]. lia.
Qed.

(** ** Items whose date does not parse *)

(** Payloads made of JSON objects never make the loops raise. *)
Lemma aggregate_total now_manila cutoff future notes events assignments :
  Forall dict_like notes ->
  Forall (fun a => dict_like a /\ raises (completed a) = false) assignments ->
  exists ts,
    aggregate now_manila cutoff future (VList notes) (VList events)
      assignments = Ok ts.
Proof.
  intros Hn Ha. unfold CanvasTUI.aggregate, CanvasTUI.gather.
  cbn [iter Py.bind].
  destruct (collect_total (note_task now_manila cutoff future) notes)
    as (fn & ->).
  { eapply Forall_impl; [|exact Hn]. intros a (d & ->).
    apply note_task_total. }
  destruct (collect_total (event_task now_manila cutoff future) events)
    as (fe & ->).
  { apply Forall_forall. intros; apply event_task_total. }
  destruct (collect_total (assignment_task now_manila cutoff future)
              assignments) as (fa & ->).
  { eapply Forall_impl; [|exact Ha]. intros a ((d & ->) & Hc).
    apply assignment_task_total, Hc. }
  cbn. eexists; reflexivity.
Qed.

(** C9: an item whose date field holds a value that the parser rejects
    is dropped alone: the aggregated list (or the exception, if another
    item causes one) is the same as if the item were not in its payload,
    for each of the three source kinds; and payloads made of JSON
    objects aggregate to a list without raising, whether or not their
    dates parse. *)
Theorem unparseable_item_dropped_alone now_manila cutoff future bad v :
  truthy v = true ->
  raises (isoparse v) = true ->
  (get bad "todo_date" = Ok v ->
   forall n1 n2 events assignments,
     aggregate now_manila cutoff future (VList (n1 ++ bad :: n2)) events
       assignments =
     aggregate now_manila cutoff future (VList (n1 ++ n2)) events
       assignments) /\
  (event_date_field bad = Ok v ->
   forall notes e1 e2 assignments,
     aggregate now_manila cutoff future notes (VList (e1 ++ bad :: e2))
       assignments =
     aggregate now_manila cutoff future notes (VList (e1 ++ e2))
       assignments) /\
  (get bad "due_at" = Ok v -> raises (completed bad) = false ->
   forall notes events a1 a2,
     aggregate now_manila cutoff future notes events (a1 ++ bad :: a2) =
     aggregate now_manila cutoff future notes events (a1 ++ a2)) /\
  (forall notes events assignments,
     Forall dict_like notes ->
     Forall (fun a => dict_like a /\ raises (completed a) = false)
       assignments ->
     exists ts,
       aggregate now_manila cutoff future (VList notes) (VList events)
         assignments = Ok ts).
Proof.
  intros Ht Hbad. repeat split.
  - intros Hget n1 n2 events assignments.
    unfold CanvasTUI.aggregate, CanvasTUI.gather. cbn [iter Py.bind].
    rewrite (collect_skip _ n1 bad n2); [reflexivity|].
    eapply note_task_bad_date; eassumption.
  - intros Hget notes e1 e2 assignments.
    unfold CanvasTUI.aggregate, CanvasTUI.gather. cbn [iter Py.bind].
    rewrite (collect_skip _ e1 bad e2); [reflexivity|].
    eapply event_task_bad_date; eassumption.
  - intros Hget Hc notes events a1 a2.
    unfold CanvasTUI.aggregate, CanvasTUI.gather.
    rewrite (collect_skip _ a1 bad a2); [reflexivity|].
    eapply assignment_task_bad_date; eassumption.
  - intros notes events assignments. apply aggregate_total.
Qed.

(** ** Order of the aggregated list *)

(** C6: the aggregated list is the concatenation of the tasks appended
    by the planner-note, calendar-event and assignment loops, rearranged
    into ascending order of due date by a stable sort: it is a
    permutation of the appended tasks, it is sorted, tasks with equal
    due dates keep their appended order (which, with sortedness, fixes
    the list: any stable sort gives it), and tasks appended as
    [D2, D1, D3] with D1 < D2 < D3 come out as [D1, D2, D3]. *)
Theorem tasks_sorted_stable
  now_manila cutoff future notes events assignments ts :
  aggregate now_manila cutoff future notes events assignments = Ok ts ->
  exists ns es from_notes from_events from_assignments,
    iter notes = Ok ns /\
    collect (note_task now_manila cutoff future) ns = Ok from_notes /\
    iter events = Ok es /\
    collect (event_task now_manila cutoff future) es = Ok from_events /\
    collect (assignment_task now_manila cutoff future) assignments
      = Ok from_assignments /\
    let appended := (from_notes ++ from_events ++ from_assignments)%list in
    Permutation ts appended /\
    StronglySorted due_le ts /\
    (forall w, due_at_wall w ts = due_at_wall w appended) /\
    (forall ts',
       StronglySorted due_le ts' ->
       (forall w, due_at_wall w ts' = due_at_wall w appended) ->
       ts' = ts) /\
    (forall t1 t2 t3,
       wall (due_date t1) < wall (due_date t2) ->
       wall (due_date t2) < wall (due_date t3) ->
       appended = [t2; t1; t3] -> ts = [t1; t2; t3]).
Proof.
  intros H.
  apply aggregate_gather in H as (l & Hg & ->).
  apply gather_inv in Hg
    as (ns & es & xs & fn & fe & fa & Hi & Hn & Hj & He & -> & Ha & ->).
  exists ns, es, fn, fe, fa. repeat split; try assumption.
  - apply sort_perm.
  - apply sort_sorted.
  - intros w. apply sort_stable.
  - intros ts' S' H'. apply sort_unique; assumption.
  - intros t1 t2 t3 H12 H23 ->.
    assert (L31 : lt (due_date t3) (due_date t1) = false)
      by (apply Z.ltb_ge; lia).
    assert (L12 : lt (due_date t1) (due_date t2) = true)
      by (apply Z.ltb_lt; lia).
    assert (L32 : lt (due_date t3) (due_date t2) = false)
      by (apply Z.ltb_ge; lia).
    cbn [sort fold_right insert]. rewrite L31.
    cbn [insert]. rewrite L12, L32. reflexivity.
Qed.

End Aggregator.

(* ================================================================== *)
(** * From [refresh_tasks] to the aggregator *)
(* ================================================================== *)

(** Case analysis on the first step of [H : (x <- c ;; k) log = r] *)
Ltac crackM H :=
  unfold bindM at 1 in H;
  match type of H with
  | match ?c with _ => _ end = _ =>
      let E := fresh "E" in
      destruct c as [[?|?] ?] eqn:E; [|discriminate H]
  end.

Section RefreshFacts.

Variable srv : server.
Variable py_format : value -> string.
Variable isoparse : value -> result datetime.
Variable manila : zone.
Variable canvas : CanvasAPI.t.

(** The list that [refresh_tasks] stores in [self.tasks] is the
    aggregate of the three fetched payloads, with the window bounds
    computed from the two clock readings: every property of [aggregate]
    above is a property of [refresh_tasks]. *)
Lemma refresh_tasks_aggregate clk log ts log' :
  CanvasTUI.refresh_tasks srv py_format isoparse manila canvas clk log
  = (Ok ts, log') ->
  let now :=
    mk_datetime (CanvasTUI.first_read clk
                 + CanvasTUI.system_zone clk (CanvasTUI.first_read clk))
      None in
  exists cutoff future now_aware planner_notes calendar_events
         all_assignments,
    sub now (timedelta 30 0 0) = Ok cutoff /\
    add now (timedelta 30 0 0) = Ok future /\
    fromutc manila (CanvasTUI.second_read clk) = Ok now_aware /\
    CanvasTUI.aggregate py_format isoparse manila canvas
      (replace_tzinfo now_aware None) cutoff future
      planner_notes calendar_events all_assignments = Ok ts.
Proof.
  intros H now. unfold CanvasTUI.refresh_tasks in H.
  crackM H. crackM H. crackM H. crackM H. crackM H. crackM H. crackM H.
  crackM H.
  unfold lift in *.
  repeat match goal with
         | E : (_, _) = (_, _) |- _ => injection E as ? ?
         end.
  subst. do 6 eexists. repeat split; eassumption.
Qed.

End RefreshFacts.

(* ================================================================== *)
(** * The aggregator on sample payloads *)
(* ================================================================== *)

Section AggregatorExamples.

Import CanvasTUI.

Local Abbreviation note_task :=
  (CanvasTUI.note_task Sample.py_format isoparse_sample Sample.manila
     Sample.canvas Sample.now_manila Sample.cutoff Sample.future).
Local Abbreviation event_task :=
  (CanvasTUI.event_task isoparse_sample Sample.manila
     Sample.now_manila Sample.cutoff Sample.future).
Local Abbreviation assignment_task :=
  (CanvasTUI.assignment_task Sample.py_format isoparse_sample Sample.manila
     Sample.canvas Sample.now_manila Sample.cutoff Sample.future).

(** *** Completion filter *)

Lemma completed_assignment_excluded_witness :
  get Sample.graded_essay "submission"
  = Ok (VDict [("workflow_state", VStr "graded")])
  /\ get (VDict [("workflow_state", VStr "graded")]) "workflow_state"
     = Ok (VStr "graded")
  /\ ("graded" = "graded" \/ "graded" = "submitted")
  /\ assignment_task Sample.graded_essay = Ok None
  /\ (forall name a',
        setitem Sample.graded_essay "course_name" name = Ok a' ->
        assignment_task a' = Ok None)
  /\ forall ts t,
       Sample.aggregate (VList []) (VList []) [Sample.graded_essay] = Ok ts ->
       In t ts -> type t = "Assignment" -> raw t <> Sample.graded_essay.
Proof.
  assert (H1 : get Sample.graded_essay "submission"
               = Ok (VDict [("workflow_state", VStr "graded")]))
    by reflexivity.
  assert (H2 : get (VDict [("workflow_state", VStr "graded")])
                 "workflow_state" = Ok (VStr "graded")) by reflexivity.
  assert (H3 : "graded" = "graded" \/ "graded" = "submitted")
    by (left; reflexivity).
  exact (conj H1 (conj H2 (conj H3
           (completed_assignment_excluded Sample.py_format isoparse_sample
              Sample.manila Sample.canvas Sample.now_manila Sample.cutoff
              Sample.future (VList []) (VList []) [Sample.graded_essay]
              Sample.graded_essay _ _ H1 H2 H3)))).
Defined.

(** *** Workflow-state filter *)

Lemma inactive_note_excluded_witness :
  get Sample.deleted_note "workflow_state" = Ok (VStr "deleted")
  /\ is_none (VStr "deleted") = false
  /\ eq_str (VStr "deleted") "active" = false
  /\ note_task Sample.deleted_note = Ok None
  /\ forall ts t,
       Sample.aggregate (VList [Sample.deleted_note]) (VList []) [] = Ok ts ->
       In t ts -> type t = "Planner Note" -> raw t <> Sample.deleted_note.
Proof.
  assert (H1 : get Sample.deleted_note "workflow_state" = Ok (VStr "deleted"))
    by reflexivity.
  assert (H2 : is_none (VStr "deleted") = false) by reflexivity.
  assert (H3 : eq_str (VStr "deleted") "active" = false) by reflexivity.
  exact (conj H1 (conj H2 (conj H3
           (inactive_note_excluded Sample.py_format isoparse_sample
              Sample.manila Sample.canvas Sample.now_manila Sample.cutoff
              Sample.future (VList [Sample.deleted_note]) (VList []) []
              Sample.deleted_note _ H1 H2 H3)))).
Defined.

(** C5, counterexample: a planner note that has no workflow state and
    is due at the current Manila time is listed; absence of the state
    does not exclude it. *)
Lemma note_without_state_is_listed :
  getitem Sample.stateless_note "workflow_state"
  = Raise (KeyError "workflow_state")
  /\ get Sample.stateless_note "workflow_state" = Ok VNone
  /\ exists t,
       Sample.aggregate (VList [Sample.stateless_note]) (VList []) [] = Ok [t]
       /\ type t = "Planner Note"
       /\ raw t = Sample.stateless_note
       /\ due_date t = Sample.now_manila.
Proof.
  split; [reflexivity|]. split; [reflexivity|].
  eexists. split; [vm_compute; reflexivity|].
  repeat split; reflexivity.
Qed.

(** *** Normalisation: an aware timestamp, a naive one, a bare date *)

Example three_shapes_due_dates :
  map (fun t => (type t, isoformat (due_date t))) Sample.three_shapes_tasks =
  [("Planner Note", "2025-01-10T12:30:00");
   ("Calendar Event", "2025-01-11T08:00:00");
   ("Calendar Event", "2025-01-12T08:00:00");
   ("Assignment", "2025-01-13T08:00:00")].
Proof. vm_compute. reflexivity. Qed.

Lemma due_dates_in_reference_zone_witness :
  Sample.aggregate Sample.three_shapes_notes Sample.three_shapes_events
    Sample.three_shapes_assignments = Ok Sample.three_shapes_tasks
  /\ forall t, In t Sample.three_shapes_tasks ->
       tzinfo (due_date t) = None /\
       (exists v d,
          source_date t = Ok v /\ isoparse_sample v = Ok d /\
          wall (due_date t) = instant d + Sample.manila (instant d)) /\
       le Sample.now_manila (due_date t) = true /\
       (exists fm, CanvasTUI.bound_manila Sample.manila Sample.future = Ok fm
                   /\ le (due_date t) fm = true).
Proof.
  assert (H : Sample.aggregate Sample.three_shapes_notes
                Sample.three_shapes_events Sample.three_shapes_assignments
              = Ok Sample.three_shapes_tasks)
    by (vm_compute; reflexivity).
  exact (conj H (due_dates_in_reference_zone Sample.py_format isoparse_sample
                   Sample.manila Sample.canvas _ _ _ _ _ _ _ H)).
Defined.

(** *** The lower bound of the window *)

Lemma lower_bound_is_now_witness :
  Sample.aggregate Sample.three_shapes_notes Sample.three_shapes_events
    Sample.three_shapes_assignments = Ok Sample.three_shapes_tasks
  /\ (forall t, In t Sample.three_shapes_tasks ->
        (type t = "Planner Note" \/ type t = "Calendar Event" \/
         type t = "Assignment") /\
        le Sample.now_manila (due_date t) = true)
  /\ (forall cutoff' x x',
        CanvasTUI.bound_manila Sample.manila Sample.cutoff = Ok x ->
        CanvasTUI.bound_manila Sample.manila cutoff' = Ok x' ->
        CanvasTUI.aggregate Sample.py_format isoparse_sample Sample.manila
          Sample.canvas Sample.now_manila cutoff' Sample.future
          Sample.three_shapes_notes Sample.three_shapes_events
          Sample.three_shapes_assignments
        = Ok Sample.three_shapes_tasks).
Proof.
  assert (H : Sample.aggregate Sample.three_shapes_notes
                Sample.three_shapes_events Sample.three_shapes_assignments
              = Ok Sample.three_shapes_tasks)
    by (vm_compute; reflexivity).
  exact (conj H (lower_bound_is_now Sample.py_format isoparse_sample
                   Sample.manila Sample.canvas _ _ _ _ _ _ _ H)).
Defined.

(** C8, counterexample: one item of each kind, due one day before the
    current Manila time, later than the converted 30-day cutoff and
    earlier than now.  None of the three loops lists it: no loop has
    the cutoff as its lower bound. *)
Lemma yesterday_is_listed_by_no_loop :
  exists d due cutoff_manila,
    isoparse_sample (VStr "2025-01-09T04:00:00Z") = Ok d /\
    CanvasTUI.to_manila_naive Sample.manila d = Ok due /\
    CanvasTUI.bound_manila Sample.manila Sample.cutoff = Ok cutoff_manila /\
    le cutoff_manila due = true /\
    lt due Sample.now_manila = true /\
    Sample.aggregate
      (VList [Sample.note 1 "Pay fees" "2025-01-09T04:00:00Z"])
      (VList []) [] = Ok [] /\
    Sample.aggregate (VList [])
      (VList [Sample.event 2 "Seminar" "2025-01-09T04:00:00Z"]) [] = Ok [] /\
    Sample.aggregate (VList []) (VList [])
      [Sample.assignment 4 5 "Essay" "2025-01-09T04:00:00Z"] = Ok [].
Proof.
  do 3 eexists.
  repeat split; try (vm_compute; reflexivity).
Qed.

(** *** Unparseable dates *)

Lemma unparseable_item_dropped_alone_witness :
  truthy (VStr "next tuesday") = true
  /\ raises (isoparse_sample (VStr "next tuesday")) = true
  /\ get Sample.broken_note "todo_date" = Ok (VStr "next tuesday")
  /\ event_date_field Sample.broken_event = Ok (VStr "next tuesday")
  /\ get Sample.broken_assignment "due_at" = Ok (VStr "next tuesday")
  /\ raises (completed Sample.broken_assignment) = false
  /\ Sample.aggregate
       (VList ([Sample.stateless_note] ++ Sample.broken_note :: []))
       Sample.three_shapes_events Sample.three_shapes_assignments
     = Sample.aggregate (VList ([Sample.stateless_note] ++ []))
         Sample.three_shapes_events Sample.three_shapes_assignments
  /\ Sample.aggregate Sample.three_shapes_notes
       (VList ([] ++ Sample.broken_event :: [Sample.event 2 "Naive"
                                         "2025-01-11T00:00:00"]))
       Sample.three_shapes_assignments
     = Sample.aggregate Sample.three_shapes_notes
         (VList ([] ++ [Sample.event 2 "Naive" "2025-01-11T00:00:00"]))
         Sample.three_shapes_assignments
  /\ Sample.aggregate Sample.three_shapes_notes Sample.three_shapes_events
       (Sample.three_shapes_assignments ++ Sample.broken_assignment :: [])
     = Sample.aggregate Sample.three_shapes_notes Sample.three_shapes_events
         (Sample.three_shapes_assignments ++ []).
Proof.
  assert (H1 : truthy (VStr "next tuesday") = true) by reflexivity.
  assert (H2 : raises (isoparse_sample (VStr "next tuesday")) = true)
    by reflexivity.
  assert (H3 : get Sample.broken_note "todo_date" = Ok (VStr "next tuesday"))
    by reflexivity.
  assert (H4 : event_date_field Sample.broken_event = Ok (VStr "next tuesday"))
    by reflexivity.
  assert (H5 : get Sample.broken_assignment "due_at" = Ok (VStr "next tuesday"))
    by reflexivity.
  assert (H6 : raises (completed Sample.broken_assignment) = false)
    by reflexivity.
  destruct (unparseable_item_dropped_alone Sample.py_format isoparse_sample
              Sample.manila Sample.canvas Sample.now_manila Sample.cutoff
              Sample.future Sample.broken_note _ H1 H2) as (Wn & _).
  destruct (unparseable_item_dropped_alone Sample.py_format isoparse_sample
              Sample.manila Sample.canvas Sample.now_manila Sample.cutoff
              Sample.future Sample.broken_event _ H1 H2) as (_ & We & _).
  destruct (unparseable_item_dropped_alone Sample.py_format isoparse_sample
              Sample.manila Sample.canvas Sample.now_manila Sample.cutoff
              Sample.future Sample.broken_assignment _ H1 H2)
    as (_ & _ & Wa & _).
  exact (conj H1 (conj H2 (conj H3 (conj H4 (conj H5 (conj H6
           (conj (Wn H3 _ _ _ _)
              (conj (We H4 _ _ _ _) (Wa H5 H6 _ _ _ _))))))))).
Defined.

(** *** Order *)

Example out_of_order_titles :
  map title Sample.out_of_order_tasks
  = [VStr "First"; VStr "Second"; VStr "Third"].
Proof. reflexivity. Qed.

Lemma tasks_sorted_stable_witness :
  Sample.aggregate Sample.out_of_order_notes (VList []) []
  = Ok Sample.out_of_order_tasks
  /\ exists ns es from_notes from_events from_assignments,
       iter Sample.out_of_order_notes = Ok ns /\
       collect note_task ns = Ok from_notes /\
       iter (VList []) = Ok es /\
       collect event_task es = Ok from_events /\
       collect assignment_task [] = Ok from_assignments /\
       let appended :=
         (from_notes ++ from_events ++ from_assignments)%list in
       Permutation Sample.out_of_order_tasks appended /\
       StronglySorted due_le Sample.out_of_order_tasks /\
       (forall w, due_at_wall w Sample.out_of_order_tasks
                  = due_at_wall w appended) /\
       (forall ts',
          StronglySorted due_le ts' ->
          (forall w, due_at_wall w ts' = due_at_wall w appended) ->
          ts' = Sample.out_of_order_tasks) /\
       (forall t1 t2 t3,
          wall (due_date t1) < wall (due_date t2) ->
          wall (due_date t2) < wall (due_date t3) ->
          appended = [t2; t1; t3] -> Sample.out_of_order_tasks = [t1; t2; t3]).
Proof.
  assert (H : Sample.aggregate Sample.out_of_order_notes (VList []) []
              = Ok Sample.out_of_order_tasks) by (vm_compute; reflexivity).
  exact (conj H (tasks_sorted_stable Sample.py_format isoparse_sample
                   Sample.manila Sample.canvas _ _ _ _ _ _ _ H)).
Defined.

End AggregatorExamples.

(* ================================================================== *)
(** * The API client on sample traffic *)
(* ================================================================== *)

Section ClientExamples.

Lemma fetch_degrades_to_empty_witness :
  status_code (mk_response 500 "Internal Server Error"
                 (Raise (JSONDecodeError "Expecting value"))) <> 200
  /\ CanvasAPI.get_planner_notes Sample.rejecting Sample.canvas []
     = (Ok (VList []), [planner_notes_request Sample.canvas])
  /\ CanvasAPI.get_active_courses Sample.unreachable Sample.canvas []
     = (Ok (VList []), [courses_request Sample.canvas]).
Proof.
  assert (H : status_code (mk_response 500 "Internal Server Error"
                (Raise (JSONDecodeError "Expecting value"))) <> 200)
    by (cbn; lia).
  destruct (fetch_degrades_to_empty Sample.rejecting Sample.py_format
              Sample.canvas [] VNone Sample.cutoff Sample.future)
    as (_ & _ & Wn & _ & _ & Wstatus & _).
  destruct (fetch_degrades_to_empty Sample.unreachable Sample.py_format
              Sample.canvas [] VNone Sample.cutoff Sample.future)
    as (Wc & _ & _ & _ & Wraise & _).
  split; [exact H|]. split.
  - rewrite Wn. unfold Sample.rejecting. rewrite (Wstatus _ H). reflexivity.
  - rewrite Wc. unfold Sample.unreachable. rewrite Wraise. reflexivity.
Defined.

Example last_half_hour_text :
  isoformat Sample.last_half_hour = "9999-12-31T23:30:00".
Proof. vm_compute. reflexivity. Qed.

Lemma create_task_two_tier_witness :
  valid Sample.now_manila
  /\ add Sample.now_manila (timedelta 0 1 0)
     = Ok (mk_datetime (wall Sample.now_manila + US_PER_HOUR) None)
  /\ CanvasAPI.create_task Sample.planner_notes_forbidden Sample.py_format
       Sample.canvas "Pay fees" "Cashier, window 3" Sample.now_manila VNone []
     = (Ok (CanvasAPI.success (VDict [("id", VInt 77)]) "calendar_event"),
        [planner_note_request Sample.canvas "Pay fees" "Cashier, window 3"
           Sample.now_manila VNone;
         calendar_event_request Sample.py_format Sample.canvas "Pay fees"
           "Cashier, window 3" Sample.now_manila
           (mk_datetime (wall Sample.now_manila + US_PER_HOUR) None) VNone])
  /\ CanvasAPI.create_task Sample.rejecting Sample.py_format
       Sample.canvas "Pay fees" "Cashier, window 3" Sample.now_manila VNone []
     = (Ok CanvasAPI.all_failed,
        [planner_note_request Sample.canvas "Pay fees" "Cashier, window 3"
           Sample.now_manila VNone;
         calendar_event_request Sample.py_format Sample.canvas "Pay fees"
           "Cashier, window 3" Sample.now_manila
           (mk_datetime (wall Sample.now_manila + US_PER_HOUR) None) VNone]).
Proof.
  assert (Hv : valid Sample.now_manila).
  { unfold valid. cbn. split; [|exact I]. vm_compute. split; discriminate. }
  assert (Ha : add Sample.now_manila (timedelta 0 1 0)
               = Ok (mk_datetime (wall Sample.now_manila + US_PER_HOUR) None))
    by (vm_compute; reflexivity).
  destruct (create_task_two_tier Sample.planner_notes_forbidden
              Sample.py_format Sample.canvas "Pay fees" "Cashier, window 3"
              Sample.now_manila _ VNone [] Hv Ha) as (W1 & _).
  destruct (create_task_two_tier Sample.rejecting
              Sample.py_format Sample.canvas "Pay fees" "Cashier, window 3"
              Sample.now_manila _ VNone [] Hv Ha) as (W2 & _).
  split; [exact Hv|]. split; [exact Ha|]. split.
  - rewrite W1. reflexivity.
  - rewrite W2. reflexivity.
Defined.

(** C10: with the planner-note tier failing and a due date in the last
    hour of year 9999, [create_task] does not return: the text written
    by [isoformat] is parsed back, but adding one hour to it overflows
    outside any [try], and [OverflowError] leaves [create_task] after
    the single planner-note request. *)
Theorem create_task_raises_at_end_of_range :
  valid Sample.last_half_hour
  /\ fromisoformat (replace_Z (isoformat Sample.last_half_hour))
     = Ok Sample.last_half_hour
  /\ CanvasAPI.create_task Sample.unreachable Sample.py_format Sample.canvas
       "Countdown" "Last task" Sample.last_half_hour VNone []
     = (Raise OverflowError,
        [planner_note_request Sample.canvas "Countdown" "Last task"
           Sample.last_half_hour VNone]).
Proof.
  assert (Hv : valid Sample.last_half_hour).
  { unfold valid. cbn. split; [|exact I]. vm_compute. split; discriminate. }
  split; [exact Hv|]. split.
  - rewrite replace_Z_isoformat. apply fromisoformat_isoformat, Hv.
  - apply (create_task_overflow Sample.unreachable Sample.py_format
             Sample.canvas "Countdown" "Last task" Sample.last_half_hour
             OverflowError VNone [] Hv); reflexivity.
Qed.

End ClientExamples.

(* ================================================================== *)
(** * The upper bound of the window *)
(* ================================================================== *)

Section Horizon.

Import CanvasTUI.

(** C2: on a machine whose own zone is Asia/Manila, items of all three
    kinds whose normalised due time is 30 days and 1 second after the
    current Manila time are listed: the window does not end 30 days
    after now. *)
Theorem items_30_days_1_second_ahead_are_listed :
  exists ts log,
    refresh_tasks Sample.beyond_server Sample.py_format isoparse_sample
      Sample.manila Sample.canvas Sample.manila_clock [] = (Ok ts, log)
    /\ map type ts = ["Planner Note"; "Calendar Event"; "Assignment"]
    /\ Forall (fun t =>
                 wall (due_date t)
                 = wall Sample.now_manila + timedelta 30 0 1) ts.
Proof.
  eexists. eexists. split; [vm_compute; reflexivity|].
  split; [reflexivity|].
  repeat constructor.
Qed.

(** The same payloads on a machine whose own zone is UTC: nothing is
    listed. *)
Example items_30_days_1_second_ahead_on_utc_machine :
  fst (refresh_tasks Sample.beyond_server Sample.py_format isoparse_sample
         Sample.manila Sample.canvas Sample.utc_clock []) = Ok [].
Proof. vm_compute. reflexivity. Qed.

(** An item due exactly at the current Manila time is listed on both. *)
Example item_due_now_is_listed :
  exists t,
    Sample.aggregate (VList [Sample.note 1 "Pay fees" "2025-01-10T04:00:00Z"])
      (VList []) [] = Ok [t]
    /\ due_date t = Sample.now_manila.
Proof. eexists. split; vm_compute; reflexivity. Qed.

End Horizon.

Import Observations.

(* ================================================================== *)
(** * Start-up *)
(* ================================================================== *)

Section StartupFacts.

Import Startup.

Variable srv : server.
Variable py_format : value -> string.
Variable isoparse : value -> result datetime.
Variable manila : zone.

Lemma rstrip_split c s :
  exists n, s = rstrip c s ++ repeat_char c n.
Proof.
  induction s as [|a s (n & IH)]; [exists O; reflexivity|].
  cbn [rstrip]. destruct (rstrip c s) as [|b r] eqn:E.
  - destruct (Ascii.eqb_spec a c) as [->|Hne].
    + exists (S n). cbn. rewrite IH at 1. reflexivity.
    + exists n. cbn. rewrite IH at 1. reflexivity.
  - exists n. cbn [append]. rewrite IH at 1. reflexivity.
Qed.

Lemma endswith_rstrip c s : endswith c (rstrip c s) = false.
Proof.
  induction s as [|a s IH]; [reflexivity|].
  cbn [rstrip]. destruct (rstrip c s) as [|b r] eqn:E.
  - destruct (Ascii.eqb_spec a c) as [->|Hne]; [reflexivity|].
    cbn. apply Ascii.eqb_neq. exact Hne.
  - exact IH.
Qed.

Lemma rstrip_fixed c s : endswith c s = false -> rstrip c s = s.
Proof.
  induction s as [|a s IH]; [reflexivity|]. intros H.
  cbn [rstrip]. destruct s as [|b s'].
  - cbn in *. rewrite H. reflexivity.
  - rewrite (IH H). reflexivity.
Qed.

(** X1: [CanvasAPI.__init__] keeps the base URL without its trailing
    slashes: the stored URL is the given text with a run of slashes
    taken off its end, it does not end in a slash, and building the
    client from the stored URL again changes nothing. *)
Theorem init_strips_trailing_slashes s token :
  exists self n,
    init py_format (VStr s) token = Ok self /\
    s = CanvasAPI.base_url self ++ repeat_char "/" n /\
    endswith "/" (CanvasAPI.base_url self) = false /\
    init py_format (VStr (CanvasAPI.base_url self)) token = Ok self.
Proof.
  destruct (rstrip_split "/" s) as (n & Hn).
  exists (CanvasAPI.mk_api (rstrip "/" s) (py_format token)), n.
  cbn [init CanvasAPI.base_url].
  repeat split; [exact Hn | apply endswith_rstrip|].
  rewrite (rstrip_fixed _ _ (endswith_rstrip "/" s)). reflexivity.
Qed.

Lemma validate_token_spec self user_id log :
  validate_token srv self user_id log =
  (Ok (validated user_id (srv log (users_self_request self))),
   (log ++ [users_self_request self])%list).
Proof.
  unfold validate_token, try_exceptM, bindM, CanvasAPI.requests_get, send,
    lift, ret, validated.
  fold (get_request self "/api/v1/users/self" VNone).
  fold (users_self_request self).
  destruct (srv log (users_self_request self)) as [resp|e]; [|reflexivity].
  destruct (status_code resp =? 200); [|reflexivity].
  destruct (json resp) as [[| | | | |d]|e]; try reflexivity.
  cbn. unfold get, get_default. destruct (lookup "id" d); reflexivity.
Qed.

Lemma validated_true user_id o :
  fst (validated user_id o) = true <->
  exists resp d,
    o = Ok resp /\ status_code resp = 200 /\ json resp = Ok (VDict d).
Proof.
  unfold validated. split.
  - destruct o as [resp|e]; [|discriminate].
    destruct (Z.eqb_spec (status_code resp) 200) as [Hs|Hs]; [|discriminate].
    destruct (json resp) as [[| | | | |d]|e] eqn:Hj; try discriminate.
    intros _. exists resp, d. repeat split; assumption.
  - intros (resp & d & -> & Hs & Hj). rewrite Hs, Hj. reflexivity.
Qed.

Lemma validated_false user_id o :
  fst (validated user_id o) = false -> snd (validated user_id o) = user_id.
Proof.
  unfold validated. destruct o as [resp|e]; [|reflexivity].
  destruct (status_code resp =? 200); [|reflexivity].
  destruct (json resp) as [[| | | | |d]|e]; try reflexivity. discriminate.
Qed.

(** X2: [validate_token] sends one GET to [/api/v1/users/self] and
    returns to its caller whatever the server does.  It answers [True]
    exactly when the response has status 200 and a body that is a JSON
    object, and the user id is then the [id] of that object ([None]
    when it has none); when it answers [False] the user id is left as
    it was. *)
Theorem validate_token_outcome self user_id log :
  exists ok user_id',
    validate_token srv self user_id log =
      (Ok (ok, user_id'), (log ++ [users_self_request self])%list)
    /\ (ok = true <->
        exists resp d,
          srv log (users_self_request self) = Ok resp /\
          status_code resp = 200 /\ json resp = Ok (VDict d) /\
          get (VDict d) "id" = Ok user_id')
    /\ (ok = false -> user_id' = user_id).
Proof.
  rewrite validate_token_spec.
  destruct (validated user_id (srv log (users_self_request self)))
    as [ok uid] eqn:E.
  exists ok, uid. split; [reflexivity|]. split.
  - split.
    + intros ->.
      destruct (proj1 (validated_true user_id
                         (srv log (users_self_request self))))
        as (resp & d & Ho & Hs & Hj).
      { rewrite E. reflexivity. }
      exists resp, d. repeat split; try assumption.
      rewrite Ho in E. unfold validated in E. rewrite Hs, Hj in E.
      cbn in E. injection E as <-. unfold get, get_default.
      destruct (lookup "id" d); reflexivity.
    + intros (resp & d & Ho & Hs & Hj & _).
      assert (H : fst (validated user_id (srv log (users_self_request self)))
                  = true) by (apply validated_true; eauto).
      rewrite E in H. exact H.
  - intros ->. pose proof (validated_false user_id
                             (srv log (users_self_request self))) as H.
    rewrite E in H. apply H. reflexivity.
Qed.

(** ** [on_mount] *)

Local Abbreviation on_mount := (Startup.on_mount srv py_format isoparse manila).

Lemma is_configured_true config :
  is_configured config = Ok true ->
  exists url token,
    config_get config "canvas_base_url" VNone = Ok url /\ truthy url = true /\
    config_get config "canvas_token" VNone = Ok token /\ truthy token = true.
Proof.
  unfold is_configured, config_get, get. intros H.
  destruct (get_default config "canvas_base_url" VNone) as [url|];
    [|discriminate H].
  cbn [Py.bind] in H. destruct (truthy url) eqn:Hu; [|discriminate H].
  destruct (get_default config "canvas_token" VNone) as [token|];
    [|discriminate H].
  cbn [Py.bind] in H. injection H as H. eauto 10.
Qed.

(** X3: with a configuration that [is_configured] rejects, [on_mount]
    shows one error notification and stops: no request is sent. *)
Theorem on_mount_unconfigured config clk log :
  is_configured config = Ok false ->
  exists n,
    on_mount config clk log = (Ok (NotConfigured n), log) /\
    severity n = "error".
Proof.
  intros H. unfold Startup.on_mount, bindM, lift, ret. rewrite H. cbn.
  eexists. split; reflexivity.
Qed.

(** A configuration file that does not exist is such a configuration. *)
Example missing_file_unconfigured :
  exists config, load_config None = Ok config /\ is_configured config = Ok false.
Proof. exists (VDict []). split; reflexivity. Qed.


End StartupFacts.

(* ================================================================== *)
(** * The requests of a refresh *)
(* ================================================================== *)

(** The step just split off was a pure computation / a fetch with
    equation [spec] *)
Ltac lifted :=
  match goal with
  | E : lift _ _ = (Ok _, _) |- _ =>
      unfold lift in E; injection E as E ?; subst
  end.

Ltac sent spec :=
  match goal with
  | E : _ = (Ok _, _) |- _ =>
      rewrite spec in E; injection E as ? ?; subst
  end.

Section RefreshRequests.

Variable srv : server.
Variable py_format : value -> string.
Variable isoparse : value -> result datetime.
Variable manila : zone.
Variable canvas : CanvasAPI.t.

Local Abbreviation refresh_tasks :=
  (CanvasTUI.refresh_tasks srv py_format isoparse manila canvas).
Local Abbreviation aggregate :=
  (CanvasTUI.aggregate py_format isoparse manila canvas).
Local Abbreviation course_assignments :=
  (CanvasTUI.course_assignments srv py_format canvas).
Local Abbreviation courses_request := (Statements.courses_request canvas).
Local Abbreviation planner_notes_request :=
  (Statements.planner_notes_request canvas).
Local Abbreviation calendar_events_request :=
  (Statements.calendar_events_request canvas).
Local Abbreviation assignments_request :=
  (Statements.assignments_request py_format canvas).

Lemma get_active_courses_spec log :
  CanvasAPI.get_active_courses srv canvas log =
  (Ok (fetched (srv log courses_request)), (log ++ [courses_request])%list).
Proof. apply (fetch_spec srv canvas "/api/v1/courses"). Qed.

Lemma get_planner_notes_spec log :
  CanvasAPI.get_planner_notes srv canvas log =
  (Ok (fetched (srv log planner_notes_request)),
   (log ++ [planner_notes_request])%list).
Proof. apply (fetch_spec srv canvas "/api/v1/planner_notes"). Qed.

Lemma get_calendar_events_spec s e log :
  CanvasAPI.get_calendar_events srv canvas s e log =
  (Ok (fetched (srv log (calendar_events_request s e))),
   (log ++ [calendar_events_request s e])%list).
Proof. apply (fetch_spec srv canvas "/api/v1/calendar_events"). Qed.

Lemma get_assignments_spec course_id log :
  CanvasAPI.get_assignments srv py_format canvas course_id log =
  (Ok (fetched (srv log (assignments_request course_id))),
   (log ++ [assignments_request course_id])%list).
Proof.
  apply (fetch_spec srv canvas
           ("/api/v1/courses/" ++ py_format course_id ++ "/assignments")).
Qed.

(** One iteration of the course loop: one GET, and the fetched items
    labelled with the name of the course *)
Lemma course_assignments_spec course log labelled log' :
  course_assignments course log = (Ok labelled, log') ->
  exists id items,
    getitem course "id" = Ok id /\
    log' = (log ++ [assignments_request id])%list /\
    iter (fetched (srv log (assignments_request id))) = Ok items /\
    mapM (fun assignment =>
            Py.bind (getitem course "name") (fun name =>
            setitem assignment "course_name" name)) items = Ok labelled.
Proof.
  unfold CanvasTUI.course_assignments. intros H.
  crackM H. lifted.
  crackM H. sent get_assignments_spec.
  crackM H. lifted.
  crackM H. lifted.
  unfold ret in H. injection H as <- <-.
  eauto 10.
Qed.

Lemma course_loop_spec courses : forall log per log',
  mapMM course_assignments courses log = (Ok per, log') ->
  exists ids,
    course_ids courses = Ok ids /\
    log' = (log ++ map assignments_request ids)%list /\
    (courses = [] -> per = []).
Proof.
  induction courses as [|c cs IH]; intros log per log' H.
  - cbn in H. injection H as <- <-. exists []. cbn.
    rewrite app_nil_r. auto.
  - cbn [mapMM] in H.
    crackM H.
    match goal with
    | E : CanvasTUI.course_assignments _ _ _ _ _ = _ |- _ =>
        apply course_assignments_spec in E as (id & items & Hid & -> & _ & _)
    end.
    crackM H.
    match goal with
    | E : mapMM _ _ _ = _ |- _ => apply IH in E as (ids & Hids & -> & _)
    end.
    unfold ret in H. injection H as <- <-.
    exists (id :: ids). unfold course_ids in *. cbn [mapM].
    rewrite Hid. cbn [Py.bind]. rewrite Hids. cbn [Py.bind map].
    rewrite <- app_assoc. repeat split. discriminate.
Qed.

(** What [refresh_tasks] sends and what it aggregates *)
Lemma refresh_tasks_spec clk log ts log' :
  refresh_tasks clk log = (Ok ts, log') ->
  let now :=
    mk_datetime (CanvasTUI.first_read clk
                 + CanvasTUI.system_zone clk (CanvasTUI.first_read clk))
      None in
  let log1 := (log ++ [courses_request])%list in
  let log2 := (log1 ++ [planner_notes_request])%list in
  exists cutoff future now_aware courses ids per,
    sub now (timedelta 30 0 0) = Ok cutoff /\
    add now (timedelta 30 0 0) = Ok future /\
    fromutc manila (CanvasTUI.second_read clk) = Ok now_aware /\
    iter (fetched (srv log courses_request)) = Ok courses /\
    course_ids courses = Ok ids /\
    (courses = [] -> per = []) /\
    log' = (log ++ [courses_request; planner_notes_request;
                    calendar_events_request cutoff future]
            ++ map assignments_request ids)%list /\
    aggregate (replace_tzinfo now_aware None) cutoff future
      (fetched (srv log1 planner_notes_request))
      (fetched (srv log2 (calendar_events_request cutoff future)))
      (List.concat per) = Ok ts.
Proof.
  intros H now log1 log2. unfold CanvasTUI.refresh_tasks in H.
  crackM H. sent get_active_courses_spec.
  crackM H. lifted.
  crackM H. lifted.
  crackM H. lifted.
  crackM H. sent get_planner_notes_spec.
  crackM H. sent get_calendar_events_spec.
  crackM H. lifted.
  crackM H.
  match goal with
  | E : mapMM _ _ _ = _ |- _ =>
      apply course_loop_spec in E as (ids & Hids & -> & Hnil)
  end.
  unfold lift in H. injection H as H <-.
  do 6 eexists. do 6 (split; [eassumption|]).
  split; [|exact H].
  rewrite <- !app_assoc. reflexivity.
Qed.

(** X5: the requests of a refresh that returns, in order: the courses,
    the planner notes, the calendar events with [start_date] and
    [end_date] 30 days before and after the naive local clock, then one
    assignments request per fetched course, by the [id] of the course,
    in the order of the courses.  Nothing else is sent. *)
Theorem refresh_tasks_requests clk log ts log' :
  refresh_tasks clk log = (Ok ts, log') ->
  exists cutoff future courses ids,
    sub (mk_datetime (CanvasTUI.first_read clk
                      + CanvasTUI.system_zone clk (CanvasTUI.first_read clk))
           None) (timedelta 30 0 0) = Ok cutoff /\
    add (mk_datetime (CanvasTUI.first_read clk
                      + CanvasTUI.system_zone clk (CanvasTUI.first_read clk))
           None) (timedelta 30 0 0) = Ok future /\
    iter (fetched (srv log courses_request)) = Ok courses /\
    course_ids courses = Ok ids /\
    List.length ids = List.length courses /\
    log' = (log ++ [courses_request; planner_notes_request;
                    calendar_events_request cutoff future]
            ++ map assignments_request ids)%list.
Proof.
  intros H. apply refresh_tasks_spec in H.
  destruct H as (cutoff & future & na & cs & ids & per
                 & Hc & Hf & _ & Hi & Hids & _ & Hlog & _).
  exists cutoff, future, cs, ids. repeat split; try assumption.
  clear -Hids. unfold course_ids in Hids.
  revert ids Hids. induction cs as [|c cs IH]; intros ids H; cbn in H.
  - injection H as <-. reflexivity.
  - destruct (getitem c "id"); [|discriminate H]. cbn in H.
    destruct (mapM _ cs) as [r|] eqn:E; [|discriminate H].
    injection H as <-. cbn. f_equal. apply IH. reflexivity.
Qed.

Lemma fetched_failed o : fetch_failed o -> fetched o = VList [].
Proof.
  unfold fetch_failed, fetched. destruct o as [resp|e]; [|reflexivity].
  intros [H|H].
  - destruct (Z.eqb_spec (status_code resp) 200); [contradiction|reflexivity].
  - destruct (status_code resp =? 200); [|reflexivity].
    destruct (json resp); [discriminate H|reflexivity].
Qed.


(** X7: when the courses GET gives nothing, a refresh that returns has
    sent its three list requests and no assignments request, and lists
    no assignment. *)
Theorem courses_failure_sends_no_assignment_request clk log ts log' :
  refresh_tasks clk log = (Ok ts, log') ->
  fetch_failed (srv log courses_request) ->
  (exists cutoff future,
     log' = (log ++ [courses_request; planner_notes_request;
                     calendar_events_request cutoff future])%list) /\
  (forall t, In t ts -> CanvasTUI.type t <> "Assignment").
Proof.
  intros H Hfail. apply refresh_tasks_spec in H.
  destruct H as (cutoff & future & na & cs & ids & per
                 & _ & _ & _ & Hi & Hids & Hper & Hlog & Hagg).
  rewrite (fetched_failed _ Hfail) in Hi. cbn in Hi. injection Hi as <-.
  cbn in Hids. injection Hids as <-. rewrite (Hper eq_refl) in Hagg.
  split.
  - exists cutoff, future. rewrite Hlog. cbn [map]. rewrite app_nil_r.
    reflexivity.
  - intros t Ht Hty.
    apply aggregate_gather in Hagg as (l & Hg & ->).
    apply gather_inv in Hg
      as (ns & es & xs & fn & fe & fa & _ & Hcn & _ & Hce & -> & Hca & ->).
    cbn in Hca. injection Hca as <-.
    apply (proj1 (sort_In _ _)) in Ht. rewrite app_nil_r in Ht.
    apply in_app_or in Ht as [Ht|Ht].
    + destruct (collect_In _ _ _ _ Hcn Ht) as (x & _ & Hx).
      apply note_task_some in Hx.
      destruct Hx as (? & ? & ? & ? & _ & _ & _ & _ & _ & _ & _ & _ & Hty' & _).
      rewrite Hty in Hty'. discriminate Hty'.
    + destruct (collect_In _ _ _ _ Hce Ht) as (x & _ & Hx).
      apply event_task_some in Hx.
      destruct Hx as (? & ? & ? & _ & _ & _ & _ & _ & _ & Hty' & _).
      rewrite Hty in Hty'. discriminate Hty'.
Qed.

End RefreshRequests.

(* ================================================================== *)
(** * Shapes of the payloads, labels and links *)
(* ================================================================== *)

Section PayloadShapes.

Variable py_format : value -> string.
Variable isoparse : value -> result datetime.
Variable manila : zone.
Variable canvas : CanvasAPI.t.

Import CanvasTUI.

Local Abbreviation note_task :=
  (CanvasTUI.note_task py_format isoparse manila canvas).
Local Abbreviation event_task := (CanvasTUI.event_task isoparse manila).
Local Abbreviation assignment_task :=
  (CanvasTUI.assignment_task py_format isoparse manila canvas).
Local Abbreviation aggregate :=
  (CanvasTUI.aggregate py_format isoparse manila canvas).

Lemma get_not_dict x k : ~ dict_like x -> get x k = Raise AttributeError.
Proof.
  intros H. destruct x; try reflexivity. exfalso. apply H. eexists; eauto.
Qed.


Lemma note_task_not_dict now_manila cutoff future x :
  ~ dict_like x ->
  note_task now_manila cutoff future x = Raise AttributeError.
Proof.
  intros H. unfold CanvasTUI.note_task.
  rewrite (get_not_dict _ _ H). reflexivity.
Qed.




(** X9: the planner-note loop reads [workflow_state] outside its
    [try]: an element of the notes payload that is not a JSON object,
    behind elements that are, makes the aggregation raise
    [AttributeError], and so does a notes payload that is a non-empty
    JSON object. *)
Theorem notes_payload_with_non_object_raises
  now_manila cutoff future n1 x n2 events assignments :
  Forall dict_like n1 ->
  ~ dict_like x ->
  aggregate now_manila cutoff future (VList (n1 ++ x :: n2)) events
    assignments = Raise AttributeError /\
  forall k v d,
    aggregate now_manila cutoff future (VDict ((k, v) :: d)) events
      assignments = Raise AttributeError.
Proof.
  intros Hn Hx. split.
  - unfold CanvasTUI.aggregate, CanvasTUI.gather. cbn [iter Py.bind].
    rewrite collect_app.
    destruct (collect_total (note_task now_manila cutoff future) n1)
      as (ts & ->).
    { eapply Forall_impl; [|exact Hn]. intros a (d & ->).
      apply note_task_total. }
    cbn [Py.bind collect]. rewrite (note_task_not_dict _ _ _ _ Hx).
    reflexivity.
  - intros k v d. unfold CanvasTUI.aggregate, CanvasTUI.gather.
    cbn [iter Py.bind map collect fst]. reflexivity.
Qed.

(** ** Labels and links *)

(** X10: label and link of a listed planner note.  The title is the
    [title] of the note.  The course label is ['Personal'] when the note
    has no [course_id] key, and otherwise the value of [course_id]
    itself, [None] for a null.  The link is [None] unless [course_id] is
    truthy, and then it is
    [{base}/courses/{course_id}/planner_items?filter=planner_note_{id}]
    of a note that has an [id]. *)
Theorem planner_note_label_and_link now_manila cutoff future note t :
  note_task now_manila cutoff future note = Ok (Some t) ->
  getitem note "title" = Ok (title t) /\
  (getitem note "course_id" = Raise (KeyError "course_id") ->
   course t = VStr "Personal" /\ task_url t = VNone) /\
  (forall cid,
     getitem note "course_id" = Ok cid ->
     course t = cid /\
     if truthy cid then
       exists id,
         getitem note "id" = Ok id /\
         task_url t = note_url py_format canvas cid id
     else task_url t = VNone).
Proof.
  unfold CanvasTUI.note_task, try_pass. intros H.
  destruct note as [| | | |l|d]; try discriminate H.
  unfold get, get_default, getitem, note_url in *.
  destruct (lookup "course_id" d) as [c|] eqn:Hc;
    crack H; bool_hyps; ok_hyps; try discriminate;
    cbn [course task_url title];
    (split; [reflexivity|]); (split; [intros X; try discriminate X|]);
    try (split; reflexivity);
    intros cid X; try discriminate X; injection X as <-;
    (split; [reflexivity|]);
    match goal with
    | E : truthy c = _ |- _ => rewrite E
    end; try reflexivity.
  all: eexists; split; reflexivity.
Qed.

(** The course loop writes the name of the course over whatever
    [course_name] the assignment came with. *)
Lemma lookup_update_same k v d : lookup k (update k v d) = Some v.
Proof.
  induction d as [|[k' v'] d IH]; cbn.
  - rewrite String.eqb_refl. reflexivity.
  - destruct (String.eqb k k') eqn:E; cbn; rewrite ?String.eqb_refl, ?E;
      [reflexivity | exact IH].
Qed.

Lemma get_getitem_same x k a b :
  get x k = Ok a -> getitem x k = Ok b -> a = b.
Proof.
  destruct x; try discriminate. unfold get, get_default, getitem.
  destruct (lookup k d); congruence.
Qed.

(** X11: label and link of a listed assignment that went through the
    course loop.  Its course label is the name that the loop wrote,
    whatever [course_name] the payload carried; its title is the [name]
    of the assignment; its link is
    [{base}/courses/{course_id}/assignments/{id}] when [course_id] and
    [id] are both truthy, and [None] otherwise. *)
Theorem assignment_label_and_link now_manila cutoff future assignment name
    labelled t :
  setitem assignment "course_name" name = Ok labelled ->
  assignment_task now_manila cutoff future labelled = Ok (Some t) ->
  course t = name /\
  getitem assignment "name" = Ok (title t) /\
  exists cid id,
    get assignment "course_id" = Ok cid /\
    get assignment "id" = Ok id /\
    task_url t =
      if truthy cid && truthy id
      then assignment_url py_format canvas cid id
      else VNone.
Proof.
  intros Hs H.
  destruct assignment as [| | | |l|d]; try discriminate Hs.
  cbn in Hs. injection Hs as <-.
  assert (G : forall k, k <> "course_name" ->
                get (VDict (update "course_name" name d)) k = get (VDict d) k).
  { intros k Hk. unfold get, get_default.
    rewrite lookup_update_other by exact Hk. reflexivity. }
  assert (GI : forall k, k <> "course_name" ->
                 getitem (VDict (update "course_name" name d)) k
                 = getitem (VDict d) k).
  { intros k Hk. unfold getitem.
    rewrite lookup_update_other by exact Hk. reflexivity. }
  assert (GC : get_default (VDict (update "course_name" name d))
                 "course_name" (VStr "Unknown") = Ok name).
  { unfold get_default. rewrite lookup_update_same. reflexivity. }
  unfold CanvasTUI.assignment_task, try_pass in H.
  rewrite GC in H. rewrite !G, !GI in H by discriminate.
  destruct (get_dict_ok d "id") as (i & Hi).
  unfold assignment_url.
  crack H; bool_hyps; ok_hyps; try discriminate;
    cbn [course task_url title];
    (do 2 (split; [first [reflexivity | assumption]|])); do 2 eexists;
    (split; [first [reflexivity | eassumption]|]);
    (split; [first [reflexivity | eassumption]|]);
    repeat match goal with
    | E : truthy _ = _ |- _ => rewrite E; clear E
    end; cbn [andb]; try reflexivity.
  repeat match goal with
  | A : get ?x ?k = Ok ?a, B : getitem ?x ?k = Ok ?b |- _ =>
      pose proof (get_getitem_same _ _ _ _ A B); subst; clear B
  end.
  reflexivity.
Qed.

(** ** How many tasks a refresh can list *)











End PayloadShapes.

(* ================================================================== *)
(** * Creating a task *)
(* ================================================================== *)

Section CreationFacts.

Variable srv : server.
Variable py_format : value -> string.
Variable isoparse : value -> result datetime.
Variable manila : zone.
Variable self : CanvasAPI.t.

Local Abbreviation create_task := (CanvasAPI.create_task srv py_format self).
Local Abbreviation planner_note_request :=
  (Statements.planner_note_request self).
Local Abbreviation calendar_event_request :=
  (Statements.calendar_event_request py_format self).
Local Abbreviation create_canvas_task :=
  (Creation.create_canvas_task srv py_format isoparse manila self).
Local Abbreviation refresh_tasks :=
  (CanvasTUI.refresh_tasks srv py_format isoparse manila self).

(** A result dictionary of a create method either reports success and
    names the method, or reports failure. *)
Lemma post_result_shape m o :
  (succeeded (post_result m o) = true /\
   exists d, post_result m o = CanvasAPI.success d m) \/
  (succeeded (post_result m o) = false /\
   exists err, post_result m o = CanvasAPI.failure err).
Proof.
  unfold post_result.
  destruct o as [resp|e]; [|right; split; [reflexivity | eauto]].
  destruct ((status_code resp =? 200) || (status_code resp =? 201));
    [|right; split; [reflexivity | eauto]].
  destruct (json resp); [left | right]; split; try reflexivity; eauto.
Qed.

Lemma add_cases d delta :
  (exists e, add d delta = Ok e /\ wall e = wall d + delta /\
             tzinfo e = tzinfo d /\ 0 <= wall e <= MAX_US) \/
  (add d delta = Raise OverflowError /\
   (wall d + delta < 0 \/ MAX_US < wall d + delta)).
Proof.
  unfold add, in_range.
  destruct (Z.leb_spec 0 (wall d + delta)), (Z.leb_spec (wall d + delta) MAX_US);
    cbn [andb]; [left | right ..]; try (split; [reflexivity | lia]).
  eexists; repeat split; cbn [wall tzinfo]; lia.
Qed.

(** [create_task] as one expression in the outcomes of its requests *)
Lemma create_task_spec title description due_date course_id log :
  valid due_date ->
  let note_req := planner_note_request title description due_date course_id in
  let first := post_result "planner_note" (srv log note_req) in
  create_task title description due_date course_id log =
  if succeeded first then (Ok first, (log ++ [note_req])%list)
  else
    match add due_date (timedelta 0 1 0) with
    | Ok end_date =>
        let event_req :=
          calendar_event_request title description due_date end_date
            course_id in
        let second :=
          post_result "calendar_event"
            (srv (log ++ [note_req])%list event_req) in
        (Ok (if succeeded second then second else CanvasAPI.all_failed),
         (log ++ [note_req; event_req])%list)
    | Raise x => (Raise x, (log ++ [note_req])%list)
    end.
Proof.
  intros Hd note_req first.
  unfold CanvasAPI.create_task.
  unfold bindM at 1. rewrite create_planner_note_spec.
  fold (planner_note_request title description due_date course_id).
  fold note_req first.
  unfold bindM at 1. unfold lift at 1.
  unfold first at 1. rewrite post_result_success. fold first.
  cbn [truthy]. destruct (succeeded first); [reflexivity|].
  destruct (add due_date (timedelta 0 1 0)) as [e|x] eqn:He.
  - unfold bindM at 1.
    rewrite (create_calendar_event_spec _ _ _ _ _ _ _ _ _ Hd He).
    unfold bindM at 1. unfold lift at 1.
    rewrite post_result_success.
    cbn [truthy]. rewrite <- app_assoc. cbn [app].
    match goal with
    | |- context [succeeded ?r] => destruct (succeeded r); reflexivity
    end.
  - unfold bindM at 1.
    rewrite (create_calendar_event_overflow _ _ _ _ _ _ _ _ _ Hd He).
    reflexivity.
Qed.

Lemma one_hour_overflow d :
  valid d ->
  (exists e, add d (timedelta 0 1 0) = Ok e /\
             wall e = wall d + 3600 * US_PER_SECOND /\
             tzinfo e = tzinfo d /\ valid e) \/
  (add d (timedelta 0 1 0) = Raise OverflowError /\
   MAX_US < wall d + 3600 * US_PER_SECOND).
Proof.
  intros Hd.
  destruct (add_cases d (timedelta 0 1 0))
    as [(e & He & Hw & Hz & Hr) | (He & [Hlo|Hhi])].
  - left. exists e. split; [exact He|]. split; [|split; [exact Hz|]].
    + rewrite Hw. unfold timedelta, US_PER_HOUR, US_PER_MINUTE. lia.
    + split; [exact Hr | rewrite Hz; apply Hd].
  - exfalso. destruct Hd as [Hw _].
    unfold timedelta, US_PER_DAY, US_PER_HOUR, US_PER_MINUTE, US_PER_SECOND
      in Hlo. lia.
  - right. split; [exact He|].
    unfold timedelta, US_PER_HOUR, US_PER_MINUTE in Hhi. lia.
Qed.

(** X13: how [create_task] ends, for a due date that Python can hold.
    A returned dictionary is either a success dictionary whose [method]
    is ['planner_note'] or ['calendar_event'], or the fixed dictionary
    of the last line, whose error text is ['All methods failed']; the
    error dictionaries of the two create methods never reach the
    caller.  The only exception is [OverflowError], for a due date in
    the last hour of year 9999 after a planner-note POST that failed,
    with that one request sent. *)
Theorem create_task_ends_in_one_of_four_ways
    title description due_date course_id log :
  valid due_date ->
  let note_req := planner_note_request title description due_date course_id in
  match create_task title description due_date course_id log with
  | (Ok result, log') =>
      (exists d m,
         result = CanvasAPI.success d m /\
         (m = "planner_note" \/ m = "calendar_event")) \/
      result = CanvasAPI.all_failed
  | (Raise x, log') =>
      x = OverflowError /\
      MAX_US < wall due_date + 3600 * US_PER_SECOND /\
      succeeded (post_result "planner_note" (srv log note_req)) = false /\
      log' = (log ++ [note_req])%list
  end.
Proof.
  intros Hd note_req.
  rewrite (create_task_spec _ _ _ _ _ Hd). fold note_req.
  destruct (post_result_shape "planner_note" (srv log note_req))
    as [(-> & d & ->) | (-> & _)].
  { left. exists d, "planner_note". split; [reflexivity | left; reflexivity]. }
  destruct (one_hour_overflow due_date Hd)
    as [(e & -> & _) | (-> & Hhi)]; [|repeat split; assumption].
  cbv zeta.
  match goal with
  | |- context [succeeded (post_result ?m ?o)] =>
      destruct (post_result_shape m o) as [(-> & d & ->) | (-> & _)]
  end.
  - left. exists d, "calendar_event".
    split; [reflexivity | right; reflexivity].
  - right. reflexivity.
Qed.

(** X14: the notifications of [create_canvas_task], for a due date
    that Python can hold.  After ['Creating task in Canvas...'] it shows
    either ['Task created as Planner Note!'] or
    ['Task created as Calendar Event!'] and runs a refresh, or it shows
    the error ['Failed to create task: '] followed by
    ['All methods failed'] and runs no refresh, or it ends with
    [OverflowError] having shown nothing more.  The lookup of
    [result['method']] never fails. *)
Theorem create_canvas_task_notifications data clk log :
  valid (Creation.due_date data) ->
  exists shown how log',
    create_canvas_task data clk log = (Creation.mk_run shown how, log') /\
    ((exists method log1,
        (method = "Planner Note" \/ method = "Calendar Event") /\
        shown = [Creation.creating;
                 Startup.mk_notification
                   ("Task created as " ++ method ++ "!") "information"] /\
        match refresh_tasks clk log1 with
        | (Ok tasks, log2) => how = Ok (Some tasks) /\ log' = log2
        | (Raise e, log2) => how = Raise e /\ log' = log2
        end) \/
     (shown = [Creation.creating;
               Startup.mk_notification
                 ("Failed to create task: "
                  ++ py_format (VStr "All methods failed")) "error"] /\
      how = Ok None) \/
     (shown = [Creation.creating] /\ how = Raise OverflowError)).
Proof.
  intros Hd. unfold Creation.create_canvas_task.
  rewrite (create_task_spec _ _ _ _ _ Hd).
  match goal with
  | |- context [succeeded (post_result ?m ?o)] =>
      destruct (post_result_shape m o) as [(-> & d & ->) | (-> & _)]
  end.
  { cbn [getitem CanvasAPI.success lookup String.eqb Ascii.eqb Bool.eqb truthy].
    match goal with
    | |- context [refresh_tasks clk ?l] =>
        destruct (refresh_tasks clk l) as [[ts|x] log2] eqn:Hr
    end; do 3 eexists; (split; [reflexivity|]); left;
      exists "Planner Note"; eexists; (split; [left; reflexivity|]);
      (split; [reflexivity|]); rewrite Hr; split; reflexivity. }
  destruct (one_hour_overflow (Creation.due_date data) Hd)
    as [(e & -> & _) | (-> & Hhi)].
  - cbv zeta.
    match goal with
    | |- context [succeeded (post_result ?m ?o)] =>
        destruct (post_result_shape m o) as [(-> & d & ->) | (-> & _)]
    end.
    + cbn [getitem CanvasAPI.success lookup String.eqb Ascii.eqb Bool.eqb
             truthy].
      match goal with
      | |- context [refresh_tasks clk ?l] =>
          destruct (refresh_tasks clk l) as [[ts|x] log2] eqn:Hr
      end; do 3 eexists; (split; [reflexivity|]); left;
        exists "Calendar Event"; eexists; (split; [right; reflexivity|]);
        (split; [reflexivity|]); rewrite Hr; split; reflexivity.
    + cbn. do 3 eexists. split; [reflexivity|]. right; left.
      split; reflexivity.
  - do 3 eexists. split; [reflexivity|]. right; right. split; reflexivity.
Qed.

(** X15: the text that [create_task] passes as [start_at] is read back
    by [create_calendar_event] as the due date it was made from, and the
    [end_at] text is the [isoformat] of a value exactly one hour later
    in the same zone; when that hour lies beyond [datetime.max] the
    computation raises [OverflowError]. *)
Theorem calendar_event_end_text d :
  valid d ->
  fromisoformat (replace_Z (isoformat d)) = Ok d /\
  ((exists e,
      CanvasAPI.end_at_of (isoformat d) = Ok (isoformat e) /\
      wall e = wall d + 3600 * US_PER_SECOND /\
      tzinfo e = tzinfo d /\ valid e) \/
   (CanvasAPI.end_at_of (isoformat d) = Raise OverflowError /\
    MAX_US < wall d + 3600 * US_PER_SECOND)).
Proof.
  intros Hd. split.
  - rewrite replace_Z_isoformat. apply (fromisoformat_isoformat d Hd).
  - rewrite (end_at_of_isoformat d Hd).
    destruct (one_hour_overflow d Hd)
      as [(e & -> & Hw & Hz & Hv) | (-> & Hhi)].
    + left. exists e. cbn [Py.bind]. repeat split; try assumption; apply Hv.
    + right. split; [reflexivity | exact Hhi].
Qed.

End CreationFacts.

(* ================================================================== *)
(** * The status column *)
(* ================================================================== *)

Section StatusColumn.

Variable py_format : value -> string.
Variable isoparse : value -> result datetime.
Variable manila : zone.
Variable canvas : CanvasAPI.t.

Import CanvasTUI.

Local Abbreviation aggregate :=
  (CanvasTUI.aggregate py_format isoparse manila canvas).

Lemma listed_not_before_now
    now_manila cutoff future notes events assignments ts t :
  aggregate now_manila cutoff future notes events assignments = Ok ts ->
  In t ts -> le now_manila (due_date t) = true.
Proof.
  intros H Hin.
  destruct (aggregate_source _ _ _ _ _ _ _ _ _ _ _ _ H Hin)
    as [(x & Hx) | [(x & Hx) | (x & _ & Hx)]].
  - destruct (note_task_some _ _ _ _ _ _ _ _ _ Hx)
      as (? & ? & ? & ? & _ & _ & _ & _ & _ & _ & Hle & _). exact Hle.
  - destruct (event_task_some _ _ _ _ _ _ _ Hx)
      as (? & ? & ? & _ & _ & _ & _ & Hle & _). exact Hle.
  - destruct (assignment_task_some _ _ _ _ _ _ _ _ _ Hx)
      as (? & ? & ? & _ & _ & _ & _ & _ & Hle & _). exact Hle.
Qed.

(** X16: the status column of a listed task.  ["Today"] stands for a
    due date on the calendar day of the current Manila time, at or
    after the current time; ["Upcoming"] stands for a due date on a
    later day.  No listed task is due on an earlier day. *)
Theorem status_of_listed_task
    now_manila cutoff future notes events assignments ts t :
  aggregate now_manila cutoff future notes events assignments = Ok ts ->
  In t ts ->
  (Startup.status now_manila t = "Today" /\
   Startup.date (due_date t) = Startup.date now_manila /\
   0 <= wall (due_date t) - wall now_manila < US_PER_DAY) \/
  (Startup.status now_manila t = "Upcoming" /\
   Startup.date now_manila < Startup.date (due_date t)).
Proof.
  intros H Hin.
  pose proof (listed_not_before_now _ _ _ _ _ _ _ _ H Hin) as Hle.
  unfold le in Hle. apply Z.leb_le in Hle.
  unfold Startup.status, Startup.date in *.
  assert (Hday : 0 < US_PER_DAY) by reflexivity.
  destruct (Z.eqb_spec (wall (due_date t) / US_PER_DAY)
              (wall now_manila / US_PER_DAY)) as [E|E]; [left | right].
  - repeat split; try assumption; try lia.
    revert E. generalize US_PER_DAY Hday. intros D HD E.
    Z.to_euclidean_division_equations. nia.
  - split; [reflexivity|].
    assert (wall now_manila / US_PER_DAY <= wall (due_date t) / US_PER_DAY)
      by (apply Z.div_le_mono; lia).
    lia.
Qed.

End StatusColumn.

Section EventLabels.

Variable isoparse : value -> result datetime.
Variable manila : zone.

Import CanvasTUI.

Local Abbreviation event_task := (CanvasTUI.event_task isoparse manila).

(** X19: label and link of a listed calendar event.  The link is the
    [html_url] of the event, [None] when it has none.  The title is
    ['Untitled Event'] only when the event has no [title] key.  The
    course label is [context_name] when that is truthy, and otherwise
    [context_code], with ['Calendar'] only for an event that has no
    [context_code] key. *)
Theorem calendar_event_label_and_link now_manila cutoff future event t :
  event_task now_manila cutoff future event = Ok (Some t) ->
  get event "html_url" = Ok (task_url t) /\
  get_default event "title" (VStr "Untitled Event") = Ok (title t) /\
  exists name,
    get event "context_name" = Ok name /\
    if truthy name then course t = name
    else get_default event "context_code" (VStr "Calendar") = Ok (course t).
Proof.
  unfold CanvasTUI.event_task, try_pass. intros H.
  crack H; bool_hyps; ok_hyps; try discriminate;
    cbn [task_url title course];
    (split; [first [reflexivity | assumption]|]);
    (split; [first [reflexivity | assumption]|]);
    eexists; (split; [first [reflexivity | eassumption]|]);
    match goal with
    | E : truthy ?n = _ |- context [truthy ?n] => rewrite E
    end; first [reflexivity | assumption].
Qed.

End EventLabels.

(* ================================================================== *)
(** * The table *)
(* ================================================================== *)

Section TableFacts.

Variable py_format : value -> string.
Variable isoparse : value -> result datetime.
Variable manila : zone.
Variable canvas : CanvasAPI.t.
Variable dict_slice : exn.

Import CanvasTUI.

Local Abbreviation aggregate :=
  (CanvasTUI.aggregate py_format isoparse manila canvas).
Local Abbreviation add_row := (Table.add_row py_format dict_slice).
Local Abbreviation add_rows := (Table.add_rows py_format dict_slice).
Local Abbreviation fill_table := (Table.fill_table py_format dict_slice).

Lemma add_rows_nth now_manila tasks : forall idx rows,
  add_rows now_manila idx tasks = Ok rows ->
  List.length rows = List.length tasks /\
  forall i t,
    nth_error tasks i = Some t ->
    exists r,
      nth_error rows i = Some r /\
      add_row now_manila (idx + Z.of_nat i) t = Ok r.
Proof.
  induction tasks as [|t0 ts IH]; intros idx rows H; cbn [Table.add_rows] in H.
  - injection H as <-. split; [reflexivity|].
    intros [|i] t Hi; discriminate Hi.
  - destruct (add_row now_manila idx t0) as [r0|] eqn:E0; [|discriminate H].
    cbn [Py.bind] in H.
    destruct (add_rows now_manila (idx + 1) ts) as [rs|] eqn:Es;
      [|discriminate H].
    cbn [Py.bind] in H. injection H as <-.
    destruct (IH _ _ Es) as (Hlen & Hnth).
    split; [cbn; rewrite Hlen; reflexivity|].
    intros [|i] t Hi; cbn in Hi.
    + injection Hi as <-. exists r0. rewrite Z.add_0_r. split; [reflexivity|].
      exact E0.
    + destruct (Hnth i t Hi) as (r & Hr & Hrow).
      exists r. split; [exact Hr|].
      replace (idx + Z.of_nat (S i)) with (idx + 1 + Z.of_nat i) by lia.
      exact Hrow.
Qed.

Lemma add_rows_total now_manila tasks : forall idx,
  Forall (fun t => is_text (title t)) tasks ->
  exists rows, add_rows now_manila idx tasks = Ok rows.
Proof.
  induction tasks as [|t0 ts IH]; intros idx H; cbn [Table.add_rows].
  - eexists; reflexivity.
  - inversion H as [|? ? (s & Hs) Hrest]; subst.
    unfold Table.add_row. rewrite Hs. cbn [Table.slice_to Py.bind].
    destruct (IH (idx + 1) Hrest) as (rs & ->). cbn [Py.bind].
    eexists; reflexivity.
Qed.

Lemma add_rows_raises now_manila tasks : forall idx t,
  In t tasks ->
  raises (Table.slice_to dict_slice 50 (title t)) = true ->
  raises (add_rows now_manila idx tasks) = true.
Proof.
  induction tasks as [|t0 ts IH]; intros idx t Hin Hr; [contradiction|].
  cbn [Table.add_rows]. destruct Hin as [->|Hin].
  - unfold Table.add_row.
    destruct (Table.slice_to dict_slice 50 (title t)); [discriminate Hr|].
    reflexivity.
  - destruct (add_row now_manila idx t0); [|reflexivity]. cbn [Py.bind].
    specialize (IH (idx + 1) t Hin Hr).
    destruct (add_rows now_manila (idx + 1) ts); [discriminate IH|].
    reflexivity.
Qed.

(** X17: the rows of the table.  When every title is a text the loop
    adds one row per task and raises nothing.  Whenever it returns, the
    table has as many rows as the list has tasks, and the row at
    position [i] was added under the key [i] for the task at position
    [i] of the list: its due date, status, course cut to 20 characters,
    title cut to 50, and type. *)
Theorem rows_are_keyed_by_position now_manila tasks :
  (Forall (fun t => is_text (title t)) tasks ->
   exists rows, fill_table now_manila tasks = Ok rows) /\
  forall rows,
    fill_table now_manila tasks = Ok rows ->
    List.length rows = List.length tasks /\
    forall i t,
      nth_error tasks i = Some t ->
      exists r title_str,
        nth_error rows i = Some r /\
        Table.key r = Z.of_nat i /\
        Table.slice_to dict_slice 50 (title t) = Ok title_str /\
        Table.cells r =
          [VStr (Table.strftime (due_date t));
           VStr (Startup.status now_manila t);
           VStr (Table.take_chars 20 (py_format (course t)));
           title_str; VStr (type t)].
Proof.
  split; [apply add_rows_total|].
  intros rows H. destruct (add_rows_nth _ _ _ _ H) as (Hlen & Hnth).
  split; [exact Hlen|].
  intros i t Hi. destruct (Hnth i t Hi) as (r & Hr & Hrow).
  unfold Table.add_row in Hrow.
  destruct (Table.slice_to dict_slice 50 (title t)) as [c|]; [|discriminate].
  cbn [Py.bind] in Hrow. injection Hrow as <-.
  exists (Table.mk_row (0 + Z.of_nat i)
            [VStr (Table.strftime (due_date t));
             VStr (Startup.status now_manila t);
             VStr (Table.take_chars 20 (py_format (course t)));
             c; VStr (type t)]), c.
  split; [exact Hr|]. repeat split.
Qed.

(** The title of a task, in its source item *)
Lemma task_title now_manila cutoff future notes events assignments ts t :
  aggregate now_manila cutoff future notes events assignments = Ok ts ->
  In t ts ->
  forall v, getitem (raw t) (title_field t) = Ok v -> title t = v.
Proof.
  intros H Hin v Hv.
  destruct (aggregate_source _ _ _ _ _ _ _ _ _ _ _ _ H Hin)
    as [(x & Hx) | [(x & Hx) | (x & _ & Hx)]].
  - destruct (note_task_some _ _ _ _ _ _ _ _ _ Hx)
      as (? & ? & ? & ? & _ & _ & _ & _ & _ & _ & _ & _ & Ht & Hr).
    unfold title_field in Hv. rewrite Ht, Hr in Hv. cbn in Hv.
    clear -Hx Hv.
    unfold CanvasTUI.note_task, try_pass in Hx.
    crack Hx; bool_hyps; ok_hyps; try discriminate; cbn [title]; congruence.
  - destruct (event_task_some _ _ _ _ _ _ _ Hx)
      as (? & ? & ? & _ & _ & _ & _ & _ & _ & Ht & Hr).
    unfold title_field in Hv. rewrite Ht, Hr in Hv. cbn in Hv.
    clear -Hx Hv.
    unfold CanvasTUI.event_task, try_pass in Hx.
    crack Hx; bool_hyps; ok_hyps; try discriminate;
      cbn [title];
      match goal with
      | E : get_default ?e "title" _ = Ok _ |- _ =>
          destruct e; try discriminate E;
          unfold get_default, getitem in *;
          destruct (lookup "title" _); congruence
      end.
  - destruct (assignment_task_some _ _ _ _ _ _ _ _ _ Hx)
      as (? & ? & ? & _ & _ & _ & _ & _ & _ & _ & Ht & Hr).
    unfold title_field in Hv. rewrite Ht, Hr in Hv. cbn in Hv.
    clear -Hx Hv.
    unfold CanvasTUI.assignment_task, try_pass in Hx.
    crack Hx; bool_hyps; ok_hyps; try discriminate; cbn [title]; congruence.
Qed.

(** X18: a listed task whose title is null in its source item (the
    [title] of a planner note or calendar event, the [name] of an
    assignment) has the title [None], and the loop that fills the table
    raises on it: nothing catches the failure of [task["title"][:50]]. *)
Theorem null_title_stops_the_table
    now_manila cutoff future notes events assignments ts t :
  aggregate now_manila cutoff future notes events assignments = Ok ts ->
  In t ts ->
  getitem (raw t) (title_field t) = Ok VNone ->
  title t = VNone /\
  raises (fill_table now_manila ts) = true.
Proof.
  intros H Hin Hv.
  pose proof (task_title _ _ _ _ _ _ _ _ H Hin _ Hv) as Ht.
  split; [exact Ht|].
  apply (add_rows_raises now_manila ts 0 t Hin).
  rewrite Ht. reflexivity.
Qed.

End TableFacts.

(* ================================================================== *)
(** * Scenarios *)
(* ================================================================== *)

Section Scenarios.

Import CanvasTUI Startup.

Local Abbreviation on_mount srv :=
  (Startup.on_mount srv Sample.py_format isoparse_sample Sample.manila).
Local Abbreviation refresh_tasks srv :=
  (CanvasTUI.refresh_tasks srv Sample.py_format isoparse_sample Sample.manila
     Sample.canvas Sample.manila_clock).
Local Abbreviation note_task :=
  (CanvasTUI.note_task Sample.py_format isoparse_sample Sample.manila
     Sample.canvas Sample.now_manila Sample.cutoff Sample.future).
Local Abbreviation assignment_task :=
  (CanvasTUI.assignment_task Sample.py_format isoparse_sample Sample.manila
     Sample.canvas Sample.now_manila Sample.cutoff Sample.future).
Local Abbreviation create_task srv :=
  (CanvasAPI.create_task srv Sample.py_format Sample.canvas).
Local Abbreviation create_canvas_task srv :=
  (Creation.create_canvas_task srv Sample.py_format isoparse_sample
     Sample.manila Sample.canvas).
Local Abbreviation courses_request := (Statements.courses_request Sample.canvas).
Local Abbreviation planner_notes_request :=
  (Statements.planner_notes_request Sample.canvas).
Local Abbreviation calendar_events_request :=
  (Statements.calendar_events_request Sample.canvas).
Local Abbreviation assignments_request :=
  (Statements.assignments_request Sample.py_format Sample.canvas).

(** ** Start-up *)

(** The configured URL ends in two slashes; the client is built on the
    URL without them. *)
Example init_on_scenario_config :
  init Sample.py_format (VStr "https://canvas.example.edu//") (VStr "token")
  = Ok Sample.canvas.
Proof. reflexivity. Qed.

Lemma validate_token_outcome_witness :
  exists ok user_id',
    validate_token Scenario.quiet Sample.canvas VNone [] =
      (Ok (ok, user_id'), ([] ++ [users_self_request Sample.canvas])%list)
    /\ (ok = true <->
        exists resp d,
          Scenario.quiet [] (users_self_request Sample.canvas) = Ok resp /\
          status_code resp = 200 /\ json resp = Ok (VDict d) /\
          get (VDict d) "id" = Ok user_id')
    /\ (ok = false -> user_id' = VNone).
Proof.
  exact (validate_token_outcome Scenario.quiet Sample.canvas VNone []).
Defined.

Lemma on_mount_unconfigured_witness :
  is_configured Scenario.config_without_token = Ok false
  /\ exists n,
       on_mount Sample.unreachable Scenario.config_without_token
         Sample.manila_clock [] = (Ok (NotConfigured n), [])
       /\ severity n = "error".
Proof.
  assert (H : is_configured Scenario.config_without_token = Ok false)
    by reflexivity.
  exact (conj H (on_mount_unconfigured Sample.unreachable Sample.py_format
                   isoparse_sample Sample.manila _ Sample.manila_clock [] H)).
Defined.


(** ** Refresh *)

Lemma refresh_tasks_requests_witness :
  refresh_tasks Scenario.notes_down []
  = (Ok Scenario.notes_down_tasks,
     [courses_request; planner_notes_request;
      calendar_events_request Sample.cutoff Sample.future;
      assignments_request (VInt 5)])
  /\ exists cutoff future courses ids,
       sub (mk_datetime
              (first_read Sample.manila_clock
               + system_zone Sample.manila_clock
                   (first_read Sample.manila_clock)) None)
         (timedelta 30 0 0) = Ok cutoff /\
       add (mk_datetime
              (first_read Sample.manila_clock
               + system_zone Sample.manila_clock
                   (first_read Sample.manila_clock)) None)
         (timedelta 30 0 0) = Ok future /\
       iter (fetched (Scenario.notes_down [] courses_request)) = Ok courses /\
       course_ids courses = Ok ids /\
       List.length ids = List.length courses /\
       [courses_request; planner_notes_request;
        calendar_events_request Sample.cutoff Sample.future;
        assignments_request (VInt 5)]
       = ([] ++ [courses_request; planner_notes_request;
                 calendar_events_request cutoff future]
          ++ map assignments_request ids)%list.
Proof.
  assert (H : refresh_tasks Scenario.notes_down []
              = (Ok Scenario.notes_down_tasks,
                 [courses_request; planner_notes_request;
                  calendar_events_request Sample.cutoff Sample.future;
                  assignments_request (VInt 5)]))
    by (vm_compute; reflexivity).
  exact (conj H (refresh_tasks_requests Scenario.notes_down Sample.py_format
                   isoparse_sample Sample.manila Sample.canvas
                   Sample.manila_clock [] _ _ H)).
Defined.

(** With the planner notes down, the two events and the assignment of
    the course are listed. *)
Example notes_down_listing :
  map (fun t => (type t, course t)) Scenario.notes_down_tasks =
  [("Calendar Event", VStr "Calendar"); ("Calendar Event", VStr "Calendar");
   ("Assignment", VStr "Biology")].
Proof. reflexivity. Qed.


Lemma courses_failure_sends_no_assignment_request_witness :
  refresh_tasks Sample.unreachable []
  = (Ok [], [courses_request; planner_notes_request;
             calendar_events_request Sample.cutoff Sample.future])
  /\ fetch_failed (Sample.unreachable [] courses_request)
  /\ (exists cutoff future,
        [courses_request; planner_notes_request;
         calendar_events_request Sample.cutoff Sample.future]
        = ([] ++ [courses_request; planner_notes_request;
                  calendar_events_request cutoff future])%list)
  /\ forall t, In t [] -> type t <> "Assignment".
Proof.
  assert (H : refresh_tasks Sample.unreachable []
              = (Ok [], [courses_request; planner_notes_request;
                         calendar_events_request Sample.cutoff Sample.future]))
    by (vm_compute; reflexivity).
  assert (Hf : fetch_failed (Sample.unreachable [] courses_request))
    by exact I.
  exact (conj H (conj Hf
           (courses_failure_sends_no_assignment_request Sample.unreachable
              Sample.py_format isoparse_sample Sample.manila Sample.canvas
              Sample.manila_clock [] _ _ H Hf))).
Defined.

(** ** Payloads *)


Lemma notes_payload_with_non_object_raises_witness :
  Forall dict_like [Sample.stateless_note]
  /\ ~ dict_like (VStr "maintenance")
  /\ Sample.aggregate
       (VList ([Sample.stateless_note] ++ VStr "maintenance" :: []))
       Sample.three_shapes_events Sample.three_shapes_assignments
     = Raise AttributeError.
Proof.
  assert (H1 : Forall dict_like [Sample.stateless_note])
    by (repeat constructor; eexists; reflexivity).
  assert (H2 : ~ dict_like (VStr "maintenance"))
    by (intros (d & Hd); discriminate Hd).
  exact (conj H1 (conj H2
           (proj1 (notes_payload_with_non_object_raises Sample.py_format
                     isoparse_sample Sample.manila Sample.canvas
                     Sample.now_manila Sample.cutoff Sample.future
                     _ _ [] Sample.three_shapes_events
                     Sample.three_shapes_assignments H1 H2)))).
Defined.

Lemma planner_note_label_and_link_witness :
  note_task Scenario.course_note = Ok (Some Scenario.course_note_task)
  /\ getitem Scenario.course_note "course_id" = Ok (VInt 5)
  /\ course Scenario.course_note_task = VInt 5
  /\ (if truthy (VInt 5) then
        exists id,
          getitem Scenario.course_note "id" = Ok id /\
          task_url Scenario.course_note_task
          = note_url Sample.py_format Sample.canvas (VInt 5) id
      else task_url Scenario.course_note_task = VNone).
Proof.
  assert (H1 : note_task Scenario.course_note
               = Ok (Some Scenario.course_note_task))
    by (vm_compute; reflexivity).
  assert (H2 : getitem Scenario.course_note "course_id" = Ok (VInt 5))
    by reflexivity.
  destruct (planner_note_label_and_link Sample.py_format isoparse_sample
              Sample.manila Sample.canvas Sample.now_manila Sample.cutoff
              Sample.future _ _ H1) as (_ & _ & W).
  exact (conj H1 (conj H2 (W _ H2))).
Defined.

(** A note whose [course_id] is null is labelled [None], not
    ['Personal'], and has no link. *)
Example personal_note_label :
  exists t,
    note_task Scenario.personal_note = Ok (Some t)
    /\ course t = VNone /\ task_url t = VNone.
Proof. eexists. split; [vm_compute; reflexivity|]. split; reflexivity. Qed.

Lemma assignment_label_and_link_witness :
  setitem Scenario.named_assignment "course_name" (VStr "Biology")
  = Ok Scenario.labelled_assignment
  /\ assignment_task Scenario.labelled_assignment
     = Ok (Some Scenario.labelled_assignment_task)
  /\ course Scenario.labelled_assignment_task = VStr "Biology"
  /\ getitem Scenario.named_assignment "name"
     = Ok (title Scenario.labelled_assignment_task)
  /\ exists cid id,
       get Scenario.named_assignment "course_id" = Ok cid /\
       get Scenario.named_assignment "id" = Ok id /\
       task_url Scenario.labelled_assignment_task =
         if truthy cid && truthy id
         then assignment_url Sample.py_format Sample.canvas cid id
         else VNone.
Proof.
  assert (H1 : setitem Scenario.named_assignment "course_name" (VStr "Biology")
               = Ok Scenario.labelled_assignment) by reflexivity.
  assert (H2 : assignment_task Scenario.labelled_assignment
               = Ok (Some Scenario.labelled_assignment_task))
    by (vm_compute; reflexivity).
  exact (conj H1 (conj H2
           (assignment_label_and_link Sample.py_format isoparse_sample
              Sample.manila Sample.canvas Sample.now_manila Sample.cutoff
              Sample.future _ _ _ _ H1 H2))).
Defined.


(** ** Creating a task *)

Lemma create_task_ends_in_one_of_four_ways_witness :
  valid Sample.now_manila
  /\ match create_task Sample.rejecting "Pay fees" "Cashier, window 3"
             Sample.now_manila VNone [] with
     | (Ok result, log') =>
         (exists d m,
            result = CanvasAPI.success d m /\
            (m = "planner_note" \/ m = "calendar_event")) \/
         result = CanvasAPI.all_failed
     | (Raise x, log') =>
         x = OverflowError /\
         MAX_US < wall Sample.now_manila + 3600 * US_PER_SECOND /\
         succeeded
           (post_result "planner_note"
              (Sample.rejecting []
                 (planner_note_request Sample.canvas "Pay fees"
                    "Cashier, window 3" Sample.now_manila VNone))) = false /\
         log' = ([] ++ [planner_note_request Sample.canvas "Pay fees"
                          "Cashier, window 3" Sample.now_manila VNone])%list
     end.
Proof.
  assert (Hv : valid Sample.now_manila).
  { unfold valid. cbn. split; [|exact I]. vm_compute. split; discriminate. }
  exact (conj Hv
           (create_task_ends_in_one_of_four_ways Sample.rejecting
              Sample.py_format Sample.canvas "Pay fees" "Cashier, window 3"
              Sample.now_manila VNone [] Hv)).
Defined.

Lemma create_canvas_task_notifications_witness :
  valid (Creation.due_date Scenario.form)
  /\ create_canvas_task Sample.rejecting Scenario.form Sample.manila_clock []
     = (Creation.mk_run
          [Creation.creating;
           mk_notification "Failed to create task: All methods failed"
             "error"]
          (Ok None),
        [planner_note_request Sample.canvas "Pay fees" "Cashier, window 3"
           Sample.now_manila VNone;
         calendar_event_request Sample.py_format Sample.canvas "Pay fees"
           "Cashier, window 3" Sample.now_manila
           (mk_datetime (wall Sample.now_manila + US_PER_HOUR) None) VNone])
  /\ exists shown how log',
       create_canvas_task Sample.planner_notes_forbidden Scenario.form
         Sample.manila_clock [] = (Creation.mk_run shown how, log') /\
       ((exists method log1,
           (method = "Planner Note" \/ method = "Calendar Event") /\
           shown = [Creation.creating;
                    mk_notification
                      ("Task created as " ++ method ++ "!") "information"] /\
           match refresh_tasks Sample.planner_notes_forbidden log1 with
           | (Ok tasks, log2) => how = Ok (Some tasks) /\ log' = log2
           | (Raise e, log2) => how = Raise e /\ log' = log2
           end) \/
        (shown = [Creation.creating;
                  mk_notification
                    ("Failed to create task: "
                     ++ Sample.py_format (VStr "All methods failed"))
                    "error"] /\
         how = Ok None) \/
        (shown = [Creation.creating] /\ how = Raise OverflowError)).
Proof.
  assert (Hv : valid (Creation.due_date Scenario.form)).
  { unfold valid. cbn. split; [|exact I]. vm_compute. split; discriminate. }
  split; [exact Hv|]. split; [vm_compute; reflexivity|].
  exact (create_canvas_task_notifications Sample.planner_notes_forbidden
           Sample.py_format isoparse_sample Sample.manila Sample.canvas
           Scenario.form Sample.manila_clock [] Hv).
Defined.

Lemma calendar_event_end_text_witness :
  valid Sample.last_half_hour
  /\ fromisoformat (replace_Z (isoformat Sample.last_half_hour))
     = Ok Sample.last_half_hour
  /\ ((exists e,
         CanvasAPI.end_at_of (isoformat Sample.last_half_hour)
         = Ok (isoformat e) /\
         wall e = wall Sample.last_half_hour + 3600 * US_PER_SECOND /\
         tzinfo e = tzinfo Sample.last_half_hour /\ valid e) \/
      (CanvasAPI.end_at_of (isoformat Sample.last_half_hour)
       = Raise OverflowError /\
       MAX_US < wall Sample.last_half_hour + 3600 * US_PER_SECOND)).
Proof.
  assert (Hv : valid Sample.last_half_hour).
  { unfold valid. cbn. split; [|exact I]. vm_compute. split; discriminate. }
  exact (conj Hv (calendar_event_end_text Sample.last_half_hour Hv)).
Defined.

(** ** The status column *)

Lemma status_of_listed_task_witness :
  Sample.aggregate Sample.three_shapes_notes Sample.three_shapes_events
    Sample.three_shapes_assignments = Ok Sample.three_shapes_tasks
  /\ forall t, In t Sample.three_shapes_tasks ->
       (status Sample.now_manila t = "Today" /\
        date (due_date t) = date Sample.now_manila /\
        0 <= wall (due_date t) - wall Sample.now_manila < US_PER_DAY) \/
       (status Sample.now_manila t = "Upcoming" /\
        date Sample.now_manila < date (due_date t)).
Proof.
  assert (H : Sample.aggregate Sample.three_shapes_notes
                Sample.three_shapes_events Sample.three_shapes_assignments
              = Ok Sample.three_shapes_tasks) by (vm_compute; reflexivity).
  exact (conj H (fun t =>
           status_of_listed_task Sample.py_format isoparse_sample
             Sample.manila Sample.canvas _ _ _ _ _ _ _ t H)).
Defined.

(** The note due half an hour after noon is due today; the rest of the
    list is upcoming. *)
Example three_shapes_status :
  map (status Sample.now_manila) Sample.three_shapes_tasks =
  ["Today"; "Upcoming"; "Upcoming"; "Upcoming"].
Proof. vm_compute. reflexivity. Qed.

Lemma calendar_event_label_and_link_witness :
  CanvasTUI.event_task isoparse_sample Sample.manila Sample.now_manila
    Sample.cutoff Sample.future Scenario.course_event
  = Ok (Some Scenario.course_event_task)
  /\ get Scenario.course_event "html_url"
     = Ok (task_url Scenario.course_event_task)
  /\ get_default Scenario.course_event "title" (VStr "Untitled Event")
     = Ok (title Scenario.course_event_task)
  /\ exists name,
       get Scenario.course_event "context_name" = Ok name /\
       if truthy name then course Scenario.course_event_task = name
       else get_default Scenario.course_event "context_code"
              (VStr "Calendar") = Ok (course Scenario.course_event_task).
Proof.
  assert (H : CanvasTUI.event_task isoparse_sample Sample.manila
                Sample.now_manila Sample.cutoff Sample.future
                Scenario.course_event
              = Ok (Some Scenario.course_event_task))
    by (vm_compute; reflexivity).
  exact (conj H (calendar_event_label_and_link isoparse_sample Sample.manila
                   _ _ _ _ _ H)).
Defined.

(** ** The table *)

Lemma rows_are_keyed_by_position_witness :
  Forall (fun t => is_text (title t)) Sample.three_shapes_tasks
  /\ exists rows,
       Table.fill_table Sample.py_format TypeError Sample.now_manila
         Sample.three_shapes_tasks = Ok rows.
Proof.
  assert (H : Forall (fun t => is_text (title t)) Sample.three_shapes_tasks)
    by (repeat constructor; eexists; reflexivity).
  exact (conj H
           (proj1 (rows_are_keyed_by_position Sample.py_format TypeError
                     Sample.now_manila Sample.three_shapes_tasks) H)).
Defined.

Example three_shapes_rows :
  match Table.fill_table Sample.py_format TypeError Sample.now_manila
          Sample.three_shapes_tasks with
  | Ok rows => map (fun r => (Table.key r, firstn 2 (Table.cells r))) rows
  | Raise _ => []
  end =
  [(0, [VStr "01/10 12:30"; VStr "Today"]);
   (1, [VStr "01/11 08:00"; VStr "Upcoming"]);
   (2, [VStr "01/12 08:00"; VStr "Upcoming"]);
   (3, [VStr "01/13 08:00"; VStr "Upcoming"])].
Proof. vm_compute. reflexivity. Qed.

Lemma null_title_stops_the_table_witness :
  Sample.aggregate (VList []) (VList [Scenario.untitled_event]) []
  = Ok [Scenario.untitled_event_task]
  /\ In Scenario.untitled_event_task [Scenario.untitled_event_task]
  /\ getitem (raw Scenario.untitled_event_task)
       (title_field Scenario.untitled_event_task) = Ok VNone
  /\ title Scenario.untitled_event_task = VNone
  /\ raises (Table.fill_table Sample.py_format TypeError Sample.now_manila
               [Scenario.untitled_event_task]) = true.
Proof.
  assert (H1 : Sample.aggregate (VList []) (VList [Scenario.untitled_event]) []
               = Ok [Scenario.untitled_event_task])
    by (vm_compute; reflexivity).
  assert (H2 : In Scenario.untitled_event_task [Scenario.untitled_event_task])
    by (left; reflexivity).
  assert (H3 : getitem (raw Scenario.untitled_event_task)
                 (title_field Scenario.untitled_event_task) = Ok VNone)
    by reflexivity.
  exact (conj H1 (conj H2 (conj H3
           (null_title_stops_the_table Sample.py_format isoparse_sample
              Sample.manila Sample.canvas TypeError _ _ _ _ _ _ _ _
              H1 H2 H3)))).
Defined.

End Scenarios.
